(** * Scoring and ranking engine of the running-route recommender

    A shallow embedding of the route recommendation engine
    ([src/services/recommendationEngine.ts]), of the weather service it
    calls ([getWeatherSuitabilityScore]) and of the preference learner of
    the feedback service ([calculateNewPreference]).

    Numbers.  A TypeScript [number] is modelled by an exact rational [Q]:
    the arithmetic of the source is read over the rationals, without the
    rounding of binary64 and without NaN or the infinities.  Equality of
    scores is therefore [Qeq] (written [==]), comparisons are the boolean
    tests below.  A division by zero, which [Q] evaluates to [0], can only
    be reached in [calculateUserRouteMatch], from a negative distance or a
    negative bound of the distance range.

    Objects typed [any] in the source are modelled by what the engine reads
    from them: a finite map from property names to numbers for the
    suitability tables, the truthiness of the looked-up flags otherwise.
    A property is looked up among the own properties of an object; those
    inherited from [Object.prototype] are not modelled. *)

From Stdlib Require Import QArith Qround Qminmax Qabs Lqa ZArith Bool Ascii.
From stdpp Require Import gmap strings list pretty.

Local Open Scope Q_scope.
Local Open Scope string_scope.

(** ** Numbers of the source language *)

Definition Qleb (x y : Q) : bool := Qle_bool x y.
Definition Qltb (x y : Q) : bool := negb (Qleb y x).
Definition Qgeb (x y : Q) : bool := Qleb y x.
Definition Qgtb (x y : Q) : bool := negb (Qleb x y).

Declare Scope js_scope.
Delimit Scope js_scope with js.
Infix "<=?" := Qleb (at level 70, no associativity) : js_scope.
Infix "<?" := Qltb (at level 70, no associativity) : js_scope.
Infix ">=?" := Qgeb (at level 70, no associativity) : js_scope.
Infix ">?" := Qgtb (at level 70, no associativity) : js_scope.
Infix "=?" := Qeq_bool (at level 70, no associativity) : js_scope.
Local Open Scope js_scope.

(** The functions of the [Math] object that the services use. *)
Module Math.

Definition max (x y : Q) : Q := Qmax x y.
Definition min (x y : Q) : Q := Qmin x y.
Definition abs (x : Q) : Q := Qabs x.

(** [Math.round]: the nearest integer, a tie going up. *)
Definition round (x : Q) : Z := Qfloor (x + 0.5).

End Math.

(** [x || d] on a number: the default replaces a falsy [x], that is [0]
    (and [null] or [undefined], which a [Q] does not have). *)
Definition orDefault (x d : Q) : Q := if x =? 0 then d else x.

(** [case] labels of a [switch] over a string. *)
Definition oneOf (s : string) (labels : list string) : bool :=
  existsb (String.eqb s) labels.

(** ** The weather service *)

Module WeatherService.

Record WeatherData := {
  temperature : Q;
  condition : string;
  humidity : Q;
  windSpeed : Q;
  description : string;
  icon : string;
  uvIndex : option Q;
  visibility : option Q;
  pressure : option Q;
  feelsLike : option Q
}.

(** [getWeatherSuitabilityScore], statement by statement: [score] starts
    at [1.0] and is multiplied in place four times, then clamped. *)
Definition getWeatherSuitabilityScore (weather : WeatherData) : Q :=
  let score := 1.0 in
  let score :=
    if (temperature weather >=? 15) && (temperature weather <=? 25)
    then score * 1.0
    else if (temperature weather >=? 10) && (temperature weather <=? 30)
    then score * 0.8
    else if (temperature weather >=? 5) && (temperature weather <=? 35)
    then score * 0.6
    else score * 0.3 in
  let score :=
    if oneOf (condition weather) ["clear"; "sunny"; "partly-cloudy"]
    then score * 1.0
    else if oneOf (condition weather) ["cloudy"; "overcast"]
    then score * 0.9
    else if oneOf (condition weather) ["light-rain"]
    then score * 0.4
    else if oneOf (condition weather) ["rain"; "heavy-rain"]
    then score * 0.1
    else if oneOf (condition weather) ["snow"; "fog"]
    then score * 0.2
    else score * 0.7 in
  let score :=
    if windSpeed weather <=? 10 then score * 1.0
    else if windSpeed weather <=? 20 then score * 0.8
    else score * 0.5 in
  let score :=
    if (humidity weather >=? 40) && (humidity weather <=? 70)
    then score * 1.0
    else if (humidity weather >=? 30) && (humidity weather <=? 80)
    then score * 0.9
    else score * 0.7 in
  Math.max 0 (Math.min 1 score).

(** The four sub-scores as the specification words them. *)
Module Spec.

Definition temperatureBand (t : Q) : Q :=
  if (15 <=? t) && (t <=? 25) then 1.0
  else if (10 <=? t) && (t <=? 30) then 0.8
  else if (5 <=? t) && (t <=? 35) then 0.6
  else 0.3.

Definition conditionTable : list (string * Q) :=
  [ ("clear", 1.0); ("sunny", 1.0); ("partly-cloudy", 1.0);
    ("cloudy", 0.9); ("overcast", 0.9);
    ("light-rain", 0.4);
    ("rain", 0.1); ("heavy-rain", 0.1);
    ("snow", 0.2); ("fog", 0.2) ].

Fixpoint assoc (c : string) (table : list (string * Q)) : option Q :=
  match table with
  | [] => None
  | (k, v) :: rest => if String.eqb c k then Some v else assoc c rest
  end.

Definition conditionLookup (c : string) : Q :=
  match assoc c conditionTable with
  | Some v => v
  | None => 0.7
  end.

Definition windBand (w : Q) : Q :=
  if w <=? 10 then 1.0 else if w <=? 20 then 0.8 else 0.5.

Definition humidityBand (h : Q) : Q :=
  if (40 <=? h) && (h <=? 70) then 1.0
  else if (30 <=? h) && (h <=? 80) then 0.9
  else 0.7.

End Spec.

Definition reading (t : Q) (c : string) (h w : Q) : WeatherData :=
  {| temperature := t; condition := c; humidity := h; windSpeed := w;
     description := ""; icon := "";
     uvIndex := None; visibility := None; pressure := None;
     feelsLike := None |}.

(** The same reading under another wind speed. *)
Definition withWindSpeed (weather : WeatherData) (w : Q) : WeatherData :=
  {| temperature := temperature weather; condition := condition weather;
     humidity := humidity weather; windSpeed := w;
     description := description weather; icon := icon weather;
     uvIndex := uvIndex weather; visibility := visibility weather;
     pressure := pressure weather; feelsLike := feelsLike weather |}.

(** *** Weather-based route suggestions *)

(** The conditions with the best multiplier, and those of the rain case. *)
Definition fair (c : string) : Prop :=
  c = "clear" \/ c = "sunny" \/ c = "partly-cloudy".

Definition rainy (c : string) : Prop := c = "rain" \/ c = "heavy-rain".

Record RouteSuggestion := {
  suggestionType : string;
  message : string;
  suggestedRoutes : list string
}.

Definition getWeatherBasedRouteRecommendations (weather : WeatherData)
    : list RouteSuggestion :=
  let recommendations := [] in
  if String.eqb (condition weather) "rain"
     || String.eqb (condition weather) "heavy-rain"
  then recommendations ++
       [ {| suggestionType := "indoor";
            message := "雨天建议选择室内跑步机或体育馆";
            suggestedRoutes := ["室内体育馆"; "健身房跑步机"; "地下通道"] |} ]
  else if temperature weather >? 30
  then recommendations ++
       [ {| suggestionType := "shade";
            message := "高温天气建议选择有遮阴的路线";
            suggestedRoutes := ["公园林荫道"; "河滨绿道"; "地下通道"] |} ]
  else if temperature weather <? 5
  then recommendations ++
       [ {| suggestionType := "warm";
            message := "低温天气建议选择避风的路线";
            suggestedRoutes := ["室内场馆"; "建筑群间道路"; "地铁站周边"] |} ]
  else recommendations ++
       [ {| suggestionType := "outdoor";
            message := "天气适宜，推荐户外路线";
            suggestedRoutes := ["滨江大道"; "世纪公园"; "外滩步道"] |} ].

End WeatherService.

(** ** Arrays of the source language *)

Module JsArray.

Section Sort.
Context {A : Type} (compareFn : A -> A -> Q).

(** [Array.prototype.sort(compareFn)].  ECMAScript requires the sort to
    be stable and to put [b] before [a] only when [compareFn a b > 0];
    for a comparator that is a difference of keys there is exactly one
    such arrangement (lemma [sort_unique] below), which this insertion
    sort computes: the elements are inserted from the last to the
    first, each one in front of the first element it does not have to
    follow. *)
Fixpoint insert (x : A) (l : list A) : list A :=
  match l with
  | [] => [x]
  | y :: ys =>
      if compareFn x y >? 0 then y :: insert x ys else x :: y :: ys
  end.

Definition sort (l : list A) : list A := foldr insert [] l.
End Sort.

(** [Array.prototype.slice(start, end)] with integer arguments: a
    negative index counts from the end of the array. *)
Definition relativeIndex (len i : Z) : Z :=
  if (i <? 0)%Z then Z.max (len + i) 0 else Z.min i len.

Definition slice {A : Type} (start end_ : Z) (l : list A) : list A :=
  let len := Z.of_nat (length l) in
  let k := relativeIndex len start in
  let final := relativeIndex len end_ in
  take (Z.to_nat (final - k)) (drop (Z.to_nat k) l).

(** [before l a b]: some occurrence of [a] in [l] is followed, later on,
    by an occurrence of [b]. *)
Inductive before {A : Type} : list A -> A -> A -> Prop :=
| before_here (x : A) (l : list A) (b : A) :
    In b l -> before (x :: l) x b
| before_later (x : A) (l : list A) (a b : A) :
    before l a b -> before (x :: l) a b.

(** [descending key l]: no element of [l] is followed by one with a
    larger key. *)
Definition descending {A : Type} (key : A -> Q) (l : list A) : Prop :=
  forall a b : A, before l a b -> key b <= key a.

(** The comparator that sorts by decreasing key. *)
Definition byKey {A : Type} (key : A -> Q) (a b : A) : Q := key b - key a.

(** The elements of [l] whose key is [s], in the order of [l]. *)
Definition keyed {A : Type} (key : A -> Q) (s : Q) (l : list A) : list A :=
  List.filter (fun x => key x =? s) l.

(** [includes] on an array of numbers and on an array of strings. *)
Definition includesNum (l : list Q) (x : Q) : bool := existsb (Qeq_bool x) l.
Definition includesStr (l : list string) (x : string) : bool :=
  existsb (String.eqb x) l.

End JsArray.

(** ** The recommendation engine *)

Module RecommendationEngine.

Record DistanceRange := { min : Q; max : Q }.

(** [weather_preferences], typed [any], is never read and is left out. *)
Record UserProfile := {
  profile_id : string;
  fitness_level : Q;
  difficulty_preference : string;
  distance_range : option DistanceRange;
  terrain_preferences : option (list string);
  time_preferences : list string;
  running_goals : list string
}.

(** [route.features] is typed [any]; the engine only tests four of its
    properties for truthiness, which is what this record keeps. *)
Record Features := {
  shade : bool;
  indoor : bool;
  scenic : bool;
  facilities : bool
}.

(** A route.  [description] and [gps_coordinates] are never read by the
    engine and are left out.  The two suitability tables are typed [any]
    and may be missing, hence the [option]. *)
Record Route := {
  id : string;
  name : string;
  distance : Q;
  difficulty_level : Q;
  terrain_type : string;
  features : Features;
  avg_rating : Q;
  total_ratings : Q;
  elevation_gain : Q;
  estimated_duration : Q;
  safety_rating : Q;
  lighting_quality : string;
  weather_suitability : option (gmap string Q);
  time_suitability : option (gmap string Q)
}.

Record UserActivity := {
  total_runs : Q;
  total_distance : Q;
  activity_avg_pace : Q;
  favorite_terrain : string;
  favorite_time : string;
  fitness_improvement_score : Q;
  consistency_score : Q;
  exploration_score : Q
}.

Record RunningHistory := {
  run_id : string;
  route_id : string;
  run_distance : Q;
  duration : Q;
  avg_pace : Q;
  user_rating : Q;
  effort_level : Q;
  weather_condition : string;
  completed_at : string
}.

Record Reasoning := {
  factors : list string;
  weather_match : bool;
  time_match : bool;
  difficulty_match : bool;
  preference_match : bool;
  novelty_factor : bool;
  safety_factor : bool
}.

Record Recommendation := {
  route : Route;
  score : Q;
  confidence_score : Q;
  reasoning : Reasoning;
  recommendation_type : string;
  weather_factor : WeatherService.WeatherData;
  time_factor : string;
  difficulty_match_score : Q;
  preference_match_score : Q;
  novelty_score : Q;
  reason : string
}.

(** The fields of the class. *)
Record Engine := {
  userId : string;
  userProfile : option UserProfile;
  userActivity : option UserActivity;
  runningHistory : list RunningHistory
}.

(** [new RecommendationEngine(userId)]. *)
Definition create (userId : string) : Engine :=
  {| userId := userId; userProfile := None; userActivity := None;
     runningHistory := [] |}.

(** *** The external store

    What one awaited query of the store client yields: it resolves to
    [{ data, error }], [data] being [null] when there is none, or it is
    rejected and the [await] throws. *)
Inductive Response (A : Type) : Type :=
| Resolved (data : option A) (error : bool)
| Rejected.
Arguments Resolved {A} data error.
Arguments Rejected {A}.

(** The answers of the store to the four queries of the engine. *)
Record Store := {
  user_preferences : Response UserProfile;
  user_activity_stats : Response UserActivity;
  running_history : Response (list RunningHistory);
  routes : Response (list Route)
}.

(** [loadUserData]: three queries in a row inside one [try]; a rejected
    query skips the rest and leaves the fields not yet assigned as they
    were. *)
Definition loadUserData (this : Engine) (db : Store) : Engine :=
  match user_preferences db with
  | Rejected => this
  | Resolved preferences _ =>
      let this :=
        {| userId := userId this; userProfile := preferences;
           userActivity := userActivity this;
           runningHistory := runningHistory this |} in
      match user_activity_stats db with
      | Rejected => this
      | Resolved activity _ =>
          let this :=
            {| userId := userId this; userProfile := userProfile this;
               userActivity := activity;
               runningHistory := runningHistory this |} in
          match running_history db with
          | Rejected => this
          | Resolved history _ =>
              {| userId := userId this; userProfile := userProfile this;
                 userActivity := userActivity this;
                 runningHistory := default [] history |}
          end
      end
  end.

(** *** The built-in catalogue *)

(** The [features] of the built-in routes are arrays of labels: none of the
    four properties the engine tests is defined on them. *)
Definition noFeatures : Features :=
  {| shade := false; indoor := false; scenic := false; facilities := false |}.

Definition table (entries : list (string * Q)) : option (gmap string Q) :=
  Some (list_to_map entries).

Definition fallbackRoute (id name : string) (distance difficulty_level : Q)
    (avg_rating total_ratings elevation_gain estimated_duration
     safety_rating : Q) (lighting_quality : string)
    (rain sun wind morning afternoon evening night : Q) : Route :=
  {| id := id; name := name; distance := distance;
     difficulty_level := difficulty_level; terrain_type := "平路";
     features := noFeatures; avg_rating := avg_rating;
     total_ratings := total_ratings; elevation_gain := elevation_gain;
     estimated_duration := estimated_duration;
     safety_rating := safety_rating;
     lighting_quality := lighting_quality;
     weather_suitability :=
       table [("rain", rain); ("sun", sun); ("wind", wind)];
     time_suitability :=
       table [("morning", morning); ("afternoon", afternoon);
              ("evening", evening); ("night", night)] |}.

Definition getFallbackRoutes : list Route :=
  [ fallbackRoute "route-1" "外滩滨江步道" 5.2 3 4.6 128 15 35 9 "excellent"
      0.3 0.9 0.7 0.9 0.8 0.95 0.85;
    fallbackRoute "route-2" "世纪公园环湖跑道" 3.8 2 4.4 95 8 25 8 "good"
      0.6 0.8 0.9 0.95 0.7 0.8 0.4;
    fallbackRoute "route-3" "徐家汇公园慢跑径" 2.5 1 4.2 67 5 18 9 "excellent"
      0.7 0.8 0.8 0.8 0.9 0.85 0.7;
    fallbackRoute "route-4" "静安雕塑公园跑道" 2.8 2 4.3 82 6 20 8 "good"
      0.5 0.9 0.7 0.8 0.8 0.9 0.6;
    fallbackRoute "route-5" "复兴公园晨跑路线" 1.8 1 4.1 54 3 15 7 "fair"
      0.4 0.8 0.9 0.95 0.6 0.7 0.3;
    fallbackRoute "route-6" "陆家嘴滨江大道" 4.5 3 4.5 156 12 30 9 "excellent"
      0.3 0.9 0.6 0.8 0.8 0.95 0.9;
    fallbackRoute "route-7" "中山公园环形跑道" 3.2 2 4.0 73 7 22 8 "good"
      0.6 0.8 0.8 0.9 0.7 0.8 0.5;
    fallbackRoute "route-8" "黄浦江两岸贯通道" 8.5 5 4.7 89 25 55 8 "good"
      0.2 0.9 0.5 0.9 0.7 0.8 0.6 ].

(** [getAllRoutes]: the rows of the store when there are some; the built-in
    catalogue when the query fails, is rejected or yields no row. *)
Definition getAllRoutes (db : Store) : list Route :=
  match routes db with
  | Rejected => getFallbackRoutes
  | Resolved data error =>
      if error then getFallbackRoutes
      else match data with
           | Some ((_ :: _) as rows) => rows
           | _ => getFallbackRoutes
           end
  end.

(** *** The signal calculators *)

(** Truthiness of a looked-up property of a table of numbers: an absent
    property is [undefined], a present one is falsy when it is [0]. *)
Definition truthy (v : option Q) : bool :=
  match v with
  | Some x => negb (x =? 0)
  | None => false
  end.

(** The property names of [difficultyMap] are taken to be looked up among
    its own three entries only. *)
Definition difficultyMap : gmap string (list Q) :=
  list_to_map [ ("easy", [1; 2; 3]); ("moderate", [4; 5; 6]);
                ("hard", [7; 8; 9; 10]) ].

Definition calculateUserRouteMatch (this : Engine) (route : Route) : Q :=
  match userProfile this with
  | None => 0.5
  | Some profile =>
      let score := 0 in
      let factors := 0 in
      let '(score, factors) :=
        match distance_range profile with
        | Some range =>
            let score :=
              if (distance route >=? min range)
                 && (distance route <=? max range)
              then score + 0.25
              else if distance route <? min range
              then score + Math.max 0 (0.25 * (distance route / min range))
              else score + Math.max 0 (0.25 * (max range / distance route)) in
            (score, factors + 1)
        | None => (score, factors)
        end in
      let score :=
        if match terrain_preferences profile with
           | Some prefs => JsArray.includesStr prefs (terrain_type route)
           | None => false
           end
        then score + 0.2 else score in
      let factors := factors + 1 in
      let preferredLevels :=
        default [4; 5; 6] (difficultyMap !! difficulty_preference profile) in
      let score :=
        if JsArray.includesNum preferredLevels (difficulty_level route)
        then score + 0.2 else score in
      let factors := factors + 1 in
      let levelDiff :=
        Math.abs (fitness_level profile - difficulty_level route) in
      let score :=
        if levelDiff <=? 1 then score + 0.15
        else if levelDiff <=? 2 then score + 0.1
        else if levelDiff <=? 3 then score + 0.05
        else score in
      let factors := factors + 1 in
      if factors >? 0 then score / factors else 0.5
  end.

(** [array.reduce(f, 0)] and [array.length] as a number. *)
Definition reduce {A : Type} (f : Q -> A -> Q) (l : list A) (init : Q) : Q :=
  fold_left f l init.

Definition lengthOf {A : Type} (l : list A) : Q :=
  inject_Z (Z.of_nat (length l)).

Definition calculateHistoryMatch (this : Engine) (route : Route) : Q :=
  let history := runningHistory this in
  if lengthOf history =? 0 then 0.5
  else
    let avgDistance :=
      reduce (fun sum run => sum + run_distance run) history 0
      / lengthOf history in
    let avgEffort :=
      reduce (fun sum run => sum + orDefault (effort_level run) 5) history 0
      / lengthOf history in
    let avgRating :=
      reduce (fun sum run => sum + orDefault (user_rating run) 3) history 0
      / lengthOf history in
    let score := 0 in
    let distanceDiff := Math.abs (distance route - avgDistance) in
    let score :=
      if distanceDiff <=? 1 then score + 0.3
      else if distanceDiff <=? 2 then score + 0.2
      else if distanceDiff <=? 3 then score + 0.1
      else score in
    let expectedDifficulty := inject_Z (Math.round avgEffort) in
    let difficultyDiff :=
      Math.abs (difficulty_level route - expectedDifficulty) in
    let score :=
      if difficultyDiff <=? 1 then score + 0.3
      else if difficultyDiff <=? 2 then score + 0.2
      else score in
    let score := if avgRating >=? 4 then score + 0.2 else score in
    Math.min 1 score.

Definition calculateNoveltyScore (this : Engine) (route : Route) : Q :=
  let hasRun :=
    existsb (fun run => String.eqb (route_id run) (id route))
      (runningHistory this) in
  if hasRun then 0.2
  else
    let similarRuns := List.filter (fun _ => false) (runningHistory this) in
    if lengthOf similarRuns =? 0 then 1.0
    else if lengthOf similarRuns <=? 2 then 0.8
    else 0.6.

Definition calculateWeatherMatch (route : Route)
    (weather : WeatherService.WeatherData) : Q :=
  match weather_suitability route with
  | None => 0.5
  | Some suitability =>
      let weatherSuitability :=
        WeatherService.getWeatherSuitabilityScore weather in
      let condition := WeatherService.condition weather in
      let routeWeatherScore :=
        if oneOf condition ["clear"; "sunny"]
        then if truthy (suitability !! "sunny") then 1.0 else 0.3
        else if oneOf condition ["rain"; "heavy-rain"]
        then if truthy (suitability !! "rainy") then 0.8 else 0.1
        else if oneOf condition ["cloudy"; "partly-cloudy"]
        then 0.9
        else 0.7 in
      let routeWeatherScore :=
        if (WeatherService.temperature weather >? 30)
           && shade (features route)
        then routeWeatherScore + 0.2 else routeWeatherScore in
      let routeWeatherScore :=
        if (WeatherService.temperature weather <? 10)
           && indoor (features route)
        then routeWeatherScore + 0.3 else routeWeatherScore in
      Math.min 1 (routeWeatherScore * weatherSuitability)
  end.

Definition calculateTimeMatch (route : Route) (timeOfDay : string) : Q :=
  match time_suitability route with
  | None => 0.5
  | Some suitability =>
      let isTimeMatch := suitability !! timeOfDay in
      if truthy isTimeMatch then 1.0
      else if String.eqb timeOfDay "night"
      then if String.eqb (lighting_quality route) "excellent" then 0.8
           else if String.eqb (lighting_quality route) "good" then 0.6
           else 0.2
      else 0.5
  end.

(** *** The orchestrator *)

(** [factors.push(label)] under a condition. *)
Definition pushIf (c : bool) (label : string) (factors : list string)
    : list string :=
  if c then factors ++ [label] else factors.

(** The body of the loop of [generateRecommendations]: the recommendation
    pushed for one route. *)
Definition recommendationFor (this : Engine)
    (weather : WeatherService.WeatherData) (timeOfDay : string)
    (route : Route) : Recommendation :=
  let userMatch := calculateUserRouteMatch this route in
  let historyMatch := calculateHistoryMatch this route in
  let noveltyScore := calculateNoveltyScore this route in
  let weatherMatch := calculateWeatherMatch route weather in
  let timeMatch := calculateTimeMatch route timeOfDay in
  let safetyScore := safety_rating route / 5 in
  let popularityScore := Math.min 1 (avg_rating route / 5) in
  let confidenceScore :=
    userMatch * 0.25 +
    historyMatch * 0.2 +
    weatherMatch * 0.2 +
    timeMatch * 0.15 +
    safetyScore * 0.1 +
    popularityScore * 0.05 +
    noveltyScore * 0.05 in
  let weather_match := weatherMatch >? 0.7 in
  let time_match := timeMatch >? 0.7 in
  let difficulty_match := userMatch >? 0.6 in
  let preference_match := userMatch >? 0.5 in
  let novelty_factor := noveltyScore >? 0.8 in
  let safety_factor := safetyScore >? 0.8 in
  let factors := [] in
  let factors := pushIf weather_match "天气条件适宜" factors in
  let factors := pushIf time_match "时间安排合适" factors in
  let factors := pushIf difficulty_match "难度匹配" factors in
  let factors := pushIf preference_match "符合偏好" factors in
  let factors := pushIf novelty_factor "新路线探索" factors in
  let factors := pushIf safety_factor "安全性高" factors in
  let factors := pushIf (popularityScore >? 0.8) "用户评价高" factors in
  let factors := pushIf (scenic (features route)) "风景优美" factors in
  let factors := pushIf (facilities (features route)) "设施完善" factors in
  let recommendationType :=
    if weather_match && time_match && difficulty_match then "perfect_match"
    else if popularityScore >? 0.9 then "popular"
    else if difficulty_level route >=? 7 then "challenge"
    else if novelty_factor then "exploration"
    else if safety_factor && String.eqb timeOfDay "night" then "safe_night"
    else "general" in
  {| route := route;
     score := confidenceScore;
     confidence_score := confidenceScore;
     reasoning :=
       {| factors := factors;
          weather_match := weather_match;
          time_match := time_match;
          difficulty_match := difficulty_match;
          preference_match := preference_match;
          novelty_factor := novelty_factor;
          safety_factor := safety_factor |};
     recommendation_type := recommendationType;
     weather_factor := weather;
     time_factor := timeOfDay;
     difficulty_match_score := userMatch;
     preference_match_score := userMatch;
     novelty_score := noveltyScore;
     reason := String.concat "，" factors |}.

(** The comparator handed to [sort]. *)
Definition byConfidence (a b : Recommendation) : Q :=
  confidence_score b - confidence_score a.

(** [generateRecommendations]: the engine after the user data were loaded,
    and the list the promise resolves to.  A missing [limit] is [6]. *)
Definition generateRecommendations (this : Engine) (db : Store)
    (weather : WeatherService.WeatherData) (timeOfDay : string)
    (limit : option Z) : Engine * list Recommendation :=
  let limit := default 6%Z limit in
  let this := loadUserData this db in
  let routes := getAllRoutes db in
  let recommendations := map (recommendationFor this weather timeOfDay) routes in
  (this, JsArray.slice 0 limit (JsArray.sort byConfidence recommendations)).

(** The aggregation and the time-of-day calculator in the words of the
    specification, for comparison with the code above. *)
Module Spec.

Definition weights : list Q := [0.25; 0.2; 0.2; 0.15; 0.1; 0.05; 0.05].

Definition total (ws : list Q) : Q := foldr Qplus 0 ws.

Fixpoint dot (ws xs : list Q) : Q :=
  match ws, xs with
  | w :: ws, x :: xs => x * w + dot ws xs
  | _, _ => 0
  end.

(** The seven sub-scores of a route, in the order of the weights:
    preference match, history match, weather match, time match, safety
    rating over 5, popularity (average rating over 5, at most 1), novelty. *)
Definition subScores (this : Engine) (weather : WeatherService.WeatherData)
    (timeOfDay : string) (route : Route) : list Q :=
  [ calculateUserRouteMatch this route;
    calculateHistoryMatch this route;
    calculateWeatherMatch route weather;
    calculateTimeMatch route timeOfDay;
    safety_rating route / 5;
    Math.min 1 (avg_rating route / 5);
    calculateNoveltyScore this route ].

Definition inUnit (x : Q) : Prop := 0 <= x <= 1.

(** The three tiers of the night-time fallback. *)
Definition lightingTier (lighting_quality : string) : Q :=
  if String.eqb lighting_quality "excellent" then 0.8
  else if String.eqb lighting_quality "good" then 0.6
  else 0.2.

(** The entry of a suitability table for a time bucket does not count:
    there is none, or it is [0]. *)
Definition unlisted (suitability : gmap string Q) (timeOfDay : string) : Prop :=
  suitability !! timeOfDay = None
  \/ exists v, suitability !! timeOfDay = Some v /\ v == 0.

(** What the time-of-day calculator returns, case by case. *)
Inductive TimeMatch (route : Route) (timeOfDay : string) : Q -> Prop :=
| tm_no_table :
    time_suitability route = None ->
    TimeMatch route timeOfDay 0.5
| tm_listed (suitability : gmap string Q) (v : Q) :
    time_suitability route = Some suitability ->
    suitability !! timeOfDay = Some v -> ~ v == 0 ->
    TimeMatch route timeOfDay 1.0
| tm_night (suitability : gmap string Q) :
    time_suitability route = Some suitability ->
    unlisted suitability timeOfDay -> timeOfDay = "night" ->
    TimeMatch route timeOfDay (lightingTier (lighting_quality route))
| tm_other (suitability : gmap string Q) :
    time_suitability route = Some suitability ->
    unlisted suitability timeOfDay -> timeOfDay <> "night" ->
    TimeMatch route timeOfDay 0.5.

End Spec.

(** Concrete inputs on which the statements below are exercised. *)
Module Sample.

Definition mildDay : WeatherService.WeatherData :=
  WeatherService.reading 20 "clear" 55 5.

(** Two routes that differ in their identifier and name only. *)
Definition riverside (id name : string) : Route :=
  fallbackRoute id name 4 3 4.5 40 10 30 4 "good" 0.3 0.9 0.7 0.9 0.8 0.9 0.4.

Definition north : Route := riverside "north" "North bank".
Definition south : Route := riverside "south" "South bank".

(** A store without a profile and without history, holding the two
    routes. *)
Definition twins : Store :=
  {| user_preferences := Resolved None false;
     user_activity_stats := Resolved None false;
     running_history := Resolved None false;
     routes := Resolved (Some [north; south]) false |}.

Definition newcomer : Engine := create "runner".

Definition regular : UserProfile :=
  {| profile_id := "runner"; fitness_level := 3;
     difficulty_preference := "easy";
     distance_range := Some {| min := 3; max := 6 |};
     terrain_preferences := Some ["平路"];
     time_preferences := ["morning"]; running_goals := [] |}.

Definition lastRun : RunningHistory :=
  {| run_id := "run-1"; route_id := "route-1"; run_distance := 5;
     duration := 30; avg_pace := 6; user_rating := 5; effort_level := 3;
     weather_condition := "clear"; completed_at := "2024-05-01" |}.

Definition seasoned : Engine :=
  {| userId := "runner"; userProfile := Some regular; userActivity := None;
     runningHistory := [lastRun] |}.

(** A store that cannot be reached: every query is rejected. *)
Definition offline : Store :=
  {| user_preferences := Rejected; user_activity_stats := Rejected;
     running_history := Rejected; routes := Rejected |}.

Definition emptyTable : Store :=
  {| user_preferences := Resolved None false;
     user_activity_stats := Resolved None false;
     running_history := Resolved (Some []) false;
     routes := Resolved (Some []) false |}.

(** A store that rejects the user queries, so that the engine keeps what it
    holds, and answers the route query with [rows]. *)
Definition keeping (rows : list Route) : Store :=
  {| user_preferences := Rejected; user_activity_stats := Rejected;
     running_history := Rejected; routes := Resolved (Some rows) false |}.

Definition ids (l : list Recommendation) : list string :=
  map (fun r => id (route r)) l.

End Sample.

End RecommendationEngine.

(** ** The preference learner of the feedback service *)

Module FeedbackService.

(** Modelled from the spec: the type [FeedbackData] is declared in
    [components/RouteFeedback], which is not part of the sources at hand.
    These are the fields the learner reads: the overall rating and the
    three per-dimension ratings. *)
Record FeedbackData := {
  routeId : string;
  rating : Q;
  difficulty : Q;
  safety : Q;
  scenery : Q
}.

(** The columns of a [user_preferences] row that the learner reads and
    writes back. *)
Record Preferences := {
  difficulty_preference : Q;
  safety_importance : Q;
  scenery_importance : Q
}.

Definition calculateNewPreference
    (currentPreference newRating overallRating : Q) : Q :=
  if newRating =? 0 then currentPreference
  else
    let weight := overallRating / 5 in
    let newPreference := currentPreference * 0.8 + newRating * weight * 0.2 in
    Math.max 1 (Math.min 10 (inject_Z (Math.round (newPreference * 10)) / 10)).

(** [existingPrefs?.column || 5]. *)
Definition columnOr5 (existingPrefs : option Preferences)
    (column : Preferences -> Q) : Q :=
  match existingPrefs with
  | Some prefs => orDefault (column prefs) 5
  | None => 5
  end.

(** The [updateData] that [updateUserPreferences] computes from the row it
    fetched and upserts. *)
Definition updateData (existingPrefs : option Preferences)
    (feedback : FeedbackData) : Preferences :=
  {| difficulty_preference :=
       calculateNewPreference (columnOr5 existingPrefs difficulty_preference)
         (difficulty feedback) (rating feedback);
     safety_importance :=
       calculateNewPreference (columnOr5 existingPrefs safety_importance)
         (safety feedback) (rating feedback);
     scenery_importance :=
       calculateNewPreference (columnOr5 existingPrefs scenery_importance)
         (scenery feedback) (rating feedback) |}.

(** The update rule as the specification words it, for comparison: an
    exponential moving average of the prior value and the weighted
    observation, clamped to [1,10] and not rounded. *)
Module Spec.

Definition clamp (x lo hi : Q) : Q := Qmax lo (Qmin hi x).

Definition movingAverage (old observed overallRating : Q) : Q :=
  old * 0.8 + observed * (overallRating / 5) * 0.2.


(** [x] has at most one decimal place. *)
Definition isTenth (x : Q) : Prop := exists k : Z, x == inject_Z k / 10.

(** [k / 10] is the multiple of 0.1 nearest to [x], the upper one on a
    tie. *)
Definition nearestTenth (k : Z) (x : Q) : Prop :=
  inject_Z k / 10 - 0.05 <= x /\ x < inject_Z k / 10 + 0.05.

End Spec.

End FeedbackService.

(** ** The queries and the submission of the feedback service *)

Module FeedbackQueries.
Import FeedbackService.

(** What an awaited query of the store client yields in this service, where
    the code of the error is read: [{ data, error }] with the code of the
    error when there is one, or a rejection. *)
Inductive Answer (A : Type) : Type :=
| Answered (data : option A) (error : option string)
| Refused.
Arguments Answered {A} data error.
Arguments Refused {A}.

(** What a call does: it returns or it throws. *)
Inductive Outcome (A : Type) : Type :=
| Returned (value : A)
| Thrown.
Arguments Returned {A} value.
Arguments Thrown {A}.

(** The columns of a [route_feedback] row that the service reads.  A
    missing rating column counts as [0], as [|| 0] makes it. *)
Record FeedbackRow := {
  row_rating : Q;
  difficulty_rating : Q;
  safety_rating : Q;
  scenery_rating : Q;
  row_tags : option (list string);
  feedback_text : option string;
  created_at : string
}.

Definition sumOf (column : FeedbackRow -> Q) (rows : list FeedbackRow) : Q :=
  RecommendationEngine.reduce (fun sum f => sum + column f) rows 0.

Definition count {A : Type} (l : list A) : Q :=
  RecommendationEngine.lengthOf l.

(** [Math.round(x * scale) / scale]. *)
Definition rounded (scale x : Q) : Q :=
  inject_Z (Math.round (x * scale)) / scale.

Definition getRouteAverageRating (answer : Answer (list FeedbackRow)) : Q :=
  match answer with
  | Refused => 0
  | Answered _ (Some _) => 0
  | Answered data None =>
      match data with
      | None => 0
      | Some rows =>
          if count rows =? 0 then 0
          else
            let average := sumOf row_rating rows / count rows in
            rounded 10 average
      end
  end.

(** *** Counting tags *)

(** [tagCounts[tag] = (tagCounts[tag] || 0) + 1] on an object whose own
    properties are kept in the order of their creation. *)
Fixpoint bump (tag : string) (tagCounts : list (string * Q))
    : list (string * Q) :=
  match tagCounts with
  | [] => [(tag, 0 + 1)]
  | (key, n) :: rest =>
      if String.eqb key tag then (key, orDefault n 0 + 1) :: rest
      else (key, n) :: bump tag rest
  end.

Definition countTags (feedbacks : list FeedbackRow) : list (string * Q) :=
  fold_left
    (fun tagCounts feedback =>
       match row_tags feedback with
       | Some tags => fold_left (fun counts tag => bump tag counts) tags tagCounts
       | None => tagCounts
       end)
    feedbacks [].

(** The value of a canonical array index: a string of decimal digits
    without a leading zero, below [2^32 - 1]. *)
Definition digit (a : Ascii.ascii) : option N :=
  let code := Ascii.N_of_ascii a in
  if (48 <=? code)%N && (code <=? 57)%N then Some (code - 48)%N else None.

Fixpoint digits (s : string) (value : N) : option N :=
  match s with
  | EmptyString => Some value
  | String a rest =>
      match digit a with
      | Some d => digits rest (value * 10 + d)%N
      | None => None
      end
  end.

Definition arrayIndex (key : string) : option N :=
  match key with
  | EmptyString => None
  | String a rest =>
      if Ascii.eqb a "0"%char
      then match rest with EmptyString => Some 0%N | _ => None end
      else match digits key 0 with
           | Some n => if (n <? 4294967295)%N then Some n else None
           | None => None
           end
  end.

Definition indexValue (entry : string * Q) : Q :=
  match arrayIndex entry.1 with
  | Some n => inject_Z (Z.of_N n)
  | None => 0
  end.

(** [Object.entries]: the keys that are array indices come first, in
    ascending numeric order, then the other keys in the order of their
    creation. *)
Definition entries (object : list (string * Q)) : list (string * Q) :=
  JsArray.sort (fun a b => indexValue a - indexValue b)
    (List.filter (fun entry => bool_decide (is_Some (arrayIndex entry.1)))
       object)
  ++ List.filter (fun entry => negb (bool_decide (is_Some (arrayIndex entry.1))))
       object.

Record TagCount := { tag : string; tagCount : Q }.

Definition byCount (a b : TagCount) : Q := tagCount b - tagCount a.

(** The ranking of the tags shared by the statistics and by
    [getPopularTags]. *)
Definition rankTags (feedbacks : list FeedbackRow) (limit : Z)
    : list TagCount :=
  JsArray.slice 0 limit
    (JsArray.sort byCount
       (map (fun entry => {| tag := entry.1; tagCount := entry.2 |})
          (entries (countTags feedbacks)))).


(** *** The statistics of a route *)

Record Comment := {
  comment : option string;
  commentRating : Q;
  createdAt : string
}.

Record FeedbackStats := {
  statsRouteId : string;
  averageRating : Q;
  totalFeedbacks : Q;
  difficultyRating : Q;
  safetyRating : Q;
  sceneryRating : Q;
  recommendationRate : Q;
  popularTags : list TagCount;
  recentComments : list Comment
}.

Section Builtins.

(** Two built-ins of the language are taken as they are:
    [new Date(s).getTime()], on timestamps that are dates, and
    [String.prototype.trim]. *)
Context (getTime : string -> Q) (trim : string -> string).

(** [f.feedback_text && f.feedback_text.trim()], as a test. *)
Definition hasComment (f : FeedbackRow) : bool :=
  match feedback_text f with
  | Some text => negb (String.eqb text "") && negb (String.eqb (trim text) "")
  | None => false
  end.

Definition byDate (a b : FeedbackRow) : Q :=
  getTime (created_at b) - getTime (created_at a).

Definition getRouteFeedbackStats (routeId : string)
    (answer : Answer (list FeedbackRow)) : Outcome FeedbackStats :=
  match answer with
  | Refused => Thrown
  | Answered _ (Some _) => Thrown
  | Answered data None =>
      let feedbacks := default [] data in
      if count feedbacks =? 0
      then Returned
             {| statsRouteId := routeId; averageRating := 0;
                totalFeedbacks := 0; difficultyRating := 0;
                safetyRating := 0; sceneryRating := 0;
                recommendationRate := 0; popularTags := [];
                recentComments := [] |}
      else
        let totalFeedbacks := count feedbacks in
        let averageRating := sumOf row_rating feedbacks / totalFeedbacks in
        let difficultyRating :=
          sumOf (fun f => orDefault (difficulty_rating f) 0) feedbacks
          / totalFeedbacks in
        let safetyRating :=
          sumOf (fun f => orDefault (safety_rating f) 0) feedbacks
          / totalFeedbacks in
        let sceneryRating :=
          sumOf (fun f => orDefault (scenery_rating f) 0) feedbacks
          / totalFeedbacks in
        let recommendationRate :=
          count (List.filter (fun f => row_rating f >=? 4) feedbacks)
          / totalFeedbacks in
        let popularTags := rankTags feedbacks 10 in
        let recentComments :=
          map (fun f => {| comment := feedback_text f;
                           commentRating := row_rating f;
                           createdAt := created_at f |})
            (JsArray.slice 0 5
               (JsArray.sort byDate (List.filter hasComment feedbacks))) in
        Returned
          {| statsRouteId := routeId;
             averageRating := rounded 10 averageRating;
             totalFeedbacks := totalFeedbacks;
             difficultyRating := rounded 10 difficultyRating;
             safetyRating := rounded 10 safetyRating;
             sceneryRating := rounded 10 sceneryRating;
             recommendationRate := rounded 100 recommendationRate;
             popularTags := popularTags;
             recentComments := recentComments |}
  end.

End Builtins.

(** *** Submitting a feedback *)

(** Modelled from the spec: the remaining fields of the [FeedbackData]
    object of [components/RouteFeedback] that [submitFeedback] reads,
    beside the ratings. *)
Record Submission := {
  ratings : FeedbackData;
  tags : list string;
  feedbackComment : string
}.

(** The writes that the service asks of the store. *)
Inductive Write : Type :=
| InsertFeedback (route_id user_id : string)
    (rating difficulty_rating safety_rating scenery_rating : Q)
    (tags : list string) (feedback_text : string)
| UpsertPreferences (user_id : string) (updateData : Preferences).

(** The answers of the store to the three requests of a submission. *)
Record Answers := {
  insertAnswer : Answer unit;
  preferencesAnswer : Answer Preferences;
  upsertAnswer : Answer unit
}.

(** [updateUserPreferences]: the writes it asks for.  Whatever goes wrong
    is caught and logged inside. *)
Definition updateUserPreferences (store : Answers) (userId : string)
    (feedback : Submission) : list Write :=
  match preferencesAnswer store with
  | Refused => []
  | Answered existingPrefs fetchError =>
      if match fetchError with
         | Some code => negb (String.eqb code "PGRST116")
         | None => false
         end
      then []
      else [UpsertPreferences userId (updateData existingPrefs (ratings feedback))]
  end.

(** [updateRecommendationLearning] logs the learning data and updates the
    preferences; it catches whatever is thrown. *)
Definition updateRecommendationLearning (store : Answers)
    (feedback : Submission) (userId : string) : list Write :=
  updateUserPreferences store userId feedback.

(** [submitFeedback]: the writes asked for, in order, and the outcome. *)
Definition submitFeedback (store : Answers) (feedback : Submission)
    (userId : string) : list Write * Outcome unit :=
  let insert :=
    InsertFeedback (routeId (ratings feedback)) userId
      (rating (ratings feedback)) (difficulty (ratings feedback))
      (safety (ratings feedback)) (scenery (ratings feedback))
      (tags feedback) (feedbackComment feedback) in
  match insertAnswer store with
  | Refused => ([insert], Thrown)
  | Answered _ (Some _) => ([insert], Thrown)
  | Answered _ None =>
      (insert :: updateRecommendationLearning store feedback userId,
       Returned tt)
  end.






(** Concrete rows on which the statements below are exercised. *)
Module Sample.

Definition row (rating : Q) (tags : list string) (date : string)
    : FeedbackRow :=
  {| row_rating := rating; difficulty_rating := 3; safety_rating := 4;
     scenery_rating := 0; row_tags := Some tags;
     feedback_text := Some "fine"; created_at := date |}.

End Sample.

End FeedbackQueries.

(** ** The archetype of a recommendation, read off the inputs *)

Module Archetype.
Import RecommendationEngine.

(** The route was completed before: its identifier occurs in the history. *)
Definition completed (history : list RunningHistory) (route : Route) : bool :=
  existsb (fun run => String.eqb (route_id run) (id route)) history.

(** The archetype in terms of the route, the history and the time of day
    alone, for comparison with the [recommendationType] that
    [generateRecommendations] derives from the scores. *)
Definition archetype (history : list RunningHistory) (route : Route)
    (timeOfDay : string) : string :=
  if avg_rating route >? 4.5 then "popular"
  else if difficulty_level route >=? 7 then "challenge"
  else if negb (completed history route) then "exploration"
  else if (safety_rating route >? 4) && String.eqb timeOfDay "night"
  then "safe_night"
  else "general".

(** The whole ranking, before [slice] cuts it. *)
Definition ranking (this : Engine) (db : Store)
    (weather : WeatherService.WeatherData) (timeOfDay : string)
    : list Recommendation :=
  JsArray.sort byConfidence
    (map (recommendationFor (loadUserData this db) weather timeOfDay)
       (getAllRoutes db)).

End Archetype.

(** ** The safety analysis service *)

Module SafetyAnalysis.

Inductive TimeSlot : Set :=
| early_morning | morning | late_morning | afternoon | evening | night
| late_night.

Inductive RiskFactor : Set :=
| poor_lighting | isolated_area | high_crime_rate | heavy_traffic
| construction_zone | weather_conditions | crowd_density.

#[global] Instance TimeSlot_eq_dec : EqDecision TimeSlot.
Proof. solve_decision. Defined.

#[global] Instance RiskFactor_eq_dec : EqDecision RiskFactor.
Proof. solve_decision. Defined.

(** Modelled from the spec: the types [RealtimeLocation],
    [EnvironmentalData] and [RiskAnalysis] are declared in [../types],
    which is not part of the sources at hand.  These are the fields the
    service reads and writes.  Of a timestamp the service only reads the
    local hour, [new Date(timestamp).getHours()], which is what
    [timestamp] holds here; a missing [speed] is [0], as [|| 0] makes it. *)
Record RealtimeLocation := {
  latitude : Q;
  longitude : Q;
  timestamp : Z;
  speed : Q
}.

Record EnvironmentalData := {
  weather_condition : string;
  crowdDensity : Q;
  visibility : Q;
  lighting_level : Q
}.

Record RiskAnalysis := {
  overall_risk : Q;
  risk_factors : list RiskFactor;
  recommendations : list string;
  safe_alternatives : list string
}.

Record Incident := {
  incidentTimeSlot : TimeSlot;
  incidentLocation : RealtimeLocation;
  incidentType : string
}.

Record SafetyAnalysisConfig := {
  timeSlotWeights : TimeSlot -> Q;
  riskFactorWeights : RiskFactor -> Q;
  locationHistoryDays : Q;
  minimumDataPoints : Q
}.

Record TimeSlotSafetyData := {
  timeSlot : TimeSlot;
  safetyScore : Q;
  riskFactors : list RiskFactor;
  incidentCount : Q;
  totalRuns : Q;
  averageSpeed : Q;
  environmentalRisk : Q
}.

Record Hotspot := {
  location : RealtimeLocation;
  riskLevel : string;
  hotspotFactors : list RiskFactor;
  description : string
}.

Record RouteSafetyAnalysis := {
  routeId : string;
  overallSafetyScore : Q;
  timeSlotAnalysis : list TimeSlotSafetyData;
  riskHotspots : list Hotspot;
  routeRecommendations : list string
}.

Definition defaultConfig : SafetyAnalysisConfig :=
  {| timeSlotWeights := fun slot =>
       match slot with
       | early_morning => 0.7
       | morning => 0.9
       | late_morning => 0.85
       | afternoon => 0.8
       | evening => 0.6
       | night => 0.3
       | late_night => 0.1
       end;
     riskFactorWeights := fun factor =>
       match factor with
       | poor_lighting => 0.8
       | isolated_area => 0.9
       | high_crime_rate => 0.95
       | heavy_traffic => 0.7
       | construction_zone => 0.6
       | weather_conditions => 0.5
       | crowd_density => 0.4
       end;
     locationHistoryDays := 30;
     minimumDataPoints := 5 |}.

(** The one instance the module exports is built without arguments: its
    configuration is the default one. *)
Definition safetyAnalysisService : SafetyAnalysisConfig := defaultConfig.

(** [getTimeSlot], on the hour that [date.getHours()] yields. *)
Definition getTimeSlot (hour : Z) : TimeSlot :=
  if ((hour >=? 5) && (hour <? 7))%Z then early_morning
  else if ((hour >=? 7) && (hour <? 10))%Z then morning
  else if ((hour >=? 10) && (hour <? 12))%Z then late_morning
  else if ((hour >=? 12) && (hour <? 17))%Z then afternoon
  else if ((hour >=? 17) && (hour <? 20))%Z then evening
  else if ((hour >=? 20) && (hour <? 23))%Z then night
  else late_night.

Definition isSlot (a b : TimeSlot) : bool := bool_decide (a = b).

(** [array.push(x)]. *)
Definition push {A : Type} (array : list A) (x : A) : list A :=
  (array ++ [x])%list.

Section Service.

(** [this.config], and the hour that [new Date().getHours()] yields.  A
    call reads the clock several times; it is taken to get the same hour
    each time. *)
Context (config : SafetyAnalysisConfig) (now : Z).

Definition calculateTimeSlotBaseSafety (timeSlot : TimeSlot) : Q :=
  timeSlotWeights config timeSlot * 100.

Definition getHistoricalLocationRisk (location : RealtimeLocation) : Q :=
  let lat := latitude location in
  let lng := longitude location in
  if (lat >? 31.2) && (lat <? 31.25) && (lng >? 121.45) && (lng <? 121.5)
  then 0.8
  else if (lat >? 31.15) && (lat <? 31.3) && (lng >? 121.4)
          && (lng <? 121.55)
  then 0.4
  else 0.2.

Definition analyzeEnvironmentalRisk (location : RealtimeLocation)
    (environmentalData : option EnvironmentalData) : RiskAnalysis :=
  let riskFactors : list RiskFactor := [] in
  let riskScore := 0 in
  let timeSlot := getTimeSlot now in
  let timeRisk := 1 - timeSlotWeights config timeSlot in
  let riskScore := riskScore + timeRisk * 40 in
  let riskFactors :=
    if isSlot timeSlot night || isSlot timeSlot late_night
    then push riskFactors poor_lighting else riskFactors in
  let '(riskFactors, riskScore) :=
    match environmentalData with
    | Some data =>
        let '(riskFactors, riskScore) :=
          if String.eqb (weather_condition data) "rain"
             || String.eqb (weather_condition data) "storm"
          then (push riskFactors weather_conditions,
                riskScore + riskFactorWeights config weather_conditions * 20)
          else (riskFactors, riskScore) in
        let '(riskFactors, riskScore) :=
          if crowdDensity data <? 20
          then (push riskFactors isolated_area,
                riskScore + riskFactorWeights config isolated_area * 25)
          else if crowdDensity data >? 80
          then (push riskFactors crowd_density,
                riskScore + riskFactorWeights config crowd_density * 15)
          else (riskFactors, riskScore) in
        let '(riskFactors, riskScore) :=
          if visibility data <? 40
          then (push riskFactors weather_conditions,
                riskScore + riskFactorWeights config weather_conditions * 15)
          else (riskFactors, riskScore) in
        if lighting_level data <? 40
        then (push riskFactors poor_lighting,
              riskScore + riskFactorWeights config poor_lighting * 25)
        else (riskFactors, riskScore)
    | None => (riskFactors, riskScore)
    end in
  let historicalRisk := getHistoricalLocationRisk location in
  let riskScore := riskScore + historicalRisk * 30 in
  let riskFactors :=
    if historicalRisk >? 0.7 then push riskFactors high_crime_rate
    else riskFactors in
  {| overall_risk := Math.min riskScore 100;
     risk_factors := riskFactors;
     recommendations := [];
     safe_alternatives := [] |}.

Definition calculateConfidence (riskFactorCount : Q) : Q :=
  let baseConfidence := 0.6 in
  let factorBonus := Math.min (riskFactorCount * 0.1) 0.3 in
  Math.min (baseConfidence + factorBonus) 0.95.

Definition analyzeTimeSlotSafety (timeSlot : TimeSlot)
    (locationHistory : list RealtimeLocation)
    (incidentData : option (list Incident)) : TimeSlotSafetyData :=
  let baseSafety := calculateTimeSlotBaseSafety timeSlot in
  let timeSlotHistory :=
    List.filter (fun loc => isSlot (getTimeSlot (timestamp loc)) timeSlot)
      locationHistory in
  let incidents :=
    match incidentData with
    | Some data =>
        List.filter (fun incident => isSlot (incidentTimeSlot incident) timeSlot)
          data
    | None => []
    end in
  let incidentCount := RecommendationEngine.lengthOf incidents in
  let totalRuns := RecommendationEngine.lengthOf timeSlotHistory in
  let averageSpeed :=
    RecommendationEngine.reduce (fun sum loc => sum + orDefault (speed loc) 0)
      timeSlotHistory 0
    / Math.max (RecommendationEngine.lengthOf timeSlotHistory) 1 in
  let environmentalRisk :=
    match timeSlotHistory with
    | first :: _ => overall_risk (analyzeEnvironmentalRisk first None)
    | [] => 50
    end in
  let incidentRate :=
    if totalRuns >? 0 then incidentCount / totalRuns else 0 in
  let adjustedSafety := baseSafety * (1 - incidentRate * 0.5) in
  let riskFactors : list RiskFactor := [] in
  let riskFactors :=
    if isSlot timeSlot night || isSlot timeSlot late_night
    then push riskFactors poor_lighting else riskFactors in
  let riskFactors :=
    if incidentRate >? 0.1 then push riskFactors high_crime_rate
    else riskFactors in
  {| timeSlot := timeSlot;
     safetyScore := Math.max adjustedSafety 0;
     riskFactors := riskFactors;
     incidentCount := incidentCount;
     totalRuns := totalRuns;
     averageSpeed := averageSpeed;
     environmentalRisk := environmentalRisk |}.

Definition riskName (factor : RiskFactor) : string :=
  match factor with
  | poor_lighting => "照明不足"
  | isolated_area => "偏僻区域"
  | high_crime_rate => "治安风险"
  | heavy_traffic => "交通繁忙"
  | construction_zone => "施工区域"
  | weather_conditions => "天气不佳"
  | crowd_density => "人群拥挤"
  end.

Definition generateRiskDescription (riskFactors : list RiskFactor) : string :=
  String.concat "、" (map riskName riskFactors).

(** The loop of [identifyRiskHotspots], from index [i] on: [None] when
    the [fuel] runs out before the index leaves the array. *)
Fixpoint scanHotspots (fuel : nat) (locations : list RealtimeLocation)
    (step i : nat) (hotspots : list Hotspot) : option (list Hotspot) :=
  match fuel with
  | O => None
  | S fuel =>
      match locations !! i with
      | None => Some hotspots
      | Some location =>
          let riskAnalysis := analyzeEnvironmentalRisk location None in
          let hotspots :=
            if overall_risk riskAnalysis >? 60
            then
              let riskLevel :=
                if overall_risk riskAnalysis >? 80 then "high"
                else if overall_risk riskAnalysis >? 40 then "medium"
                else "low" in
              push hotspots
                {| location := location;
                   riskLevel := riskLevel;
                   hotspotFactors := risk_factors riskAnalysis;
                   description :=
                     generateRiskDescription (risk_factors riskAnalysis) |}
            else hotspots in
          scanHotspots fuel locations step (i + step) hotspots
      end
  end.

(** [identifyRiskHotspots]: every [Math.floor(length / 10)]-th location is
    examined. *)
Definition identifyRiskHotspots (fuel : nat)
    (locations : list RealtimeLocation) : option (list Hotspot) :=
  scanHotspots fuel locations (length locations / 10) 0 [].

Definition calculateOverallSafety (timeSlotAnalysis : list TimeSlotSafetyData)
    (riskHotspots : list Hotspot) : Q :=
  let timeSlotAverage :=
    RecommendationEngine.reduce (fun sum data => sum + safetyScore data)
      timeSlotAnalysis 0
    / RecommendationEngine.lengthOf timeSlotAnalysis in
  let hotspotPenalty := RecommendationEngine.lengthOf riskHotspots * 5 in
  Math.max (timeSlotAverage - hotspotPenalty) 0.

Definition getTimeSlotName (timeSlot : TimeSlot) : string :=
  match timeSlot with
  | early_morning => "清晨（5-7点）"
  | morning => "上午（7-10点）"
  | late_morning => "上午晚些（10-12点）"
  | afternoon => "下午（12-17点）"
  | evening => "傍晚（17-20点）"
  | night => "夜晚（20-23点）"
  | late_night => "深夜（23-5点）"
  end.

(** [factorCounts[factor] = (factorCounts[factor] || 0) + 1]. *)
Fixpoint bumpFactor (factor : RiskFactor)
    (factorCounts : list (RiskFactor * Q)) : list (RiskFactor * Q) :=
  match factorCounts with
  | [] => [(factor, 0 + 1)]
  | (key, n) :: rest =>
      if bool_decide (key = factor) then (key, orDefault n 0 + 1) :: rest
      else (key, n) :: bumpFactor factor rest
  end.

Definition getCommonRiskFactors (hotspots : list Hotspot) : list RiskFactor :=
  let factorCounts :=
    fold_left
      (fun factorCounts hotspot =>
         fold_left (fun counts factor => bumpFactor factor counts)
           (hotspotFactors hotspot) factorCounts)
      hotspots [] in
  map fst
    (List.filter
       (fun entry =>
          entry.2 >=?
          inject_Z (Qceiling (RecommendationEngine.lengthOf hotspots * 0.3)))
       factorCounts).

(** [x.toFixed(1)], for numbers below [10^21]. *)
Definition toFixed1 (x : Q) : string :=
  let render (y : Q) :=
    let n := Qfloor (y * 10 + 0.5) in
    pretty (n / 10)%Z +:+ "." +:+ pretty (n mod 10)%Z in
  if x <? 0 then "-" +:+ render (- x) else render x.

Definition includesFactor (l : list RiskFactor) (factor : RiskFactor) : bool :=
  existsb (fun f => bool_decide (f = factor)) l.

(** [generateSafetyRecommendations] on a non-empty array of analyses, given
    by its first element and the others. *)
Definition recommendationsFrom (first : TimeSlotSafetyData)
    (others : list TimeSlotSafetyData) (riskHotspots : list Hotspot)
    : list string :=
      let recommendations : list string := [] in
      let safestTimeSlot :=
        fold_left
          (fun safest current =>
             if safetyScore current >? safetyScore safest then current
             else safest) others first in
      let riskiestTimeSlot :=
        fold_left
          (fun riskiest current =>
             if safetyScore current <? safetyScore riskiest then current
             else riskiest) others first in
      let recommendations :=
        push recommendations
          ("建议在" +:+ getTimeSlotName (timeSlot safestTimeSlot)
           +:+ "跑步，安全分数最高（" +:+ toFixed1 (safetyScore safestTimeSlot)
           +:+ "分）") in
      let recommendations :=
        if safetyScore riskiestTimeSlot <? 50
        then push recommendations
               ("避免在" +:+ getTimeSlotName (timeSlot riskiestTimeSlot)
                +:+ "跑步，风险较高")
        else recommendations in
      let recommendations :=
        if RecommendationEngine.lengthOf riskHotspots >? 0
        then
          let recommendations :=
            push recommendations
              ("路线中发现" +:+ pretty (length riskHotspots)
               +:+ "个风险点，建议调整路线或提高警惕") in
          let commonRiskFactors := getCommonRiskFactors riskHotspots in
          let recommendations :=
            if includesFactor commonRiskFactors poor_lighting
            then push recommendations "携带照明设备，选择光线充足的路段"
            else recommendations in
          let recommendations :=
            if includesFactor commonRiskFactors isolated_area
            then push recommendations
                   "避免独自在偏僻区域跑步，建议结伴或选择人流较多的路线"
            else recommendations in
          if includesFactor commonRiskFactors heavy_traffic
          then push recommendations
                 "注意交通安全，选择有人行道或专用跑道的路线"
          else recommendations
        else recommendations in
      let recommendations :=
        push recommendations "随身携带手机并确保电量充足" in
      let recommendations :=
        push recommendations "告知他人您的跑步路线和预计返回时间" in
      let recommendations :=
        push recommendations "穿着反光或亮色服装提高可见性" in
      recommendations.

(** [generateSafetyRecommendations]; [None] stands for the [TypeError]
    that [reduce] without an initial value throws on an empty array. *)
Definition generateSafetyRecommendations
    (timeSlotAnalysis : list TimeSlotSafetyData)
    (riskHotspots : list Hotspot) : option (list string) :=
  match timeSlotAnalysis with
  | [] => None
  | first :: others => Some (recommendationsFrom first others riskHotspots)
  end.

(** [Number.prototype.toString(36)] is taken as it is. *)
Context (toString36 : Q -> string).

Definition generateRouteId (locations : list RealtimeLocation) : string :=
  match locations with
  | [] => "empty-route"
  | start :: _ =>
      let end_ := List.last locations start in
      let hash :=
        toString36
          (Math.abs
             (latitude start * 1000000 +
              longitude start * 1000000 +
              latitude end_ * 1000000 +
              longitude end_ * 1000000)) in
      "route-" +:+ hash
  end.

(** How a call ends: with a value, with an exception, or not within the
    fuel it was given. *)
Inductive Run (A : Type) : Type :=
| Finished (value : A)
| Threw (message : string)
| OutOfFuel.

Definition timeSlots : list TimeSlot :=
  [early_morning; morning; late_morning; afternoon; evening; night;
   late_night].

Definition analyzeRouteSafety (fuel : nat)
    (routeLocations : list RealtimeLocation)
    (historicalData : option (list RealtimeLocation))
    (incidentData : option (list Incident)) : Run RouteSafetyAnalysis :=
  if RecommendationEngine.lengthOf routeLocations =? 0
  then Threw _ "路线数据不能为空"
  else
    let timeSlotAnalysis :=
      map (fun timeSlot =>
             analyzeTimeSlotSafety timeSlot (default [] historicalData)
               incidentData)
        timeSlots in
    match identifyRiskHotspots fuel routeLocations with
    | None => OutOfFuel _
    | Some riskHotspots =>
        let overallSafetyScore :=
          calculateOverallSafety timeSlotAnalysis riskHotspots in
        match generateSafetyRecommendations timeSlotAnalysis riskHotspots with
        | None => Threw _ "TypeError"
        | Some recommendations =>
            Finished _
              {| routeId := generateRouteId routeLocations;
                 overallSafetyScore := overallSafetyScore;
                 timeSlotAnalysis := timeSlotAnalysis;
                 riskHotspots := riskHotspots;
                 routeRecommendations := recommendations |}
        end
    end.

(** Modelled from the spec: the type [SafetyScore] is declared in
    [../utils/safetyAlgorithm], which is not part of the sources at hand.
    These are the fields [getRealTimeSafetyAssessment] fills in. *)
Record SafetyFactors := {
  lighting : Q;
  crowdDensityFactor : Q;
  crimeRate : Q;
  emergencyAccess : Q;
  roadCondition : Q;
  weatherCondition : Q;
  timeOfDay : Q;
  historicalIncidents : Q
}.

Record Alert := {
  alertType : string;
  alertMessage : string;
  priority : string
}.

Record SafetyScore := {
  overall : Q;
  level : string;
  factors : SafetyFactors;
  scoreRecommendations : list string;
  alerts : list Alert
}.

Definition getRealTimeSafetyAssessment (currentLocation : RealtimeLocation)
    (environmentalData : option EnvironmentalData) : SafetyScore :=
  let riskAnalysis :=
    analyzeEnvironmentalRisk currentLocation environmentalData in
  let timeSlot := getTimeSlot now in
  let baseSafety := calculateTimeSlotBaseSafety timeSlot in
  let safetyScore := Math.max (baseSafety - overall_risk riskAnalysis) 0 in
  let level :=
    if safetyScore >=? 80 then "very_safe"
    else if safetyScore >=? 70 then "safe"
    else if safetyScore >=? 55 then "moderate"
    else if safetyScore >=? 40 then "risky"
    else "dangerous" in
  let factors :=
    {| lighting := baseSafety;
       crowdDensityFactor :=
         match environmentalData with
         | Some data => crowdDensity data
         | None => 75
         end;
       crimeRate := 100 - getHistoricalLocationRisk currentLocation * 100;
       emergencyAccess := 85;
       roadCondition := 90;
       weatherCondition :=
         match environmentalData with
         | Some data =>
             100 - (if String.eqb (weather_condition data) "rain"
                    then 30 else 0)
         | None => 85
         end;
       timeOfDay := baseSafety;
       historicalIncidents :=
         100 - getHistoricalLocationRisk currentLocation * 100 |} in
  {| overall := safetyScore;
     level := level;
     factors := factors;
     scoreRecommendations :=
       recommendationsFrom
         (analyzeTimeSlotSafety timeSlot [currentLocation] None) []
         (if overall_risk riskAnalysis >? 7
          then [ {| location := currentLocation;
                    riskLevel :=
                      if overall_risk riskAnalysis >? 7 then "high"
                      else "medium";
                    hotspotFactors := risk_factors riskAnalysis;
                    description :=
                      generateRiskDescription (risk_factors riskAnalysis) |} ]
          else []);
     alerts :=
       if overall_risk riskAnalysis >? 7
       then [ {| alertType := "warning";
                 alertMessage := "当前区域存在安全风险，请提高警惕";
                 priority := "high" |} ]
       else [] |}.

End Service.

Arguments Finished {A} value.
Arguments Threw {A} message.
Arguments OutOfFuel {A}.

(** Concrete inputs on which the statements below are exercised. *)
Module Sample.

Definition place (lat lng : Q) (hour : Z) : RealtimeLocation :=
  {| latitude := lat; longitude := lng; timestamp := hour; speed := 3 |}.

Definition suburb : RealtimeLocation := place 31 121 8.
Definition centre : RealtimeLocation := place 31.22 121.47 22.

Definition stormyNight : EnvironmentalData :=
  {| weather_condition := "storm"; crowdDensity := 10; visibility := 30;
     lighting_level := 20 |}.

Definition longRoute : list RealtimeLocation := replicate 25 centre.
Definition shortRoute : list RealtimeLocation := replicate 9 suburb.

(** A stand-in for the base-36 rendering. *)
Definition anyRendering (x : Q) : string := "x".

End Sample.

End SafetyAnalysis.

(** * Properties *)

(** ** Comparisons, [Math.min] and [Math.max] *)

Lemma Qleb_le (x y : Q) : (x <=? y) = true <-> x <= y.
Proof. apply Qle_bool_iff. Qed.

Lemma Qleb_gt (x y : Q) : (x <=? y) = false <-> y < x.
Proof.
  unfold Qleb. rewrite <- not_true_iff_false, Qle_bool_iff.
  split; [apply Qnot_le_lt | apply Qlt_not_le].
Qed.

Lemma Qgtb_lt (x y : Q) : (x >? y) = true <-> y < x.
Proof. unfold Qgtb. rewrite negb_true_iff. apply Qleb_gt. Qed.

Lemma Qeqb_eq (x y : Q) : (x =? y) = true <-> x == y.
Proof. apply Qeq_bool_iff. Qed.

Lemma Qeqb_neq (x y : Q) : (x =? y) = false <-> ~ x == y.
Proof. rewrite <- not_true_iff_false, Qeq_bool_iff. reflexivity. Qed.

(** Turns the boolean tests of the context into (in)equalities. *)
Ltac reflect_tests :=
  unfold Qgeb, Qltb, Qgtb in *;
  repeat match goal with
    | H : (_ && _) = true |- _ => apply andb_true_iff in H; destruct H
    | H : negb _ = true |- _ => apply negb_true_iff in H
    | H : negb _ = false |- _ => apply negb_false_iff in H
    | H : (_ <=? _) = true |- _ => apply Qleb_le in H
    | H : (_ <=? _) = false |- _ => apply Qleb_gt in H
    | H : (_ =? _) = true |- _ => apply Qeqb_eq in H
    | H : (_ =? _) = false |- _ => apply Qeqb_neq in H
    end.

Lemma max_min_bounds (lo hi x : Q) :
  lo <= hi -> lo <= Math.max lo (Math.min hi x) <= hi.
Proof.
  intros Hlohi. unfold Math.max, Math.min. split.
  - apply Q.le_max_l.
  - apply Q.max_lub; [exact Hlohi | apply Q.le_min_l].
Qed.

Lemma max_min_id (lo hi x : Q) :
  lo <= x <= hi -> Math.max lo (Math.min hi x) == x.
Proof.
  intros [Hlo Hhi]. unfold Math.max, Math.min.
  rewrite (Q.min_r hi x) by exact Hhi.
  apply Q.max_r. exact Hlo.
Qed.

(** ** Weather suitability *)

Module WeatherFacts.
Import WeatherService.

(** The statements of the function, with each multiplication taken out of
    its branches. *)
Lemma score_factored (weather : WeatherData) :
  getWeatherSuitabilityScore weather =
  Math.max 0 (Math.min 1
    (1.0 * Spec.temperatureBand (temperature weather)
         * Spec.conditionLookup (condition weather)
         * Spec.windBand (windSpeed weather)
         * Spec.humidityBand (humidity weather))).
Proof.
  unfold getWeatherSuitabilityScore.
  assert (Ht : forall s : Q,
    (if (temperature weather >=? 15) && (temperature weather <=? 25)
     then s * 1.0
     else if (temperature weather >=? 10) && (temperature weather <=? 30)
     then s * 0.8
     else if (temperature weather >=? 5) && (temperature weather <=? 35)
     then s * 0.6 else s * 0.3)
    = s * Spec.temperatureBand (temperature weather)).
  { intros s. unfold Spec.temperatureBand, Qgeb, Qleb.
    repeat (match goal with |- context [if ?b then _ else _] =>
              destruct b end; try reflexivity). }
  assert (Hc : forall s : Q,
    (if oneOf (condition weather) ["clear"; "sunny"; "partly-cloudy"]
     then s * 1.0
     else if oneOf (condition weather) ["cloudy"; "overcast"] then s * 0.9
     else if oneOf (condition weather) ["light-rain"] then s * 0.4
     else if oneOf (condition weather) ["rain"; "heavy-rain"] then s * 0.1
     else if oneOf (condition weather) ["snow"; "fog"] then s * 0.2
     else s * 0.7)
    = s * Spec.conditionLookup (condition weather)).
  { intros s. unfold Spec.conditionLookup, Spec.conditionTable, oneOf.
    cbn [existsb Spec.assoc].
    repeat (match goal with |- context [String.eqb ?a ?b] =>
              destruct (String.eqb a b) end;
            cbn [orb]; try reflexivity). }
  assert (Hw : forall s : Q,
    (if windSpeed weather <=? 10 then s * 1.0
     else if windSpeed weather <=? 20 then s * 0.8 else s * 0.5)
    = s * Spec.windBand (windSpeed weather)).
  { intros s. unfold Spec.windBand.
    repeat (match goal with |- context [if ?b then _ else _] =>
              destruct b end; try reflexivity). }
  assert (Hh : forall s : Q,
    (if (humidity weather >=? 40) && (humidity weather <=? 70) then s * 1.0
     else if (humidity weather >=? 30) && (humidity weather <=? 80)
     then s * 0.9 else s * 0.7)
    = s * Spec.humidityBand (humidity weather)).
  { intros s. unfold Spec.humidityBand, Qgeb, Qleb.
    repeat (match goal with |- context [if ?b then _ else _] =>
              destruct b end; try reflexivity). }
  cbv zeta. rewrite Ht, Hc, Hw, Hh. reflexivity.
Qed.

Lemma temperatureBand_range (t : Q) : 0 < Spec.temperatureBand t <= 1.
Proof.
  unfold Spec.temperatureBand.
  repeat (match goal with |- context [if ?b then _ else _] =>
            destruct b end; try (split; reflexivity || discriminate)).
Qed.

Lemma conditionLookup_range (c : string) : 0 < Spec.conditionLookup c <= 1.
Proof.
  unfold Spec.conditionLookup, Spec.conditionTable. cbn [Spec.assoc].
  repeat (match goal with |- context [String.eqb ?a ?b] =>
            destruct (String.eqb a b) end;
          try (split; reflexivity || discriminate)).
Qed.

Lemma windBand_range (w : Q) : 0 < Spec.windBand w <= 1.
Proof.
  unfold Spec.windBand.
  repeat (match goal with |- context [if ?b then _ else _] =>
            destruct b end; try (split; reflexivity || discriminate)).
Qed.

Lemma humidityBand_range (h : Q) : 0 < Spec.humidityBand h <= 1.
Proof.
  unfold Spec.humidityBand.
  repeat (match goal with |- context [if ?b then _ else _] =>
            destruct b end; try (split; reflexivity || discriminate)).
Qed.

(** The wind-speed factor never grows with the wind speed. *)
Lemma windBand_antitone (w1 w2 : Q) :
  w1 <= w2 -> Spec.windBand w2 <= Spec.windBand w1.
Proof.
  intros Hle. unfold Spec.windBand.
  destruct (w1 <=? 10) eqn:H1, (w1 <=? 20) eqn:H1', (w2 <=? 10) eqn:H2,
    (w2 <=? 20) eqn:H2'; reflect_tests;
    try discriminate; try lra.
Qed.

Lemma product_range (a b : Q) : 0 <= a <= 1 -> 0 <= b <= 1 -> 0 <= a * b <= 1.
Proof. intros [Ha0 Ha1] [Hb0 Hb1]. split; nra. Qed.

Lemma factors_range (t : Q) (c : string) (w h : Q) :
  0 <= 1.0 * Spec.temperatureBand t * Spec.conditionLookup c
       * Spec.windBand w * Spec.humidityBand h <= 1.
Proof.
  pose proof (temperatureBand_range t) as [Ht0 Ht1].
  pose proof (conditionLookup_range c) as [Hc0 Hc1].
  pose proof (windBand_range w) as [Hw0 Hw1].
  pose proof (humidityBand_range h) as [Hh0 Hh1].
  repeat apply product_range; split; lra.
Qed.

(** The clamp at the end of the function never changes the product. *)
Lemma score_product (weather : WeatherData) :
  getWeatherSuitabilityScore weather ==
    Spec.temperatureBand (temperature weather)
    * Spec.conditionLookup (condition weather)
    * Spec.windBand (windSpeed weather)
    * Spec.humidityBand (humidity weather).
Proof.
  rewrite score_factored.
  rewrite max_min_id by apply factors_range.
  ring.
Qed.

(** C2.  The weather suitability score of every reading is the product of
    its four sub-scores: the temperature band, the looked-up condition
    multiplier, the wind-speed band and the humidity band.  A reading of
    20 degrees, clear, humidity 55 and wind speed 5 scores 1.0; the same
    reading under rain scores 0.1. *)
Theorem weather_score_is_product :
  (forall weather : WeatherData,
     getWeatherSuitabilityScore weather ==
       Spec.temperatureBand (temperature weather)
       * Spec.conditionLookup (condition weather)
       * Spec.windBand (windSpeed weather)
       * Spec.humidityBand (humidity weather))
  /\ getWeatherSuitabilityScore (reading 20 "clear" 55 5) == 1.0
  /\ getWeatherSuitabilityScore (reading 20 "rain" 55 5) == 0.1.
Proof.
  split; [exact score_product | split; reflexivity].
Qed.

(** C3.  The weather suitability score lies in [0,1], and with the
    temperature, the condition and the humidity held fixed it does not
    increase when the wind speed increases. *)
Theorem weather_score_range_and_wind (weather : WeatherData) (w1 w2 : Q) :
  w1 <= w2 ->
  0 <= getWeatherSuitabilityScore weather <= 1
  /\ getWeatherSuitabilityScore (withWindSpeed weather w2)
     <= getWeatherSuitabilityScore (withWindSpeed weather w1).
Proof.
  intros Hle. split.
  - rewrite score_factored. apply max_min_bounds. discriminate.
  - rewrite !score_product. cbn [withWindSpeed temperature condition humidity windSpeed].
    pose proof (temperatureBand_range (temperature weather)) as [Ht0 _].
    pose proof (conditionLookup_range (condition weather)) as [Hc0 _].
    pose proof (humidityBand_range (humidity weather)) as [Hh0 _].
    pose proof (windBand_antitone w1 w2 Hle) as Hw.
    apply Qmult_le_compat_r; [| lra].
    rewrite !(Qmult_comm _ (Spec.windBand _)).
    apply Qmult_le_compat_r; [exact Hw |].
    apply Qmult_le_0_compat; lra.
Qed.

Lemma weather_score_range_and_wind_witness :
  5 <= 15
  /\ 0 <= getWeatherSuitabilityScore (reading 20 "clear" 55 0) <= 1
  /\ getWeatherSuitabilityScore (withWindSpeed (reading 20 "clear" 55 0) 15)
     <= getWeatherSuitabilityScore (withWindSpeed (reading 20 "clear" 55 0) 5).
Proof.
  assert (H : 5 <= 15) by discriminate.
  split; [exact H |].
  exact (weather_score_range_and_wind (reading 20 "clear" 55 0) 5 15 H).
Defined.

End WeatherFacts.

(** ** The preference learner *)

Module FeedbackFacts.
Import FeedbackService.

Lemma round_nearest (x : Q) :
  inject_Z (Math.round x) - 0.5 <= x /\ x < inject_Z (Math.round x) + 0.5.
Proof.
  unfold Math.round.
  pose proof (Qfloor_le (x + 0.5)) as Hlo.
  pose proof (Qlt_floor (x + 0.5)) as Hhi.
  rewrite inject_Z_plus in Hhi.
  change (inject_Z 1) with 1 in Hhi.
  split; lra.
Qed.

(** The value computed when a dimension was rated: the multiple of 0.1
    nearest to the moving average, clamped. *)
Lemma rated_update (cur obs ov : Q) :
  (obs =? 0) = false ->
  exists k : Z,
    Spec.nearestTenth k (Spec.movingAverage cur obs ov)
    /\ calculateNewPreference cur obs ov
         = Spec.clamp (inject_Z k / 10) 1 10.
Proof.
  intros Hobs. unfold calculateNewPreference. rewrite Hobs. cbv zeta.
  exists (Math.round ((cur * 0.8 + obs * (ov / 5) * 0.2) * 10)).
  split; [| reflexivity].
  unfold Spec.nearestTenth, Spec.movingAverage.
  generalize (cur * 0.8 + obs * (ov / 5) * 0.2). intros e.
  pose proof (round_nearest (e * 10)) as [Hlo Hhi].
  unfold Qdiv. setoid_replace (/ 10) with 0.1 using relation Qeq by reflexivity.
  split; lra.
Qed.

Lemma clamp_isTenth (k : Z) : Spec.isTenth (Spec.clamp (inject_Z k / 10) 1 10).
Proof.
  unfold Spec.clamp, Spec.isTenth.
  destruct (Q.max_spec 1 (Qmin 10 (inject_Z k / 10)))
    as [[_ Hmax] | [_ Hmax]].
  - destruct (Q.min_spec 10 (inject_Z k / 10)) as [[_ Hmin] | [_ Hmin]].
    + exists 100%Z. apply (Qeq_trans _ _ _ Hmax), (Qeq_trans _ _ _ Hmin).
      reflexivity.
    + exists k. apply (Qeq_trans _ _ _ Hmax), Hmin.
  - exists 10%Z. apply (Qeq_trans _ _ _ Hmax). reflexivity.
Qed.

(** C8.  A prior preference within [1,10] stays within [1,10] under the
    feedback update, whatever the observed rating and the overall rating. *)
Theorem new_preference_within_bounds (p observed overallRating : Q) :
  1 <= p <= 10 ->
  1 <= calculateNewPreference p observed overallRating <= 10.
Proof.
  intros Hp. unfold calculateNewPreference.
  destruct (observed =? 0); [exact Hp |].
  apply max_min_bounds. discriminate.
Qed.

Lemma new_preference_within_bounds_witness :
  1 <= 5 <= 10 /\ 1 <= calculateNewPreference 5 8 5 <= 10.
Proof.
  assert (H : 1 <= 5 <= 10) by (split; discriminate).
  split; [exact H |].
  exact (new_preference_within_bounds 5 8 5 H).
Defined.



(** C10, as stated, fails: a dimension that was not rated is stored back as
    it is, rounded or not.  A stored 5.55 with an observed rating of 0 stays
    5.55, which is no multiple of 0.1. *)
Lemma unrated_value_not_rounded :
  calculateNewPreference 5.55 0 5 = 5.55 /\ ~ Spec.isTenth 5.55.
Proof.
  split; [reflexivity |].
  intros [k Hk]. unfold Qeq in Hk. cbn in Hk. lia.
Qed.

(** C10, amended.  The value stored for a dimension that was rated is a
    multiple of 0.1, and so is the value stored for a dimension that was
    not rated when the prior value was one. *)
Theorem stored_preference_granularity (old observed overallRating : Q) :
  ~ observed == 0 \/ Spec.isTenth old ->
  Spec.isTenth (calculateNewPreference old observed overallRating).
Proof.
  intros Hcase.
  destruct (observed =? 0) eqn:Hobs.
  - destruct Hcase as [Hne | Hold].
    + apply Qeqb_eq in Hobs. contradiction.
    + unfold calculateNewPreference. rewrite Hobs. exact Hold.
  - destruct (rated_update old observed overallRating Hobs) as [k [_ Hk]].
    rewrite Hk. apply clamp_isTenth.
Qed.

Lemma stored_preference_granularity_witness :
  (~ 3 == 0 \/ Spec.isTenth 5)
  /\ Spec.isTenth (calculateNewPreference 5 3 4).
Proof.
  assert (H : ~ 3 == 0 \/ Spec.isTenth 5) by (left; discriminate).
  split; [exact H |].
  exact (stored_preference_granularity 5 3 4 H).
Defined.

End FeedbackFacts.

(** ** Sorting and slicing *)

Module ArrayFacts.
Import JsArray.

Section SortFacts.
Context {A : Type} (compareFn : A -> A -> Q).

Lemma insert_length (x : A) (l : list A) :
  length (insert compareFn x l) = S (length l).
Proof.
  induction l as [| y ys IH]; cbn; [reflexivity |].
  destruct (compareFn x y >? 0); cbn; [rewrite IH |]; reflexivity.
Qed.

Lemma sort_cons (x : A) (l : list A) :
  sort compareFn (x :: l) = insert compareFn x (sort compareFn l).
Proof. reflexivity. Qed.

Lemma sort_length (l : list A) : length (sort compareFn l) = length l.
Proof.
  induction l as [| x l IH]; [reflexivity |].
  rewrite sort_cons, insert_length, IH. reflexivity.
Qed.

Lemma In_insert (a x : A) (l : list A) :
  In a (insert compareFn x l) <-> a = x \/ In a l.
Proof.
  induction l as [| y ys IH]; cbn.
  - intuition congruence.
  - destruct (compareFn x y >? 0); cbn; [rewrite IH |]; intuition congruence.
Qed.

Lemma In_sort (a : A) (l : list A) : In a (sort compareFn l) <-> In a l.
Proof.
  induction l as [| x l IH]; [reflexivity |].
  rewrite sort_cons, In_insert, IH. cbn. intuition congruence.
Qed.

(** An element is inserted behind another one only when the comparator
    says it has to follow it. *)
Lemma before_insert (x : A) (l : list A) (a b : A) :
  ~ 0 < compareFn b a ->
  before (insert compareFn x l) a b -> before (x :: l) a b.
Proof.
  intros Hab. induction l as [| y ys IH]; cbn; [tauto |].
  destruct (compareFn x y >? 0) eqn:Hxy; [| tauto].
  intros Hbefore. inversion Hbefore as [? ? ? Hin | ? ? ? ? Hrest]; subst.
  - apply In_insert in Hin. destruct Hin as [-> | Hin].
    + apply Qgtb_lt in Hxy. contradiction.
    + apply before_later, before_here. exact Hin.
  - specialize (IH Hrest).
    inversion IH as [? ? ? Hin | ? ? ? ? Hrest']; subst.
    + apply before_here. right. exact Hin.
    + apply before_later, before_later. exact Hrest'.
Qed.

(** Stability: two elements that the comparator does not order the other
    way round come out of [sort] in the order they went in. *)
Lemma before_sort (l : list A) (a b : A) :
  ~ 0 < compareFn b a ->
  before (sort compareFn l) a b -> before l a b.
Proof.
  intros Hab. induction l as [| x l IH]; [tauto |].
  rewrite sort_cons.
  intros Hbefore. apply before_insert in Hbefore; [| exact Hab].
  inversion Hbefore as [? ? ? Hin | ? ? ? ? Hrest]; subst.
  - apply before_here, In_sort. exact Hin.
  - apply before_later, IH. exact Hrest.
Qed.

End SortFacts.

Section SliceFacts.
Context {A : Type}.
Implicit Types l : list A.

Lemma before_In l (a b : A) : before l a b -> In a l /\ In b l.
Proof.
  induction 1 as [x l b Hin | x l a b _ [IHa IHb]]; cbn; tauto.
Qed.

Lemma before_lookup l (i j : nat) (a b : A) :
  l !! i = Some a -> l !! j = Some b -> (i < j)%nat -> before l a b.
Proof.
  revert i j. induction l as [| x l IH]; intros i j Hi Hj Hlt.
  - discriminate.
  - destruct i as [| i], j as [| j]; try lia; cbn in Hi, Hj.
    + injection Hi as ->. apply before_here.
      apply list_elem_of_In, list_elem_of_lookup. eauto.
    + apply before_later, (IH i j); [assumption | assumption | lia].
Qed.

Lemma lookup_before l (a b : A) :
  before l a b ->
  exists i j : nat, (i < j)%nat /\ l !! i = Some a /\ l !! j = Some b.
Proof.
  induction 1 as [x l b Hin | x l a b _ (i & j & Hlt & Hi & Hj)].
  - apply list_elem_of_In, list_elem_of_lookup in Hin as [j Hj].
    exists 0%nat, (S j). repeat split; [lia | exact Hj].
  - exists (S i), (S j). repeat split; [lia | exact Hi | exact Hj].
Qed.

Lemma In_take (n : nat) l (a : A) : In a (take n l) -> In a l.
Proof.
  revert n. induction l as [| x l IH]; intros [| n]; cbn; try tauto.
  intros [-> | Hin]; [left; reflexivity | right; apply (IH n), Hin].
Qed.

Lemma In_drop (n : nat) l (a : A) : In a (drop n l) -> In a l.
Proof.
  revert n. induction l as [| x l IH]; intros [| n]; cbn; try tauto.
  intros Hin. right. apply (IH n), Hin.
Qed.

Lemma before_take (n : nat) l (a b : A) :
  before (take n l) a b -> before l a b.
Proof.
  revert n. induction l as [| x l IH]; intros [| n] Hbefore; cbn in Hbefore;
    try solve [inversion Hbefore].
  inversion Hbefore as [? ? ? Hin | ? ? ? ? Hrest]; subst.
  - apply before_here, (In_take n), Hin.
  - apply before_later, (IH n). exact Hrest.
Qed.

Lemma before_drop (n : nat) l (a b : A) :
  before (drop n l) a b -> before l a b.
Proof.
  revert n. induction l as [| x l IH]; intros [| n] Hbefore; cbn in Hbefore;
    try assumption.
  apply before_later, (IH n). exact Hbefore.
Qed.

Lemma before_slice (start end_ : Z) l (a b : A) :
  before (slice start end_ l) a b -> before l a b.
Proof.
  unfold slice. intros Hbefore.
  apply before_take, before_drop in Hbefore. exact Hbefore.
Qed.

Lemma In_slice (start end_ : Z) l (a : A) : In a (slice start end_ l) -> In a l.
Proof.
  unfold slice. intros Hin.
  apply In_take, In_drop in Hin. exact Hin.
Qed.

(** [slice(0, n)] with a count [n] keeps the first [n] elements. *)
Lemma slice_0_count (n : nat) l : slice 0 (Z.of_nat n) l = take n l.
Proof.
  unfold slice, relativeIndex.
  change (0 <? 0)%Z with false. cbv iota.
  destruct (Z.ltb_spec (Z.of_nat n) 0) as [Hneg | _]; [lia |].
  rewrite (Z.min_l 0) by lia.
  change (Z.to_nat 0) with 0%nat. rewrite drop_0, Z.sub_0_r.
  replace (Z.to_nat (Z.min (Z.of_nat n) (Z.of_nat (length l))))
    with (Nat.min n (length l)) by lia.
  destruct (Nat.min_spec n (length l)) as [[Hlt ->] | [Hge ->]];
    [reflexivity |].
  rewrite !take_ge by lia. reflexivity.
Qed.

End SliceFacts.

Lemma before_map {A B : Type} (f : A -> B) (l : list A) (a b : B) :
  before (map f l) a b ->
  exists x y : A, a = f x /\ b = f y /\ before l x y.
Proof.
  induction l as [| x l IH]; cbn; intros Hbefore.
  - inversion Hbefore.
  - inversion Hbefore as [? ? ? Hin | ? ? ? ? Hrest]; subst.
    + apply in_map_iff in Hin as (y & <- & Hin).
      exists x, y. repeat split. apply before_here. exact Hin.
    + destruct (IH Hrest) as (x' & y' & -> & -> & Hxy).
      exists x', y'. repeat split. apply before_later. exact Hxy.
Qed.

(** *** The sort by a key is determined by its specification *)

Section SortByKey.
Context {A : Type} (key : A -> Q).

Lemma descending_tail (x : A) (l : list A) :
  descending key (x :: l) -> descending key l.
Proof. intros Hd a b Hab. apply Hd, before_later, Hab. Qed.

Lemma descending_head (x : A) (l : list A) (b : A) :
  descending key (x :: l) -> In b l -> key b <= key x.
Proof. intros Hd Hin. apply Hd, before_here, Hin. Qed.

Lemma insert_descending (x : A) (l : list A) :
  descending key l -> descending key (insert (byKey key) x l).
Proof.
  induction l as [| y ys IH]; intros Hd a b Hab; cbn in Hab.
  - inversion Hab as [? ? ? Hin | ? ? ? ? Hrest]; subst;
      [destruct Hin | inversion Hrest].
  - destruct (byKey key x y >? 0) eqn:Hxy; unfold byKey in Hxy; reflect_tests.
    + inversion Hab as [? ? ? Hin | ? ? ? ? Hrest]; subst.
      * apply In_insert in Hin as [-> | Hin]; [lra |].
        apply (descending_head _ _ _ Hd Hin).
      * apply (IH (descending_tail _ _ Hd)), Hrest.
    + inversion Hab as [? ? ? Hin | ? ? ? ? Hrest]; subst.
      * destruct Hin as [-> | Hin]; [lra |].
        pose proof (descending_head _ _ _ Hd Hin). lra.
      * apply Hd, Hrest.
Qed.

Lemma sort_descending (l : list A) : descending key (sort (byKey key) l).
Proof.
  induction l as [| x l IH].
  - intros a b Hab. inversion Hab.
  - rewrite sort_cons. apply insert_descending, IH.
Qed.

Lemma keyed_insert (s : Q) (x : A) (l : list A) :
  keyed key s (insert (byKey key) x l) = keyed key s (x :: l).
Proof.
  induction l as [| y ys IH]; [reflexivity |]. cbn [insert].
  destruct (byKey key x y >? 0) eqn:Hxy; [| reflexivity].
  unfold keyed in *. cbn [List.filter] in *. rewrite IH.
  destruct (key x =? s) eqn:Hx, (key y =? s) eqn:Hy; try reflexivity.
  unfold byKey in Hxy. reflect_tests. lra.
Qed.

Lemma keyed_sort (s : Q) (l : list A) :
  keyed key s (sort (byKey key) l) = keyed key s l.
Proof.
  induction l as [| x l IH]; [reflexivity |].
  rewrite sort_cons, keyed_insert. unfold keyed in *. cbn [List.filter].
  rewrite IH. reflexivity.
Qed.

Lemma keyed_In (s : Q) (a : A) (l : list A) :
  In a (keyed key s l) -> In a l.
Proof. unfold keyed. intros Hin. apply filter_In in Hin. tauto. Qed.

Lemma keyed_head (x : A) (l : list A) :
  keyed key (key x) (x :: l) = x :: keyed key (key x) l.
Proof.
  unfold keyed. cbn [List.filter].
  replace (key x =? key x) with true; [reflexivity |].
  symmetry. apply Qeqb_eq. reflexivity.
Qed.

(** Two descending lists with the same elements in the same order under
    every key are the same list. *)
Lemma descending_unique (l1 l2 : list A) :
  descending key l1 -> descending key l2 ->
  (forall s : Q, keyed key s l1 = keyed key s l2) ->
  l1 = l2.
Proof.
  revert l2. induction l1 as [| a l1 IH]; intros [| b l2] Hd1 Hd2 Hkeyed.
  - reflexivity.
  - specialize (Hkeyed (key b)). rewrite keyed_head in Hkeyed. discriminate.
  - specialize (Hkeyed (key a)). rewrite keyed_head in Hkeyed. discriminate.
  - assert (Hab : key a <= key b).
    { assert (Hin : In a (b :: l2)).
      { apply (keyed_In (key a)). rewrite <- Hkeyed, keyed_head. left.
        reflexivity. }
      destruct Hin as [-> | Hin]; [lra |].
      apply (descending_head _ _ _ Hd2 Hin). }
    assert (Hba : key b <= key a).
    { assert (Hin : In b (a :: l1)).
      { apply (keyed_In (key b)). rewrite Hkeyed, keyed_head. left.
        reflexivity. }
      destruct Hin as [-> | Hin]; [lra |].
      apply (descending_head _ _ _ Hd1 Hin). }
    assert (Heq : a = b).
    { pose proof (Hkeyed (key a)) as Hk. rewrite keyed_head in Hk.
      unfold keyed in Hk. cbn [List.filter] in Hk.
      replace (key b =? key a) with true in Hk
        by (symmetry; apply Qeqb_eq; lra).
      congruence. }
    subst b. f_equal.
    apply IH; [apply (descending_tail _ _ Hd1) | apply (descending_tail _ _ Hd2) |].
    intros s. specialize (Hkeyed s). unfold keyed in *.
    cbn [List.filter] in Hkeyed.
    destruct (key a =? s); congruence.
Qed.

(** Whatever algorithm sorts by [byKey], if its result is descending and
    keeps the elements of every key in their original order, it is the
    result of [sort]. *)
Lemma sort_unique (l sorted : list A) :
  descending key sorted ->
  (forall s : Q, keyed key s sorted = keyed key s l) ->
  sorted = sort (byKey key) l.
Proof.
  intros Hd Hkeyed. apply descending_unique.
  - exact Hd.
  - apply sort_descending.
  - intros s. rewrite keyed_sort. apply Hkeyed.
Qed.

End SortByKey.

End ArrayFacts.

(** ** The recommendation engine *)

Module EngineFacts.
Import JsArray RecommendationEngine ArrayFacts.

(** What [generateRecommendations] returns, in terms of the loaded engine. *)
Lemma generated_list (this : Engine) (db : Store)
    (weather : WeatherService.WeatherData) (timeOfDay : string)
    (limit : option Z) :
  (generateRecommendations this db weather timeOfDay limit).2 =
  slice 0 (default 6%Z limit)
    (sort byConfidence
       (map (recommendationFor (loadUserData this db) weather timeOfDay)
          (getAllRoutes db))).
Proof. reflexivity. Qed.

(** The order of the returned list does not depend on the sorting
    algorithm: any descending arrangement of the recommendations that keeps
    those of equal confidence in their order is the one [sort] computes. *)
Lemma ranking_unique (recommendations ranked : list Recommendation) :
  descending confidence_score ranked ->
  (forall s : Q, keyed confidence_score s ranked
                 = keyed confidence_score s recommendations) ->
  ranked = sort byConfidence recommendations.
Proof. apply (sort_unique confidence_score). Qed.

(** Every returned recommendation was computed from a candidate route. *)
Lemma generated_from_route (this : Engine) (db : Store)
    (weather : WeatherService.WeatherData) (timeOfDay : string)
    (limit : option Z) (rec : Recommendation) :
  In rec (generateRecommendations this db weather timeOfDay limit).2 ->
  exists route : Route,
    In route (getAllRoutes db)
    /\ rec = recommendationFor (loadUserData this db) weather timeOfDay route.
Proof.
  rewrite generated_list. intros Hin.
  apply In_slice, In_sort, in_map_iff in Hin as (route & <- & Hin).
  exists route. split; [exact Hin | reflexivity].
Qed.

Lemma confidence_is_dot (this : Engine)
    (weather : WeatherService.WeatherData) (timeOfDay : string)
    (route : Route) :
  confidence_score (recommendationFor this weather timeOfDay route) ==
  Spec.dot Spec.weights (Spec.subScores this weather timeOfDay route).
Proof. cbn [recommendationFor confidence_score Spec.dot Spec.weights
            Spec.subScores]. ring. Qed.

Lemma dot_weights_unit (s : list Q) :
  Forall Spec.inUnit s -> 0 <= Spec.dot Spec.weights s <= 1.
Proof.
  unfold Spec.weights, Spec.inUnit. intros Hs.
  do 7 (destruct Hs as [| ? ? [? ?] Hs]; [cbn [Spec.dot]; split; lra |]).
  cbn [Spec.dot]. split; lra.
Qed.

(** C1.  For every route, the confidence score that
    [generateRecommendations] computes is the dot product of the fixed
    weights 0.25, 0.20, 0.20, 0.15, 0.10, 0.05, 0.05, which sum to 1, with
    the seven sub-scores of the route, and it is the score carried by every
    returned recommendation of that route; when the sub-scores all lie in
    [0,1], so does the confidence score.  Sub-scores all equal to 1 give 1,
    all equal to 0 give 0. *)
Theorem confidence_is_weighted_sum (this : Engine) (db : Store)
    (weather : WeatherService.WeatherData) (timeOfDay : string)
    (limit : option Z) (candidate : Route) :
  let engine := loadUserData this db in
  let subScores := Spec.subScores engine weather timeOfDay candidate in
  let computed := recommendationFor engine weather timeOfDay candidate in
  Forall Spec.inUnit subScores ->
  confidence_score computed == Spec.dot Spec.weights subScores
  /\ 0 <= confidence_score computed <= 1
  /\ (forall rec : Recommendation,
        In rec (generateRecommendations this db weather timeOfDay limit).2 ->
        route rec = candidate -> rec = computed)
  /\ Spec.total Spec.weights == 1
  /\ Spec.dot Spec.weights [1; 1; 1; 1; 1; 1; 1] == 1
  /\ Spec.dot Spec.weights [0; 0; 0; 0; 0; 0; 0] == 0.
Proof.
  intros engine subScores computed Hunit.
  assert (Hdot := confidence_is_dot engine weather timeOfDay candidate).
  fold computed subScores in Hdot.
  split; [exact Hdot |].
  split; [| split; [| repeat split; reflexivity]].
  - pose proof (dot_weights_unit subScores Hunit) as [Hlo Hhi].
    split.
    + apply (Qle_trans _ _ _ Hlo). apply Qle_lteq. right. symmetry.
      exact Hdot.
    + apply (Qle_trans _ (Spec.dot Spec.weights subScores)); [| exact Hhi].
      apply Qle_lteq. right. exact Hdot.
  - intros rec Hin Hroute.
    apply generated_from_route in Hin as (r & _ & ->).
    cbn [route recommendationFor] in Hroute. subst r. reflexivity.
Qed.

Lemma confidence_is_weighted_sum_witness :
  let subScores :=
    Spec.subScores (loadUserData Sample.newcomer Sample.twins) Sample.mildDay
      "morning" Sample.north in
  let computed :=
    recommendationFor (loadUserData Sample.newcomer Sample.twins)
      Sample.mildDay "morning" Sample.north in
  Forall Spec.inUnit subScores
  /\ confidence_score computed == Spec.dot Spec.weights subScores
  /\ 0 <= confidence_score computed <= 1
  /\ In computed (generateRecommendations Sample.newcomer Sample.twins
                    Sample.mildDay "morning" None).2.
Proof.
  intros subScores computed.
  assert (Hunit : Forall Spec.inUnit subScores)
    by (vm_compute; repeat constructor; discriminate).
  destruct (confidence_is_weighted_sum Sample.newcomer Sample.twins
              Sample.mildDay "morning" None Sample.north Hunit)
    as (Hdot & Hrange & _).
  split; [exact Hunit | split; [exact Hdot | split; [exact Hrange |]]].
  vm_compute. left. reflexivity.
Defined.

(** C4.  The ranking is stable: of two returned recommendations with the
    same confidence score, the one returned first has its route first in
    the candidate list. *)
Theorem ranking_is_stable (this : Engine) (db : Store)
    (weather : WeatherService.WeatherData) (timeOfDay : string)
    (limit : option Z) (i j : nat) (a b : Recommendation) :
  let returned :=
    (generateRecommendations this db weather timeOfDay limit).2 in
  returned !! i = Some a -> returned !! j = Some b -> (i < j)%nat ->
  confidence_score a == confidence_score b ->
  exists i' j' : nat,
    (i' < j')%nat
    /\ getAllRoutes db !! i' = Some (route a)
    /\ getAllRoutes db !! j' = Some (route b).
Proof.
  intros returned Hi Hj Hlt Htie. subst returned.
  rewrite generated_list in Hi, Hj.
  pose proof (before_lookup _ i j a b Hi Hj Hlt) as Hbefore.
  apply before_slice, before_sort in Hbefore.
  - apply before_map in Hbefore as (x & y & -> & -> & Hxy).
    apply lookup_before. exact Hxy.
  - unfold byConfidence. rewrite Htie. intros Hpos.
    apply (Qlt_irrefl 0). setoid_replace 0 with
      (confidence_score b - confidence_score b) using relation Qeq at 2
      by ring.
    exact Hpos.
Qed.

Lemma ranking_is_stable_witness :
  let returned :=
    (generateRecommendations Sample.newcomer Sample.twins Sample.mildDay
       "morning" None).2 in
  let a := recommendationFor Sample.newcomer Sample.mildDay "morning"
             Sample.north in
  let b := recommendationFor Sample.newcomer Sample.mildDay "morning"
             Sample.south in
  returned !! 0%nat = Some a /\ returned !! 1%nat = Some b /\ (0 < 1)%nat
  /\ confidence_score a == confidence_score b
  /\ exists i' j' : nat,
       (i' < j')%nat
       /\ getAllRoutes Sample.twins !! i' = Some (route a)
       /\ getAllRoutes Sample.twins !! j' = Some (route b).
Proof.
  intros returned a b.
  assert (Ha : returned !! 0%nat = Some a) by (vm_compute; reflexivity).
  assert (Hb : returned !! 1%nat = Some b) by (vm_compute; reflexivity).
  assert (Hlt : (0 < 1)%nat) by lia.
  assert (Htie : confidence_score a == confidence_score b)
    by (vm_compute; reflexivity).
  repeat (split; [assumption |]).
  exact (ranking_is_stable Sample.newcomer Sample.twins Sample.mildDay
           "morning" None 0 1 a b Ha Hb Hlt Htie).
Defined.

(** C5.  For a limit that is a count, [generateRecommendations] returns
    exactly [min(limit, candidateCount)] recommendations, the candidates
    being the rows of the store or else the built-in catalogue; without a
    limit the count is 6. *)
Theorem result_length (this : Engine) (db : Store)
    (weather : WeatherService.WeatherData) (timeOfDay : string)
    (limit : nat) :
  length (generateRecommendations this db weather timeOfDay
            (Some (Z.of_nat limit))).2
    = Nat.min limit (length (getAllRoutes db))
  /\ length (generateRecommendations this db weather timeOfDay None).2
    = Nat.min 6 (length (getAllRoutes db)).
Proof.
  rewrite !generated_list.
  change (default 6%Z (Some (Z.of_nat limit))) with (Z.of_nat limit).
  change (default 6%Z None) with (Z.of_nat 6).
  rewrite !slice_0_count, !length_take, !sort_length, !length_map.
  split; reflexivity.
Qed.

(** [loadUserData] against the same answers of the store is idempotent. *)
Lemma loadUserData_idempotent (this : Engine) (db : Store) :
  loadUserData (loadUserData this db) db = loadUserData this db.
Proof.
  unfold loadUserData.
  destruct (user_preferences db), (user_activity_stats db),
    (running_history db); reflexivity.
Qed.

(** C6.  Two invocations in a row against the same state of the store,
    with the same weather, time of day and limit, return the same ordered
    list (and leave the engine in the same state). *)
Theorem generation_is_repeatable (this : Engine) (db : Store)
    (weather : WeatherService.WeatherData) (timeOfDay : string)
    (limit : option Z) :
  let first := generateRecommendations this db weather timeOfDay limit in
  let second := generateRecommendations first.1 db weather timeOfDay limit in
  second.2 = first.2 /\ second.1 = first.1.
Proof.
  cbv zeta. unfold generateRecommendations. cbn [fst snd].
  rewrite loadUserData_idempotent. split; reflexivity.
Qed.

(** The scores only read the profile and the history of the engine. *)
Lemma recommendationFor_reads (this this' : Engine)
    (weather : WeatherService.WeatherData) (timeOfDay : string)
    (route : Route) :
  userProfile this = userProfile this' ->
  runningHistory this = runningHistory this' ->
  recommendationFor this weather timeOfDay route
  = recommendationFor this' weather timeOfDay route.
Proof.
  intros Hprofile Hhistory.
  unfold recommendationFor, calculateUserRouteMatch, calculateHistoryMatch,
    calculateNoveltyScore.
  rewrite Hprofile, Hhistory. reflexivity.
Qed.

(** When the store answers the three user queries, the returned list does
    not depend on what the engine held before the call. *)
Lemma generation_ignores_prior_state (this this' : Engine) (db : Store)
    (weather : WeatherService.WeatherData) (timeOfDay : string)
    (limit : option Z) :
  user_preferences db <> Rejected ->
  user_activity_stats db <> Rejected ->
  running_history db <> Rejected ->
  (generateRecommendations this db weather timeOfDay limit).2
  = (generateRecommendations this' db weather timeOfDay limit).2.
Proof.
  intros Hp Ha Hh. rewrite !generated_list. do 2 f_equal.
  apply map_ext. intros route.
  apply recommendationFor_reads; unfold loadUserData;
    destruct (user_preferences db), (user_activity_stats db),
      (running_history db); try contradiction; reflexivity.
Qed.

(** C9, as stated, fails: at night the second route of the built-in
    catalogue has the suitability value 0.4, and the calculator returns
    1.0. *)
Lemma time_match_is_not_the_table_value :
  exists (route : Route) (suitability : gmap string Q),
    getFallbackRoutes !! 1%nat = Some route
    /\ time_suitability route = Some suitability
    /\ suitability !! "night" = Some 0.4
    /\ calculateTimeMatch route "night" == 1.0
    /\ ~ calculateTimeMatch route "night" == 0.4.
Proof.
  eexists _, _. split; [reflexivity |]. split; [reflexivity |].
  split; [vm_compute; reflexivity |].
  split; [vm_compute; reflexivity | vm_compute; discriminate].
Qed.

(** The cases of [Spec.TimeMatch] exclude one another: the relation fixes
    the value. *)
Lemma TimeMatch_functional (route : Route) (timeOfDay : string) (v1 v2 : Q) :
  Spec.TimeMatch route timeOfDay v1 -> Spec.TimeMatch route timeOfDay v2 ->
  v1 = v2.
Proof.
  assert (Hexcl : forall (suitability : gmap string Q) (v : Q),
            suitability !! timeOfDay = Some v -> ~ v == 0 ->
            Spec.unlisted suitability timeOfDay -> False).
  { intros suitability v Hentry Hv [Hnone | (v' & Hentry' & Hv')];
      congruence. }
  intros H1 H2.
  destruct H1 as [T1 | s1 x1 T1 E1 N1 | s1 T1 U1 D1 | s1 T1 U1 D1];
    destruct H2 as [T2 | s2 x2 T2 E2 N2 | s2 T2 U2 D2 | s2 T2 U2 D2];
    try reflexivity; try congruence;
    rewrite T1 in T2; injection T2 as <-; exfalso; eauto.
Qed.

(** C9, amended.  The time-of-day calculator returns 0.5 for a route
    without a suitability table; 1.0 when the table has a non-zero entry
    for the current time bucket; otherwise, at night, 0.8, 0.6 or 0.2 for
    an excellent, a good or any other lighting quality; and 0.5 in every
    other case. *)
Theorem time_match_cases (route : Route) (timeOfDay : string) :
  Spec.TimeMatch route timeOfDay (calculateTimeMatch route timeOfDay).
Proof.
  unfold calculateTimeMatch.
  destruct (time_suitability route) as [suitability |] eqn:Htable;
    [| apply Spec.tm_no_table; exact Htable].
  cbv zeta. unfold truthy.
  destruct (suitability !! timeOfDay) as [v |] eqn:Hentry.
  - destruct (v =? 0) eqn:Hv; cbn [negb]; reflect_tests.
    + assert (Hun : Spec.unlisted suitability timeOfDay)
        by (right; exists v; split; [exact Hentry | exact Hv]).
      destruct (String.eqb_spec timeOfDay "night") as [Hnight | Hday].
      * apply (Spec.tm_night _ _ suitability Htable Hun Hnight).
      * apply (Spec.tm_other _ _ suitability Htable Hun Hday).
    + apply (Spec.tm_listed _ _ suitability v Htable Hentry Hv).
  - assert (Hun : Spec.unlisted suitability timeOfDay) by (left; exact Hentry).
    destruct (String.eqb_spec timeOfDay "night") as [Hnight | Hday].
    + apply (Spec.tm_night _ _ suitability Htable Hun Hnight).
    + apply (Spec.tm_other _ _ suitability Htable Hun Hday).
Qed.

(** *** The engine on concrete inputs *)

Module Tests.
Import Sample.

Example user_match_of_a_fitting_route :
  option_map (fun r => calculateUserRouteMatch seasoned r =? 0.2)
    (getFallbackRoutes !! 0%nat) = Some true.
Proof. vm_compute. reflexivity. Qed.

Example history_match_without_history :
  Forall (fun route => calculateHistoryMatch newcomer route = 0.5)
    getFallbackRoutes.
Proof. repeat constructor. Qed.

Example history_match_of_a_similar_route :
  option_map (fun r => calculateHistoryMatch seasoned r =? 0.8)
    (getFallbackRoutes !! 0%nat) = Some true.
Proof. vm_compute. reflexivity. Qed.

Example novelty_of_a_known_and_of_a_new_route :
  map (calculateNoveltyScore seasoned) (take 2 getFallbackRoutes)
  = [0.2; 1.0].
Proof. vm_compute. reflexivity. Qed.

Example time_match_at_night :
  map (fun r => calculateTimeMatch r "night") getFallbackRoutes
  = [1.0; 1.0; 1.0; 1.0; 1.0; 1.0; 1.0; 1.0].
Proof. vm_compute. reflexivity. Qed.

Example time_match_at_noon :
  map (fun r => calculateTimeMatch r "noon") (take 2 getFallbackRoutes)
  = [0.5; 0.5].
Proof. vm_compute. reflexivity. Qed.

Example empty_table_falls_back : getAllRoutes emptyTable = getFallbackRoutes.
Proof. reflexivity. Qed.

Example rows_are_used : getAllRoutes twins = [north; south].
Proof. reflexivity. Qed.

Example offline_ranking :
  ids (generateRecommendations seasoned offline mildDay "morning" None).2
  = ["route-6"; "route-1"; "route-2"; "route-7"; "route-4"; "route-3"].
Proof. vm_compute. reflexivity. Qed.

(** A negative limit is no count: [slice] then counts from the end. *)
Example negative_limit_counts_from_the_end :
  ids (generateRecommendations newcomer twins mildDay "morning"
         (Some (-1)%Z)).2
  = ["north"].
Proof. vm_compute. reflexivity. Qed.

End Tests.

End EngineFacts.

(** ** Ranges of the sub-scores *)

Module ScoreRanges.
Import JsArray RecommendationEngine ArrayFacts.

Lemma Qdiv_unit (a b : Q) : 0 <= a -> a <= b -> 0 <= a / b <= 1.
Proof.
  intros Ha Hab.
  destruct (Qlt_le_dec 0 b) as [Hb | Hb].
  - split.
    + apply Qle_shift_div_l; [exact Hb | lra].
    + apply Qle_shift_div_r; [exact Hb | lra].
  - assert (Hb0 : b == 0) by lra.
    assert (Hz : a / b == 0).
    { unfold Qdiv. rewrite Hb0. change (/ 0) with 0. ring. }
    rewrite Hz. split; lra.
Qed.

(** The credit for a distance outside the preferred range. *)
Lemma below_range_credit (d lo : Q) :
  0 <= d -> d < lo -> 0 <= Math.max 0 (0.25 * (d / lo)) <= 0.25.
Proof.
  intros Hd Hlt. unfold Math.max.
  pose proof (Qdiv_unit d lo Hd (Qlt_le_weak _ _ Hlt)) as [H0 H1].
  split; [apply Q.le_max_l | apply Q.max_lub; lra].
Qed.

Lemma above_range_credit (d hi : Q) :
  0 <= d -> hi < d -> 0 <= Math.max 0 (0.25 * (hi / d)) <= 0.25.
Proof.
  intros Hd Hlt. unfold Math.max.
  split; [apply Q.le_max_l |].
  apply Q.max_lub; [lra |].
  destruct (Qlt_le_dec hi 0) as [Hneg | Hpos].
  - assert (Hinv : 0 <= / d) by (apply Qinv_le_0_compat; exact Hd).
    unfold Qdiv. nra.
  - pose proof (Qdiv_unit hi d Hpos (Qlt_le_weak _ _ Hlt)) as [H0 H1]. lra.
Qed.

(** Case analysis on every test of the goal, turned into (in)equalities. *)
Ltac split_tests :=
  repeat match goal with
    | |- context [if ?b then _ else _] => destruct b eqn:?
    end;
  reflect_tests.

(** With a profile the preference match is at most 0.8 spread over at
    least three factors. *)
Lemma user_match_with_profile (this : Engine) (profile : UserProfile)
    (route : Route) :
  userProfile this = Some profile -> 0 <= distance route ->
  0 <= calculateUserRouteMatch this route <= 4 # 15.
Proof.
  intros Hprofile Hd. unfold calculateUserRouteMatch. rewrite Hprofile.
  set (terrain := match terrain_preferences profile with
                  | Some prefs => includesStr prefs (terrain_type route)
                  | None => false
                  end).
  set (level := includesNum _ (difficulty_level route)).
  set (diff := Math.abs (fitness_level profile - difficulty_level route)).
  destruct (distance_range profile) as [range |]; cbv zeta.
  - change (0 + 1 + 1 + 1 + 1 >? 0) with true. cbv iota.
    unfold Qdiv. setoid_replace (/ (0 + 1 + 1 + 1 + 1)) with 0.25
      using relation Qeq by reflexivity.
    destruct ((distance route >=? min range)
              && (distance route <=? max range)) eqn:Hin.
    + destruct terrain, level; split_tests; split; lra.
    + destruct (distance route <? min range) eqn:Hlow.
      * assert (Hcredit := below_range_credit (distance route) (min range) Hd).
        unfold Qltb in Hlow. reflect_tests. specialize (Hcredit Hlow).
        unfold Qdiv in Hcredit. destruct Hcredit.
        destruct terrain, level; split_tests; split; lra.
      * assert (Hcredit := above_range_credit (distance route) (max range) Hd).
        assert (Hhigh : max range < distance route).
        { unfold Qltb, Qgeb in *. reflect_tests.
          apply andb_false_iff in Hin as [Hin | Hin]; reflect_tests; lra. }
        specialize (Hcredit Hhigh). unfold Qdiv in Hcredit. destruct Hcredit.
        destruct terrain, level; split_tests; split; lra.
  - change (0 + 1 + 1 + 1 >? 0) with true. cbv iota.
    unfold Qdiv. setoid_replace (/ (0 + 1 + 1 + 1)) with (1 # 3)
      using relation Qeq by reflexivity.
    destruct terrain, level; split_tests; split; lra.
Qed.

Lemma user_match_range (this : Engine) (route : Route) :
  0 <= distance route ->
  0 <= calculateUserRouteMatch this route <= 0.5.
Proof.
  intros Hd. destruct (userProfile this) as [profile |] eqn:Hprofile.
  - pose proof (user_match_with_profile this profile route Hprofile Hd)
      as [H0 H1].
    split; lra.
  - unfold calculateUserRouteMatch. rewrite Hprofile. split; lra.
Qed.

Lemma history_match_range (this : Engine) (route : Route) :
  0 <= calculateHistoryMatch this route <= 0.8.
Proof.
  unfold calculateHistoryMatch. cbv zeta.
  destruct (lengthOf (runningHistory this) =? 0); [split; lra |].
  unfold Math.min.
  repeat match goal with
    | |- context [if ?b then _ else _] => destruct b
    end;
    match goal with
    | |- _ <= Qmin 1 ?x <= _ =>
        rewrite (Q.min_r 1 x) by lra; split; lra
    end.
Qed.

Lemma novelty_values (this : Engine) (route : Route) :
  calculateNoveltyScore this route =
  if Archetype.completed (runningHistory this) route then 0.2 else 1.0.
Proof.
  unfold calculateNoveltyScore, Archetype.completed. cbv zeta.
  destruct (existsb _ (runningHistory this)); [reflexivity |].
  assert (Hnone : List.filter (fun _ : RunningHistory => false)
                    (runningHistory this) = []).
  { induction (runningHistory this) as [| run l IH]; [reflexivity | exact IH]. }
  rewrite Hnone. reflexivity.
Qed.

Lemma weather_score_unit (weather : WeatherService.WeatherData) :
  0 <= WeatherService.getWeatherSuitabilityScore weather <= 1.
Proof.
  rewrite WeatherFacts.score_factored. apply max_min_bounds. discriminate.
Qed.

Lemma weather_match_range (route : Route)
    (weather : WeatherService.WeatherData) :
  0 <= calculateWeatherMatch route weather <= 1.
Proof.
  unfold calculateWeatherMatch.
  destruct (weather_suitability route) as [suitability |]; [| split; lra].
  cbv zeta.
  pose proof (weather_score_unit weather) as [Hlo Hhi].
  set (w := WeatherService.getWeatherSuitabilityScore weather) in *.
  unfold Math.min. split; [| apply Q.le_min_l].
  apply Q.min_glb; [lra |].
  apply Qmult_le_0_compat; [| exact Hlo].
  repeat match goal with
    | |- context [if ?b then _ else _] => destruct b
    end; lra.
Qed.

Lemma time_match_range (route : Route) (timeOfDay : string) :
  0.2 <= calculateTimeMatch route timeOfDay <= 1.
Proof.
  unfold calculateTimeMatch.
  destruct (time_suitability route); cbv zeta;
    repeat match goal with
      | |- context [if ?b then _ else _] => destruct b
      end; split; lra.
Qed.

(** The recommendation computed for a returned entry. *)
Lemma returned_entry (this : Engine) (db : Store)
    (weather : WeatherService.WeatherData) (timeOfDay : string)
    (limit : option Z) (rec : Recommendation) :
  In rec (generateRecommendations this db weather timeOfDay limit).2 ->
  In (route rec) (getAllRoutes db)
  /\ rec = recommendationFor (loadUserData this db) weather timeOfDay
             (route rec).
Proof.
  intros Hin. apply EngineFacts.generated_from_route in Hin as (r & Hr & ->).
  split; [exact Hr | reflexivity].
Qed.

(** Membership in a list of labels built by [pushIf]. *)
Lemma In_pushIf (c : bool) (label x : string) (l : list string) :
  In x (pushIf c label l) <-> In x l \/ (c = true /\ x = label).
Proof.
  unfold pushIf. destruct c.
  - rewrite in_app_iff. cbn. intuition congruence.
  - intuition congruence.
Qed.

(** X1.  For a route of non-negative distance the preference match never
    exceeds 0.5, so the thresholds 0.6 and 0.5 of the reasoning flags are
    never passed: a returned recommendation never has [difficulty_match]
    or [preference_match] set, never lists the two reasons bound to them
    and is never of the type [perfect_match]. *)
Theorem preference_flags_never_set (this : Engine) (db : Store)
    (weather : WeatherService.WeatherData) (timeOfDay : string)
    (limit : option Z) (rec : Recommendation) :
  In rec (generateRecommendations this db weather timeOfDay limit).2 ->
  0 <= distance (route rec) ->
  0 <= preference_match_score rec <= 0.5
  /\ difficulty_match (reasoning rec) = false
  /\ preference_match (reasoning rec) = false
  /\ ~ In "难度匹配" (factors (reasoning rec))
  /\ ~ In "符合偏好" (factors (reasoning rec))
  /\ recommendation_type rec <> "perfect_match".
Proof.
  intros Hin Hd. apply returned_entry in Hin as [_ Hrec].
  set (engine := loadUserData this db) in *.
  pose proof (user_match_range engine (route rec) Hd) as [Hlo Hhi].
  assert (H6 : (calculateUserRouteMatch engine (route rec) >? 0.6) = false).
  { unfold Qgtb. apply negb_false_iff, Qleb_le. lra. }
  assert (H5 : (calculateUserRouteMatch engine (route rec) >? 0.5) = false).
  { unfold Qgtb. apply negb_false_iff, Qleb_le. lra. }
  rewrite Hrec.
  cbn [recommendationFor preference_match_score reasoning difficulty_match
         preference_match factors recommendation_type route].
  rewrite H6, H5, andb_false_r.
  split; [split; assumption |]. do 2 (split; [reflexivity |]).
  split; [| split].
  - rewrite !In_pushIf. cbn [In]. intros H.
    repeat destruct H as [H | H]; try destruct H as [Hc H];
      try discriminate; try contradiction.
  - rewrite !In_pushIf. cbn [In]. intros H.
    repeat destruct H as [H | H]; try destruct H as [Hc H];
      try discriminate; try contradiction.
  - repeat match goal with
      | |- context [if ?b then _ else _] => destruct b
      end; discriminate.
Qed.

Lemma preference_flags_never_set_witness :
  let rec := recommendationFor Sample.seasoned Sample.mildDay "morning"
               Sample.north in
  In rec (generateRecommendations Sample.seasoned
            (Sample.keeping [Sample.north]) Sample.mildDay "morning" None).2
  /\ 0 <= distance (route rec)
  /\ difficulty_match (reasoning rec) = false
  /\ recommendation_type rec <> "perfect_match".
Proof.
  intros rec.
  assert (Hin : In rec (generateRecommendations Sample.seasoned
                          (Sample.keeping [Sample.north]) Sample.mildDay
                          "morning" None).2)
    by (vm_compute; left; reflexivity).
  assert (Hd : 0 <= distance (route rec)) by discriminate.
  destruct (preference_flags_never_set Sample.seasoned
              (Sample.keeping [Sample.north]) Sample.mildDay "morning" None
              rec Hin Hd) as (_ & Hdm & _ & _ & _ & Htype).
  repeat split; assumption.
Defined.

Lemma Qgtb_iff (a b c d : Q) :
  (b < a <-> d < c) -> (a >? b) = (c >? d).
Proof.
  intros Hiff. destruct (a >? b) eqn:Hab, (c >? d) eqn:Hcd; try reflexivity;
    unfold Qgtb in *; reflect_tests; exfalso.
  - apply Hiff in Hab. lra.
  - apply Hiff in Hcd. lra.
Qed.

Lemma fifth (x : Q) : x / 5 == x * 0.2.
Proof. unfold Qdiv. setoid_replace (/ 5) with 0.2 using relation Qeq
    by reflexivity. reflexivity. Qed.

Lemma popularity_range (route : Route) :
  0 <= avg_rating route -> 0 <= Math.min 1 (avg_rating route / 5) <= 1.
Proof.
  intros Hr. unfold Math.min. split; [| apply Q.le_min_l].
  apply Q.min_glb; [lra |]. rewrite fifth. lra.
Qed.

Lemma popular_test (route : Route) :
  (Math.min 1 (avg_rating route / 5) >? 0.9) = (avg_rating route >? 4.5).
Proof.
  apply Qgtb_iff. unfold Math.min.
  destruct (Q.min_spec 1 (avg_rating route / 5)) as [[Hlt Hm] | [Hle Hm]];
    rewrite Hm; rewrite fifth in *; split; intros; lra.
Qed.

Lemma safety_test (route : Route) :
  (safety_rating route / 5 >? 0.8) = (safety_rating route >? 4).
Proof. apply Qgtb_iff. rewrite fifth. split; intros; lra. Qed.

Lemma novelty_test (this : Engine) (route : Route) :
  (calculateNoveltyScore this route >? 0.8)
  = negb (Archetype.completed (runningHistory this) route).
Proof.
  rewrite novelty_values.
  destruct (Archetype.completed (runningHistory this) route); reflexivity.
Qed.

(** X2.  The history match lies between 0 and 0.8 for every engine state
    and route (the final [Math.min(1, score)] never cuts anything off), and
    it is the neutral 0.5 for an engine without history. *)
Theorem history_match_bounds (this : Engine) (route : Route) :
  0 <= calculateHistoryMatch this route <= 0.8
  /\ calculateHistoryMatch
       {| userId := userId this; userProfile := userProfile this;
          userActivity := userActivity this; runningHistory := [] |} route
     = 0.5.
Proof. split; [apply history_match_range | reflexivity]. Qed.

(** X3.  The novelty score is 0.2 for a route whose identifier occurs in
    the loaded history and 1.0 for every other route: the tiers 0.8 and
    0.6 of the similar-route branch are never returned. *)
Theorem novelty_is_two_valued (this : Engine) (route : Route) :
  (calculateNoveltyScore this route = 0.2
   /\ exists run : RunningHistory,
        In run (runningHistory this) /\ route_id run = id route)
  \/ (calculateNoveltyScore this route = 1.0
      /\ forall run : RunningHistory,
           In run (runningHistory this) -> route_id run <> id route).
Proof.
  rewrite novelty_values. unfold Archetype.completed.
  destruct (existsb _ (runningHistory this)) eqn:Hrun.
  - left. split; [reflexivity |].
    apply existsb_exists in Hrun as (run & Hin & Heq).
    exists run. split; [exact Hin | apply String.eqb_eq, Heq].
  - right. split; [reflexivity |].
    intros run Hin Heq.
    assert (Htrue : existsb
              (fun run => String.eqb (route_id run) (id route))
              (runningHistory this) = true).
    { apply existsb_exists. exists run. split; [exact Hin |].
      apply String.eqb_eq, Heq. }
    congruence.
Qed.

(** X4.  For a route with a non-negative distance, a safety rating between
    0 and 10 and a non-negative average rating, the confidence score of the
    returned recommendation lies between 0.04 and 0.935, whatever the
    profile, the history, the weather and the time of day; the [score]
    field carries the same number. *)
Theorem confidence_within_unit (this : Engine) (db : Store)
    (weather : WeatherService.WeatherData) (timeOfDay : string)
    (limit : option Z) (rec : Recommendation) :
  In rec (generateRecommendations this db weather timeOfDay limit).2 ->
  0 <= distance (route rec) ->
  0 <= safety_rating (route rec) <= 10 ->
  0 <= avg_rating (route rec) ->
  0.04 <= confidence_score rec <= 0.935
  /\ score rec = confidence_score rec.
Proof.
  intros Hin Hd [Hs0 Hs10] Hr. apply returned_entry in Hin as [_ Hrec].
  set (engine := loadUserData this db) in *.
  pose proof (user_match_range engine (route rec) Hd) as [Hu0 Hu1].
  pose proof (history_match_range engine (route rec)) as [Hh0 Hh1].
  pose proof (weather_match_range (route rec) weather) as [Hw0 Hw1].
  pose proof (time_match_range (route rec) timeOfDay) as [Ht0 Ht1].
  pose proof (popularity_range (route rec) Hr) as [Hp0 Hp1].
  assert (Hn : 0.2 <= calculateNoveltyScore engine (route rec) <= 1).
  { rewrite novelty_values.
    destruct (Archetype.completed _ _); split; lra. }
  destruct Hn as [Hn0 Hn1].
  rewrite Hrec. cbn [recommendationFor confidence_score score].
  split; [| reflexivity].
  rewrite (fifth (safety_rating (route rec))).
  split; lra.
Qed.

Lemma confidence_within_unit_witness :
  let rec := recommendationFor Sample.seasoned Sample.mildDay "morning"
               Sample.north in
  In rec (generateRecommendations Sample.seasoned
            (Sample.keeping [Sample.north]) Sample.mildDay "morning" None).2
  /\ 0.04 <= confidence_score rec <= 0.935.
Proof.
  intros rec.
  assert (Hin : In rec (generateRecommendations Sample.seasoned
                          (Sample.keeping [Sample.north]) Sample.mildDay
                          "morning" None).2)
    by (vm_compute; left; reflexivity).
  assert (Hd : 0 <= distance (route rec)) by discriminate.
  assert (Hs : 0 <= safety_rating (route rec) <= 10)
    by (split; discriminate).
  assert (Hr : 0 <= avg_rating (route rec)) by discriminate.
  destruct (confidence_within_unit Sample.seasoned
              (Sample.keeping [Sample.north]) Sample.mildDay "morning" None
              rec Hin Hd Hs Hr) as [Hrange _].
  split; assumption.
Defined.

(** X5.  For a route of non-negative distance the type of the returned
    recommendation is decided by the inputs alone: [popular] when the
    average rating exceeds 4.5; else [challenge] when the difficulty level
    is at least 7; else [exploration] when the route does not occur in the
    history; else [safe_night] when the safety rating exceeds 4 and the
    time of day is night; else [general]. *)
Theorem archetype_of_recommendation (this : Engine) (db : Store)
    (weather : WeatherService.WeatherData) (timeOfDay : string)
    (limit : option Z) (rec : Recommendation) :
  In rec (generateRecommendations this db weather timeOfDay limit).2 ->
  0 <= distance (route rec) ->
  recommendation_type rec =
  Archetype.archetype (runningHistory (loadUserData this db)) (route rec)
    timeOfDay.
Proof.
  intros Hin Hd. apply returned_entry in Hin as [_ Hrec].
  set (engine := loadUserData this db) in *.
  pose proof (user_match_range engine (route rec) Hd) as [Hlo Hhi].
  assert (H6 : (calculateUserRouteMatch engine (route rec) >? 0.6) = false).
  { unfold Qgtb. apply negb_false_iff, Qleb_le. lra. }
  rewrite Hrec. cbn [recommendationFor recommendation_type route].
  rewrite H6, andb_false_r, popular_test, safety_test, novelty_test.
  reflexivity.
Qed.

Lemma archetype_of_recommendation_witness :
  let rec := recommendationFor Sample.seasoned Sample.mildDay "morning"
               Sample.north in
  In rec (generateRecommendations Sample.seasoned
            (Sample.keeping [Sample.north]) Sample.mildDay "morning" None).2
  /\ 0 <= distance (route rec)
  /\ recommendation_type rec = "exploration".
Proof.
  intros rec.
  assert (Hin : In rec (generateRecommendations Sample.seasoned
                          (Sample.keeping [Sample.north]) Sample.mildDay
                          "morning" None).2)
    by (vm_compute; left; reflexivity).
  assert (Hd : 0 <= distance (route rec)) by discriminate.
  split; [exact Hin | split; [exact Hd |]].
  rewrite (archetype_of_recommendation Sample.seasoned
             (Sample.keeping [Sample.north]) Sample.mildDay "morning" None
             rec Hin Hd).
  vm_compute. reflexivity.
Defined.

End ScoreRanges.

(** ** The ranking *)

Module RankingFacts.
Import JsArray RecommendationEngine ArrayFacts Archetype.

Lemma insert_Permutation {A : Type} (compareFn : A -> A -> Q) (x : A)
    (l : list A) :
  Permutation (insert compareFn x l) (x :: l).
Proof.
  induction l as [| y ys IH]; cbn; [reflexivity |].
  destruct (compareFn x y >? 0); [| reflexivity].
  rewrite IH. apply perm_swap.
Qed.

Lemma sort_Permutation {A : Type} (compareFn : A -> A -> Q) (l : list A) :
  Permutation (sort compareFn l) l.
Proof.
  induction l as [| x l IH]; [reflexivity |].
  rewrite sort_cons, insert_Permutation, IH. reflexivity.
Qed.

Lemma generated_take (this : Engine) (db : Store)
    (weather : WeatherService.WeatherData) (timeOfDay : string) (n : nat) :
  (generateRecommendations this db weather timeOfDay (Some (Z.of_nat n))).2
  = take n (ranking this db weather timeOfDay).
Proof.
  rewrite EngineFacts.generated_list.
  change (default 6%Z (Some (Z.of_nat n))) with (Z.of_nat n).
  apply slice_0_count.
Qed.

Lemma ranking_descending (this : Engine) (db : Store)
    (weather : WeatherService.WeatherData) (timeOfDay : string) :
  descending confidence_score (ranking this db weather timeOfDay).
Proof. apply (sort_descending confidence_score). Qed.

(** There is always a candidate: the rows of the store or the built-in
    catalogue. *)
Lemma candidates_exist (db : Store) : getAllRoutes db <> [].
Proof.
  unfold getAllRoutes.
  destruct (routes db) as [[[| row rows] |] [|] |]; discriminate.
Qed.

(** X6.  The returned list is in descending order of confidence: an entry
    never has a lower score than one returned after it. *)
Theorem returned_in_descending_order (this : Engine) (db : Store)
    (weather : WeatherService.WeatherData) (timeOfDay : string)
    (limit : option Z) (i j : nat) (a b : Recommendation) :
  let returned :=
    (generateRecommendations this db weather timeOfDay limit).2 in
  returned !! i = Some a -> returned !! j = Some b -> (i < j)%nat ->
  confidence_score b <= confidence_score a.
Proof.
  intros returned Hi Hj Hlt. subst returned.
  rewrite EngineFacts.generated_list in Hi, Hj.
  pose proof (before_lookup _ i j a b Hi Hj Hlt) as Hbefore.
  apply before_slice in Hbefore.
  apply (ranking_descending this db weather timeOfDay), Hbefore.
Qed.

Lemma returned_in_descending_order_witness :
  let returned :=
    (generateRecommendations Sample.seasoned Sample.offline Sample.mildDay
       "morning" None).2 in
  exists a b : Recommendation,
    returned !! 0%nat = Some a /\ returned !! 1%nat = Some b
    /\ Sample.ids [a; b] = ["route-6"; "route-1"]
    /\ confidence_score b <= confidence_score a.
Proof.
  intros returned.
  destruct (returned !! 0%nat) as [a |] eqn:Ha;
    [| vm_compute in Ha; discriminate].
  destruct (returned !! 1%nat) as [b |] eqn:Hb;
    [| vm_compute in Hb; discriminate].
  exists a, b. split; [reflexivity | split; [reflexivity |]].
  split.
  - vm_compute in Ha, Hb. injection Ha as <-. injection Hb as <-.
    vm_compute. reflexivity.
  - apply (returned_in_descending_order Sample.seasoned Sample.offline
             Sample.mildDay "morning" None 0 1 a b Ha Hb).
    lia.
Defined.

(** X7.  Asked for at least one recommendation, the engine always returns
    one, also when the store fails, and the first one returned has the
    highest confidence score among all candidate routes. *)
Theorem best_candidate_comes_first (this : Engine) (db : Store)
    (weather : WeatherService.WeatherData) (timeOfDay : string) (n : nat) :
  exists (best : Recommendation) (rest : list Recommendation),
    (generateRecommendations this db weather timeOfDay
       (Some (Z.of_nat (S n)))).2 = best :: rest
    /\ forall candidate : Route,
         In candidate (getAllRoutes db) ->
         confidence_score
           (recommendationFor (loadUserData this db) weather timeOfDay
              candidate)
         <= confidence_score best.
Proof.
  rewrite generated_take.
  pose proof (ranking_descending this db weather timeOfDay) as Hdesc.
  assert (Hall : forall candidate, In candidate (getAllRoutes db) ->
            In (recommendationFor (loadUserData this db) weather timeOfDay
                  candidate) (ranking this db weather timeOfDay)).
  { intros candidate Hin. apply In_sort, in_map, Hin. }
  destruct (ranking this db weather timeOfDay) as [| best others] eqn:Hrank.
  - destruct (getAllRoutes db) as [| r rs] eqn:Hroutes.
    + destruct (candidates_exist db Hroutes).
    + destruct (Hall r (or_introl eq_refl)).
  - exists best, (take n others). split; [reflexivity |].
    intros candidate Hin. destruct (Hall candidate Hin) as [<- | Hlater].
    + apply Qle_refl.
    + apply Hdesc, before_here, Hlater.
Qed.

(** X8.  A shorter request returns the beginning of a longer one: the
    first [n] entries do not depend on how many more are asked for. *)
Theorem shorter_request_is_a_prefix (this : Engine) (db : Store)
    (weather : WeatherService.WeatherData) (timeOfDay : string)
    (n more : nat) :
  (generateRecommendations this db weather timeOfDay (Some (Z.of_nat n))).2
  = take n (generateRecommendations this db weather timeOfDay
              (Some (Z.of_nat (n + more)))).2.
Proof.
  rewrite !generated_take, take_take.
  f_equal. lia.
Qed.

(** X9.  Asked for as many recommendations as there are candidates, or
    more, the engine returns every candidate route exactly once: the
    routes of the returned list are a permutation of the candidate list. *)
Theorem full_ranking_is_a_permutation (this : Engine) (db : Store)
    (weather : WeatherService.WeatherData) (timeOfDay : string)
    (more : nat) :
  Permutation
    (map route
       (generateRecommendations this db weather timeOfDay
          (Some (Z.of_nat (length (getAllRoutes db) + more)))).2)
    (getAllRoutes db).
Proof.
  rewrite generated_take. unfold ranking.
  rewrite take_ge
    by (rewrite sort_length, length_map; lia).
  rewrite sort_Permutation, map_map. cbn [recommendationFor route].
  rewrite map_id. reflexivity.
Qed.

End RankingFacts.

(** ** More on the weather service *)

Module WeatherExtras.
Import WeatherService.

Lemma temperatureBand_values (t : Q) :
  0.3 <= Spec.temperatureBand t <= 1
  /\ (Spec.temperatureBand t == 1 <-> 15 <= t <= 25).
Proof.
  unfold Spec.temperatureBand.
  destruct ((15 <=? t) && (t <=? 25)) eqn:H1.
  - reflect_tests. split; [split; lra |]. split; [tauto | reflexivity].
  - assert (Hout : ~ 15 <= t <= 25).
    { intros [Ha Hb]. apply andb_false_iff in H1 as [H1 | H1];
        reflect_tests; lra. }
    destruct ((10 <=? t) && (t <=? 30)), ((5 <=? t) && (t <=? 35));
      (split; [split; lra |]); split; intros H; try tauto; exfalso;
      revert H; discriminate.
Qed.

Lemma windBand_values (w : Q) :
  0.5 <= Spec.windBand w <= 1 /\ (Spec.windBand w == 1 <-> w <= 10).
Proof.
  unfold Spec.windBand.
  destruct (w <=? 10) eqn:H1; reflect_tests.
  - split; [split; lra |]. split; [tauto | reflexivity].
  - destruct (w <=? 20); (split; [split; lra |]); split; intros H;
      try lra; exfalso; revert H; discriminate.
Qed.

Lemma humidityBand_values (h : Q) :
  0.7 <= Spec.humidityBand h <= 1
  /\ (Spec.humidityBand h == 1 <-> 40 <= h <= 70).
Proof.
  unfold Spec.humidityBand.
  destruct ((40 <=? h) && (h <=? 70)) eqn:H1.
  - reflect_tests. split; [split; lra |]. split; [tauto | reflexivity].
  - assert (Hout : ~ 40 <= h <= 70).
    { intros [Ha Hb]. apply andb_false_iff in H1 as [H1 | H1];
        reflect_tests; lra. }
    destruct ((30 <=? h) && (h <=? 80));
      (split; [split; lra |]); split; intros H; try tauto; exfalso;
      revert H; discriminate.
Qed.

Lemma conditionLookup_values (c : string) :
  0.1 <= Spec.conditionLookup c <= 1
  /\ (Spec.conditionLookup c == 1 <-> fair c)
  /\ (rainy c -> Spec.conditionLookup c == 0.1).
Proof.
  unfold Spec.conditionLookup, Spec.conditionTable, fair, rainy.
  cbn [Spec.assoc].
  repeat match goal with
    | |- context [String.eqb c ?k] =>
        destruct (String.eqb_spec c k) as [-> | ?]
    end;
    (split; [split; lra |]); (split; [split |]); intros H;
    try reflexivity; try (exfalso; revert H; discriminate);
    try tauto; try (destruct H; congruence);
    try (repeat destruct H as [H | H]; congruence).
Qed.

Lemma product_is_one (a b : Q) :
  0 <= a <= 1 -> 0 <= b <= 1 -> (a * b == 1 <-> a == 1 /\ b == 1).
Proof.
  intros [Ha0 Ha1] [Hb0 Hb1]. split.
  - intros Hab. split; nra.
  - intros [Ha Hb]. rewrite Ha, Hb. reflexivity.
Qed.

Lemma weather_score_floor_and_caps_aux (weather : WeatherData) :
  getWeatherSuitabilityScore weather
  <= Spec.conditionLookup (condition weather)
  /\ 0 <= getWeatherSuitabilityScore weather.
Proof.
  rewrite WeatherFacts.score_product.
  destruct (temperatureBand_values (temperature weather)) as [[Ht0 Ht1] _].
  destruct (conditionLookup_values (condition weather)) as ([Hc0 Hc1] & _).
  destruct (windBand_values (windSpeed weather)) as [[Hw0 Hw1] _].
  destruct (humidityBand_values (humidity weather)) as [[Hh0 Hh1] _].
  set (T := Spec.temperatureBand _) in *.
  set (C := Spec.conditionLookup _) in *.
  set (W := Spec.windBand _) in *.
  set (H := Spec.humidityBand _) in *.
  assert (0 <= T * C <= C) by (split; nra).
  assert (0 <= T * C * W <= C) by (split; nra).
  split; nra.
Qed.

(** X10.  The weather suitability score is 1 exactly for a temperature
    within [15,25], a clear, sunny or partly cloudy sky, a wind speed of at
    most 10 and a humidity within [40,70]. *)
Theorem perfect_weather (weather : WeatherData) :
  getWeatherSuitabilityScore weather == 1
  <-> 15 <= temperature weather <= 25
      /\ fair (condition weather)
      /\ windSpeed weather <= 10
      /\ 40 <= humidity weather <= 70.
Proof.
  rewrite WeatherFacts.score_product.
  destruct (temperatureBand_values (temperature weather)) as [[Ht0 Ht1] Ht].
  destruct (conditionLookup_values (condition weather))
    as ([Hc0 Hc1] & Hc & _).
  destruct (windBand_values (windSpeed weather)) as [[Hw0 Hw1] Hw].
  destruct (humidityBand_values (humidity weather)) as [[Hh0 Hh1] Hh].
  rewrite <- Ht, <- Hc, <- Hw, <- Hh.
  set (T := Spec.temperatureBand _) in *.
  set (C := Spec.conditionLookup _) in *.
  set (W := Spec.windBand _) in *.
  set (H := Spec.humidityBand _) in *.
  assert (HTC : 0 <= T * C <= 1) by (split; nra).
  assert (HTCW : 0 <= T * C * W <= 1) by (split; nra).
  rewrite (product_is_one (T * C * W) H) by (split; lra).
  rewrite (product_is_one (T * C) W) by (split; lra).
  rewrite (product_is_one T C) by (split; lra).
  tauto.
Qed.

(** X11.  The weather suitability score is never below 0.01: no reading
    brings it down to 0, so that the lower clamp of the final
    [Math.max(0, ...)] never acts. *)
Theorem weather_score_floor (weather : WeatherData) :
  0.01 <= getWeatherSuitabilityScore weather.
Proof.
  destruct (temperatureBand_values (temperature weather)) as [[Ht0 Ht1] _].
  destruct (conditionLookup_values (condition weather)) as ([Hc0 Hc1] & _).
  destruct (windBand_values (windSpeed weather)) as [[Hw0 Hw1] _].
  destruct (humidityBand_values (humidity weather)) as [[Hh0 Hh1] _].
  rewrite WeatherFacts.score_product.
  set (T := Spec.temperatureBand _) in *.
  set (C := Spec.conditionLookup _) in *.
  set (W := Spec.windBand _) in *.
  set (H := Spec.humidityBand _) in *.
  assert (0.03 <= T * C <= 1) by (split; nra).
  assert (0.015 <= T * C * W <= 1) by (split; nra).
  nra.
Qed.

(** X12.  [getWeatherBasedRouteRecommendations] always returns exactly one
    suggestion, with three routes.  Rain comes first: the suggestion is
    [indoor] exactly under rain or heavy rain, whatever the temperature,
    and it is [outdoor] exactly when it does not rain and the temperature
    is within [5,30]. *)
Theorem one_weather_based_suggestion (weather : WeatherData) :
  exists suggestion : RouteSuggestion,
    getWeatherBasedRouteRecommendations weather = [suggestion]
    /\ length (suggestedRoutes suggestion) = 3%nat
    /\ (suggestionType suggestion = "indoor" <-> rainy (condition weather))
    /\ (suggestionType suggestion = "outdoor"
        <-> ~ rainy (condition weather) /\ 5 <= temperature weather <= 30).
Proof.
  unfold getWeatherBasedRouteRecommendations, rainy. cbv zeta.
  destruct (String.eqb_spec (condition weather) "rain") as [Hr | Hr];
    [| destruct (String.eqb_spec (condition weather) "heavy-rain")
         as [Hh | Hh]]; cbn [orb].
  1, 2: eexists; split; [reflexivity |]; cbn [suggestionType suggestedRoutes];
    split; [reflexivity |]; split; [tauto |];
    split; [discriminate | tauto].
  destruct (temperature weather >? 30) eqn:Hhot;
    [| destruct (temperature weather <? 5) eqn:Hcold];
    unfold Qltb in *; reflect_tests;
    (eexists; split; [reflexivity |]; cbn [suggestionType suggestedRoutes];
     split; [reflexivity |]; split; [split; [discriminate | tauto] |]).
  - split; [discriminate | intros [_ [_ H]]; lra].
  - split; [discriminate | intros [_ [H _]]; lra].
  - split; [intros _; split; [tauto | split; lra] | reflexivity].
Qed.

Lemma rainy_tests (c : string) :
  rainy c ->
  oneOf c ["clear"; "sunny"] = false /\ oneOf c ["rain"; "heavy-rain"] = true.
Proof. intros [-> | ->]; split; reflexivity. Qed.

Lemma rain_weather_match (route : RecommendationEngine.Route)
    (weather : WeatherData) :
  rainy (condition weather) ->
  getWeatherSuitabilityScore weather <= 0.1
  /\ match RecommendationEngine.weather_suitability route with
     | None => RecommendationEngine.calculateWeatherMatch route weather = 0.5
     | Some _ =>
         RecommendationEngine.calculateWeatherMatch route weather <= 0.12
     end.
Proof.
  intros Hrain.
  destruct (weather_score_floor_and_caps_aux weather) as [Hcap Hpos].
  destruct (conditionLookup_values (condition weather)) as (_ & _ & Hc).
  specialize (Hc Hrain).
  assert (Hscore : getWeatherSuitabilityScore weather <= 0.1) by lra.
  split; [exact Hscore |].
  unfold RecommendationEngine.calculateWeatherMatch.
  destruct (RecommendationEngine.weather_suitability route)
    as [suitability |]; [| reflexivity].
  cbv zeta. destruct (rainy_tests _ Hrain) as [-> ->].
  set (w := getWeatherSuitabilityScore weather) in *.
  unfold Math.min.
  match goal with
  | |- Qmin 1 ?x <= _ => apply (Qle_trans _ x); [apply Q.le_min_r |]
  end.
  destruct (temperature weather >? 30) eqn:Hhot;
    destruct (temperature weather <? 10) eqn:Hcold;
    unfold Qltb in *; reflect_tests; try lra;
    cbn [andb];
    repeat match goal with
      | |- context [if ?b then _ else _] => destruct b
      end; nra.
Qed.

(** X13.  Under rain or heavy rain the weather is never a reason for a
    recommendation.  The weather suitability score is at most 0.1, so a
    route with weather data, even one marked as suited to rain, gets a
    weather match of at most 0.12, below the neutral 0.5 of a route
    without such data; no returned recommendation has [weather_match] set
    or lists the reason bound to it. *)
Theorem rain_is_never_a_reason (this : RecommendationEngine.Engine)
    (db : RecommendationEngine.Store) (weather : WeatherData)
    (timeOfDay : string) (limit : option Z)
    (rec : RecommendationEngine.Recommendation) :
  In rec
    (RecommendationEngine.generateRecommendations this db weather timeOfDay
       limit).2 ->
  rainy (condition weather) ->
  getWeatherSuitabilityScore weather <= 0.1
  /\ match RecommendationEngine.weather_suitability
             (RecommendationEngine.route rec) with
     | None =>
         RecommendationEngine.calculateWeatherMatch
           (RecommendationEngine.route rec) weather = 0.5
     | Some _ =>
         RecommendationEngine.calculateWeatherMatch
           (RecommendationEngine.route rec) weather <= 0.12
     end
  /\ RecommendationEngine.weather_match (RecommendationEngine.reasoning rec)
     = false
  /\ ~ In "天气条件适宜"
         (RecommendationEngine.factors (RecommendationEngine.reasoning rec)).
Proof.
  intros Hin Hrain. apply ScoreRanges.returned_entry in Hin as [_ Hrec].
  destruct (rain_weather_match (RecommendationEngine.route rec) weather Hrain)
    as [Hscore Hmatch].
  split; [exact Hscore |]. split; [exact Hmatch |].
  assert (Hflag :
    (RecommendationEngine.calculateWeatherMatch
       (RecommendationEngine.route rec) weather >? 0.7) = false).
  { unfold Qgtb. apply negb_false_iff, Qleb_le.
    destruct (RecommendationEngine.weather_suitability
                (RecommendationEngine.route rec));
      [lra | rewrite Hmatch; discriminate]. }
  rewrite Hrec.
  cbn [RecommendationEngine.recommendationFor RecommendationEngine.reasoning
         RecommendationEngine.weather_match RecommendationEngine.factors
         RecommendationEngine.route].
  rewrite Hflag. split; [reflexivity |].
  rewrite !ScoreRanges.In_pushIf. cbn [In]. intros H.
  repeat destruct H as [H | H]; try destruct H as [Hc H];
    try discriminate; try contradiction.
Qed.

Lemma rain_is_never_a_reason_witness :
  let rainyDay := reading 20 "rain" 55 5 in
  let rec :=
    RecommendationEngine.recommendationFor RecommendationEngine.Sample.seasoned
      rainyDay "morning" RecommendationEngine.Sample.north in
  In rec
    (RecommendationEngine.generateRecommendations
       RecommendationEngine.Sample.seasoned
       (RecommendationEngine.Sample.keeping
          [RecommendationEngine.Sample.north]) rainyDay "morning" None).2
  /\ rainy (condition rainyDay)
  /\ RecommendationEngine.weather_match (RecommendationEngine.reasoning rec)
     = false.
Proof.
  intros rainyDay rec.
  assert (Hin : In rec
    (RecommendationEngine.generateRecommendations
       RecommendationEngine.Sample.seasoned
       (RecommendationEngine.Sample.keeping
          [RecommendationEngine.Sample.north]) rainyDay "morning" None).2)
    by (vm_compute; left; reflexivity).
  assert (Hrain : rainy (condition rainyDay)) by (left; reflexivity).
  destruct (rain_is_never_a_reason RecommendationEngine.Sample.seasoned
              (RecommendationEngine.Sample.keeping
                 [RecommendationEngine.Sample.north]) rainyDay "morning" None
              rec Hin Hrain) as (_ & _ & Hflag & _).
  repeat split; assumption.
Defined.

End WeatherExtras.

(** ** The queries of the feedback service *)

Module FeedbackQueriesFacts.
Import JsArray FeedbackService FeedbackQueries ArrayFacts.

Lemma count_nonneg {A : Type} (l : list A) : 0 <= count l.
Proof.
  unfold count, RecommendationEngine.lengthOf.
  change 0 with (inject_Z 0). rewrite <- Zle_Qle. lia.
Qed.

Lemma count_cons {A : Type} (x : A) (l : list A) :
  count (x :: l) == count l + 1.
Proof.
  unfold count, RecommendationEngine.lengthOf. cbn [length].
  rewrite Nat2Z.inj_succ, <- Z.add_1_r, inject_Z_plus. reflexivity.
Qed.

Lemma count_zero {A : Type} (l : list A) : (count l =? 0) = true <-> l = [].
Proof.
  rewrite Qeqb_eq. destruct l as [| x l]; [split; reflexivity |].
  rewrite count_cons. pose proof (count_nonneg l).
  split; [intros; lra | discriminate].
Qed.

Lemma sumOf_fold (column : FeedbackRow -> Q) (rows : list FeedbackRow)
    (init : Q) :
  fold_left (fun sum f => sum + column f) rows init
  == init + sumOf column rows.
Proof.
  unfold sumOf, RecommendationEngine.reduce.
  revert init. induction rows as [| f rows IH]; intros init; cbn [fold_left].
  - ring.
  - rewrite IH, (IH (0 + column f)). ring.
Qed.

Lemma sumOf_cons (column : FeedbackRow -> Q) (f : FeedbackRow)
    (rows : list FeedbackRow) :
  sumOf column (f :: rows) == column f + sumOf column rows.
Proof.
  unfold sumOf at 1, RecommendationEngine.reduce. cbn [fold_left].
  rewrite sumOf_fold. ring.
Qed.

Lemma sumOf_bounds (column : FeedbackRow -> Q) (lo hi : Q)
    (rows : list FeedbackRow) :
  Forall (fun f => lo <= column f <= hi) rows ->
  lo * count rows <= sumOf column rows <= hi * count rows.
Proof.
  induction 1 as [| f rows [Hlo Hhi] _ [IHlo IHhi]].
  - change (count []) with 0. change (sumOf column []) with 0. split; lra.
  - rewrite sumOf_cons, count_cons. split; nra.
Qed.

Lemma average_bounds (column : FeedbackRow -> Q) (lo hi : Q)
    (rows : list FeedbackRow) :
  rows <> [] -> Forall (fun f => lo <= column f <= hi) rows ->
  lo <= sumOf column rows / count rows <= hi.
Proof.
  intros Hne Hall. pose proof (sumOf_bounds column lo hi rows Hall) as [Hlo Hhi].
  assert (Hpos : 0 < count rows).
  { destruct rows as [| f rows]; [contradiction |].
    rewrite count_cons. pose proof (count_nonneg rows). lra. }
  split.
  - apply Qle_shift_div_l; [exact Hpos | exact Hlo].
  - apply Qle_shift_div_r; [exact Hpos | exact Hhi].
Qed.

(** Rounding to a scale keeps a value between two integers between them
    (over the scale). *)
Lemma rounded_between (scale : positive) (lo hi : Z) (x : Q) :
  inject_Z lo / inject_Z (Z.pos scale) <= x ->
  x <= inject_Z hi / inject_Z (Z.pos scale) ->
  inject_Z lo / inject_Z (Z.pos scale)
  <= rounded (inject_Z (Z.pos scale)) x
  <= inject_Z hi / inject_Z (Z.pos scale).
Proof.
  intros Hlo Hhi. unfold rounded, Math.round.
  set (s := inject_Z (Z.pos scale)) in *.
  assert (Hs : 0 < s).
  { unfold s. change 0 with (inject_Z 0). rewrite <- Zlt_Qlt. lia. }
  assert (Hlo' : inject_Z lo <= x * s).
  { apply (Qmult_le_r _ _ s Hs) in Hlo.
    unfold Qdiv in Hlo. rewrite <- Qmult_assoc, (Qmult_comm (/ s)) in Hlo.
    rewrite Qmult_inv_r, Qmult_1_r in Hlo by lra. exact Hlo. }
  assert (Hhi' : x * s <= inject_Z hi).
  { apply (Qmult_le_r _ _ s Hs) in Hhi.
    unfold Qdiv in Hhi. rewrite <- Qmult_assoc, (Qmult_comm (/ s)) in Hhi.
    rewrite Qmult_inv_r, Qmult_1_r in Hhi by lra. exact Hhi. }
  assert (Hfl : (lo <= Qfloor (x * s + 0.5))%Z).
  { rewrite <- (Qfloor_Z lo). apply Qfloor_resp_le. lra. }
  assert (Hfh : (Qfloor (x * s + 0.5) <= hi)%Z).
  { assert (Hlt : (Qfloor (x * s + 0.5) < hi + 1)%Z).
    { rewrite Zlt_Qlt. apply (Qle_lt_trans _ (x * s + 0.5)).
      - apply Qfloor_le.
      - rewrite inject_Z_plus. change (inject_Z 1) with 1. lra. }
    lia. }
  split.
  - apply Qle_shift_div_l; [exact Hs |].
    unfold Qdiv. rewrite <- Qmult_assoc, (Qmult_comm (/ s)).
    rewrite Qmult_inv_r, Qmult_1_r by lra.
    rewrite <- Zle_Qle. exact Hfl.
  - apply Qle_shift_div_r; [exact Hs |].
    unfold Qdiv. rewrite <- Qmult_assoc, (Qmult_comm (/ s)).
    rewrite Qmult_inv_r, Qmult_1_r by lra.
    rewrite <- Zle_Qle. exact Hfh.
Qed.

Lemma rounded_tenth_in_scale (x : Q) :
  1 <= x <= 5 -> 1 <= rounded 10 x <= 5.
Proof.
  intros [Hlo Hhi].
  assert (H1 : inject_Z 10 / inject_Z (Z.pos 10) == 1) by reflexivity.
  assert (H5 : inject_Z 50 / inject_Z (Z.pos 10) == 5) by reflexivity.
  pose proof (rounded_between 10 10 50 x) as Hr.
  rewrite H1, H5 in Hr. apply Hr; assumption.
Qed.

Lemma rounded_hundredth_in_unit (x : Q) :
  0 <= x <= 1 -> 0 <= rounded 100 x <= 1.
Proof.
  intros [Hlo Hhi].
  assert (H0 : inject_Z 0 / inject_Z (Z.pos 100) == 0) by reflexivity.
  assert (H1 : inject_Z 100 / inject_Z (Z.pos 100) == 1) by reflexivity.
  pose proof (rounded_between 100 0 100 x) as Hr.
  rewrite H0, H1 in Hr. apply Hr; assumption.
Qed.

(** X14.  When every fetched rating lies on the scale from 1 to 5, so does
    the average rating of a route with feedback, and it has at most one
    decimal place. *)
Theorem average_rating_within_scale (rows : list FeedbackRow) :
  rows <> [] ->
  Forall (fun f => 1 <= row_rating f <= 5) rows ->
  1 <= getRouteAverageRating (Answered (Some rows) None) <= 5
  /\ Spec.isTenth (getRouteAverageRating (Answered (Some rows) None)).
Proof.
  intros Hne Hall. unfold getRouteAverageRating.
  destruct (count rows =? 0) eqn:Hcount;
    [apply count_zero in Hcount; contradiction |].
  cbv zeta. split.
  - apply rounded_tenth_in_scale, average_bounds; assumption.
  - unfold Spec.isTenth, rounded. eexists. reflexivity.
Qed.

Lemma average_rating_within_scale_witness :
  let rows := [Sample.row 4 ["shade"] "2024-05-01";
               Sample.row 5 ["shade"; "river"] "2024-05-02";
               Sample.row 4 [] "2024-05-03"] in
  rows <> []
  /\ Forall (fun f => 1 <= row_rating f <= 5) rows
  /\ 1 <= getRouteAverageRating (Answered (Some rows) None) <= 5
  /\ getRouteAverageRating (Answered (Some rows) None) == 4.3.
Proof.
  intros rows.
  assert (Hne : rows <> []) by discriminate.
  assert (Hall : Forall (fun f => 1 <= row_rating f <= 5) rows)
    by (repeat constructor; discriminate).
  destruct (average_rating_within_scale rows Hne Hall) as [Hrange _].
  split; [exact Hne | split; [exact Hall | split; [exact Hrange |]]].
  reflexivity.
Defined.

Lemma filter_count_le {A : Type} (p : A -> bool) (l : list A) :
  0 <= count (List.filter p l) <= count l.
Proof.
  split; [apply count_nonneg |].
  unfold count, RecommendationEngine.lengthOf.
  rewrite <- Zle_Qle. apply inj_le, filter_length_le.
Qed.

Lemma slice_0_length_le {A : Type} (n : nat) (l : list A) :
  (length (slice 0 (Z.of_nat n) l) <= n)%nat.
Proof. rewrite slice_0_count, length_take. lia. Qed.

(** X15.  The statistics of a route are thrown away only when the query
    fails.  Otherwise the average rating they carry is the one
    [getRouteAverageRating] gives for the same rows, the number of
    feedbacks is the number of rows, the recommendation rate lies in
    [0,1], and at most ten tags and five comments are listed. *)
Theorem statistics_agree_with_average (getTime : string -> Q)
    (trim : string -> string) (routeId : string)
    (answer : Answer (list FeedbackRow)) :
  match getRouteFeedbackStats getTime trim routeId answer with
  | Thrown =>
      answer = Refused
      \/ exists data code, answer = Answered data (Some code)
  | Returned stats =>
      exists data,
        answer = Answered data None
        /\ averageRating stats = getRouteAverageRating answer
        /\ totalFeedbacks stats = count (default [] data)
        /\ 0 <= recommendationRate stats <= 1
        /\ (length (popularTags stats) <= 10)%nat
        /\ (length (recentComments stats) <= 5)%nat
  end.
Proof.
  destruct answer as [data [code |] |]; cbn [getRouteFeedbackStats].
  - right. eauto.
  - destruct (count (default [] data) =? 0) eqn:Hcount; cbv zeta.
    + exists data. apply count_zero in Hcount.
      cbn [averageRating totalFeedbacks recommendationRate popularTags
             recentComments length].
      split; [reflexivity |]. split.
      { destruct data as [rows |]; cbn in Hcount |- *;
          [subst rows |]; reflexivity. }
      rewrite Hcount. repeat split; try reflexivity; try lia; discriminate.
    + exists data.
      cbn [averageRating totalFeedbacks recommendationRate popularTags
             recentComments].
      split; [reflexivity |]. split.
      { destruct data as [rows |]; cbn [default from_option] in *.
        - unfold getRouteAverageRating. cbn in Hcount |- *.
          rewrite Hcount. reflexivity.
        - discriminate. }
      split; [reflexivity |]. split; [| split].
      * apply rounded_hundredth_in_unit.
        pose proof (filter_count_le (fun f => row_rating f >=? 4)
                      (default [] data)) as [Hf0 Hf1].
        assert (Hpos : 0 < count (default [] data)).
        { apply Qeqb_neq in Hcount.
          pose proof (count_nonneg (default [] data)). lra. }
        split.
        -- apply Qle_shift_div_l; [exact Hpos | lra].
        -- apply Qle_shift_div_r; [exact Hpos | lra].
      * unfold rankTags. apply (slice_0_length_le 10).
      * rewrite length_map. apply (slice_0_length_le 5).
  - left. reflexivity.
Qed.

(** *** Tag counts *)




















(** *** Submission *)

(** X18.  A submission throws exactly when the insertion of the feedback
    fails.  The insertion is always the first write asked for; the only
    other write is one upsert of the preferences of the same user, asked
    for after a successful insertion when the stored preferences could be
    read (or there are none yet, error code PGRST116).  Neither a failed
    read of the preferences nor the answer to the upsert changes the
    outcome. *)
Theorem submission_fails_only_with_the_insert (store : Answers)
    (feedback : Submission) (userId : string) :
  let insert :=
    InsertFeedback (routeId (ratings feedback)) userId
      (rating (ratings feedback)) (difficulty (ratings feedback))
      (safety (ratings feedback)) (scenery (ratings feedback))
      (tags feedback) (feedbackComment feedback) in
  let result := submitFeedback store feedback userId in
  (result.2 = Thrown <-> ~ exists data, insertAnswer store = Answered data None)
  /\ (result.1 = [insert]
      \/ exists existingPrefs fetchError,
           result = ([insert;
                      UpsertPreferences userId
                        (updateData existingPrefs (ratings feedback))],
                     Returned tt)
           /\ preferencesAnswer store = Answered existingPrefs fetchError
           /\ (fetchError = None \/ fetchError = Some "PGRST116"))
  /\ forall answer : Answer unit,
       submitFeedback
         {| insertAnswer := insertAnswer store;
            preferencesAnswer := preferencesAnswer store;
            upsertAnswer := answer |} feedback userId
       = result.
Proof.
  cbv zeta. unfold submitFeedback, updateRecommendationLearning,
    updateUserPreferences. cbn [insertAnswer preferencesAnswer].
  destruct (insertAnswer store) as [data [code |] |]; cbn [fst snd].
  - split; [split; [intros _ [d Hd]; discriminate | reflexivity] |].
    split; [left; reflexivity | reflexivity].
  - split.
    { split; [discriminate | intros Hno; exfalso; apply Hno; eauto]. }
    split; [| reflexivity].
    destruct (preferencesAnswer store) as [existing [code |] |];
      [| right; exists existing, None; repeat split; left; reflexivity
       | left; reflexivity].
    destruct (String.eqb_spec code "PGRST116") as [-> | Hcode]; cbn [negb].
    + right. exists existing, (Some "PGRST116").
      repeat split. right. reflexivity.
    + left. reflexivity.
  - split; [split; [intros _ [d Hd]; discriminate | reflexivity] |].
    split; [left; reflexivity | reflexivity].
Qed.

(** Rounding to the tenth is monotone and fixes the tenths. *)
Lemma round_monotone (x y : Q) : x <= y -> (Math.round x <= Math.round y)%Z.
Proof. intros Hxy. unfold Math.round. apply Qfloor_resp_le. lra. Qed.

Lemma round_tenth (old : Q) :
  Spec.isTenth old -> inject_Z (Math.round (old * 10)) / 10 == old.
Proof.
  intros [k Hk].
  assert (Hold : old * 10 == inject_Z k).
  { rewrite Hk. unfold Qdiv. setoid_replace (/ 10) with 0.1
      using relation Qeq by reflexivity. ring. }
  unfold Math.round.
  assert (Hfloor : Qfloor (old * 10 + 0.5) = k).
  { assert (Hlo : (k <= Qfloor (old * 10 + 0.5))%Z).
    { rewrite <- (Qfloor_Z k). apply Qfloor_resp_le. lra. }
    assert (Hhi : (Qfloor (old * 10 + 0.5) < k + 1)%Z).
    { rewrite Zlt_Qlt. apply (Qle_lt_trans _ (old * 10 + 0.5)).
      - apply Qfloor_le.
      - rewrite inject_Z_plus. change (inject_Z 1) with 1. lra. }
    lia. }
  rewrite Hfloor. symmetry. exact Hk.
Qed.

(** X19.  The update moves a stored preference towards the weighted
    observation [observed * overallRating / 5] and never away from it: a
    preference within [1,10] with at most one decimal place does not grow
    when the weighted observation is below it and does not shrink when the
    weighted observation is above it. *)
Theorem update_moves_towards_observation (old observed overallRating : Q) :
  Spec.isTenth old -> 1 <= old <= 10 ->
  (observed * (overallRating / 5) <= old ->
   calculateNewPreference old observed overallRating <= old)
  /\ (old <= observed * (overallRating / 5) ->
      old <= calculateNewPreference old observed overallRating).
Proof.
  intros Hgrid [Hlo Hhi]. unfold calculateNewPreference.
  destruct (observed =? 0); [split; intros; apply Qle_refl |].
  cbv zeta. set (target := observed * (overallRating / 5)).
  set (ema := old * 0.8 + target * 0.2).
  pose proof (round_tenth old Hgrid) as Hfix.
  assert (Hdiv : forall a b : Z, (a <= b)%Z ->
            inject_Z a / 10 <= inject_Z b / 10).
  { intros a b Hab. apply Qmult_le_compat_r; [| discriminate].
    rewrite <- Zle_Qle. exact Hab. }
  unfold Math.max, Math.min. split; intros Htarget.
  - assert (Hema : ema * 10 <= old * 10) by (unfold ema; clearbody target; lra).
    pose proof (Hdiv _ _ (round_monotone _ _ Hema)) as Hr.
    set (rnew := inject_Z (Math.round (ema * 10)) / 10) in *.
    set (rold := inject_Z (Math.round (old * 10)) / 10) in *.
    clearbody rnew rold.
    apply Q.max_lub; [exact Hlo |].
    apply (Qle_trans _ _ _ (Q.le_min_r _ _)). lra.
  - assert (Hema : old * 10 <= ema * 10) by (unfold ema; clearbody target; lra).
    pose proof (Hdiv _ _ (round_monotone _ _ Hema)) as Hr.
    set (rnew := inject_Z (Math.round (ema * 10)) / 10) in *.
    set (rold := inject_Z (Math.round (old * 10)) / 10) in *.
    clearbody rnew rold.
    apply (Qle_trans _ (Qmin 10 rnew)); [| apply Q.le_max_r].
    apply Q.min_glb; lra.
Qed.

Lemma update_moves_towards_observation_witness :
  Spec.isTenth 5 /\ 1 <= 5 <= 10
  /\ 3 * (4 / 5) <= 5
  /\ calculateNewPreference 5 3 4 <= 5.
Proof.
  assert (Hgrid : Spec.isTenth 5) by (exists 50%Z; reflexivity).
  assert (Hrange : 1 <= 5 <= 10) by (split; discriminate).
  assert (Htarget : 3 * (4 / 5) <= 5) by discriminate.
  destruct (update_moves_towards_observation 5 3 4 Hgrid Hrange)
    as [Hdown _].
  split; [exact Hgrid | split; [exact Hrange | split; [exact Htarget |]]].
  exact (Hdown Htarget).
Defined.

End FeedbackQueriesFacts.

(** ** The safety analysis service *)

Module SafetyFacts.
Import SafetyAnalysis.

Module Tests.
Import Sample.

Example risk_in_the_centre_in_the_morning :
  let analysis := analyzeEnvironmentalRisk safetyAnalysisService 8 centre None in
  (overall_risk analysis =? 28) = true
  /\ risk_factors analysis = [high_crime_rate].
Proof. split; vm_compute; reflexivity. Qed.

Example risk_in_a_storm_at_night :
  let analysis :=
    analyzeEnvironmentalRisk safetyAnalysisService 23 centre
      (Some stormyNight) in
  (overall_risk analysis =? 100) = true
  /\ risk_factors analysis
     = [poor_lighting; weather_conditions; isolated_area; weather_conditions;
        poor_lighting; high_crime_rate].
Proof. split; vm_compute; reflexivity. Qed.

Example assessment_of_a_quiet_morning :
  let assessment :=
    getRealTimeSafetyAssessment safetyAnalysisService 8 suburb None in
  (overall assessment =? 80) = true
  /\ level assessment = "very_safe"
  /\ length (alerts assessment) = 1%nat
  /\ scoreRecommendations assessment
     = [ "建议在上午（7-10点）跑步，安全分数最高（90.0分）";
         "路线中发现1个风险点，建议调整路线或提高警惕";
         "随身携带手机并确保电量充足";
         "告知他人您的跑步路线和预计返回时间";
         "穿着反光或亮色服装提高可见性" ].
Proof. repeat split; vm_compute; reflexivity. Qed.

Example route_analysis_of_a_long_route :
  match analyzeRouteSafety safetyAnalysisService 22 anyRendering 30
          longRoute None None with
  | Finished analysis =>
      routeId analysis = "route-x"
      /\ riskHotspots analysis = []
      /\ routeRecommendations analysis
         = [ "建议在上午（7-10点）跑步，安全分数最高（90.0分）";
             "避免在深夜（23-5点）跑步，风险较高";
             "随身携带手机并确保电量充足";
             "告知他人您的跑步路线和预计返回时间";
             "穿着反光或亮色服装提高可见性" ]
  | _ => False
  end.
Proof. vm_compute. repeat split. Qed.

Example fixed_notation :
  map toFixed1 [90; 425 # 7; 0.05; 0.04; - 0.04; 9.96]
  = ["90.0"; "60.7"; "0.1"; "0.0"; "-0.0"; "10.0"].
Proof. vm_compute. reflexivity. Qed.

End Tests.

Lemma historical_risk_values (location : RealtimeLocation) :
  0.2 <= getHistoricalLocationRisk location <= 0.8.
Proof.
  unfold getHistoricalLocationRisk. cbv zeta.
  repeat match goal with
    | |- context [if ?b then _ else _] => destruct b
    end; split; discriminate.
Qed.

Lemma default_weight_values (slot : TimeSlot) :
  0.1 <= timeSlotWeights safetyAnalysisService slot <= 0.9.
Proof. destruct slot; split; discriminate. Qed.

(** The risk of the hour and of the place is always part of the overall
    risk; without environmental data it is all of it. *)
Lemma environmental_risk_parts (now : Z) (location : RealtimeLocation)
    (environmentalData : option EnvironmentalData) :
  let base :=
    (1 - timeSlotWeights safetyAnalysisService (getTimeSlot now)) * 40
    + getHistoricalLocationRisk location * 30 in
  base <= overall_risk
            (analyzeEnvironmentalRisk safetyAnalysisService now location
               environmentalData) <= 100
  /\ overall_risk
       (analyzeEnvironmentalRisk safetyAnalysisService now location None)
     == base.
Proof.
  cbv zeta. unfold analyzeEnvironmentalRisk. cbv zeta.
  pose proof (default_weight_values (getTimeSlot now)) as [Hw0 Hw1].
  pose proof (historical_risk_values location) as [Hh0 Hh1].
  set (w := timeSlotWeights safetyAnalysisService (getTimeSlot now)) in *.
  set (h := getHistoricalLocationRisk location) in *.
  split.
  - destruct environmentalData as [data |].
    + cbn [riskFactorWeights safetyAnalysisService defaultConfig].
      destruct (String.eqb (weather_condition data) "rain"
                || String.eqb (weather_condition data) "storm"),
        (crowdDensity data <? 20), (crowdDensity data >? 80),
        (visibility data <? 40), (lighting_level data <? 40);
        cbn [overall_risk Math.min];
        (split; [apply Q.min_glb; lra | apply Q.le_min_r]).
    + cbn [overall_risk Math.min].
      split; [apply Q.min_glb; lra | apply Q.le_min_r].
  - cbn [overall_risk Math.min]. rewrite Q.min_l by lra. ring.
Qed.

(** X20.  Under the configuration of the exported service the overall
    environmental risk lies between 10 and 100 at every hour, at every
    place and under every environmental data; without environmental data
    it is at most 60. *)
Theorem environmental_risk_bounds (now : Z) (location : RealtimeLocation)
    (environmentalData : option EnvironmentalData) :
  10 <= overall_risk
          (analyzeEnvironmentalRisk safetyAnalysisService now location
             environmentalData) <= 100
  /\ overall_risk
       (analyzeEnvironmentalRisk safetyAnalysisService now location None)
     <= 60.
Proof.
  pose proof (environmental_risk_parts now location environmentalData)
    as [[Hlo Hhi] Hnone].
  cbv zeta in Hlo, Hnone.
  pose proof (default_weight_values (getTimeSlot now)) as [Hw0 Hw1].
  pose proof (historical_risk_values location) as [Hh0 Hh1].
  split; [split; [| exact Hhi] |]; lra.
Qed.

Lemma no_hotspot_without_data (now : Z) (location : RealtimeLocation) :
  (overall_risk
     (analyzeEnvironmentalRisk safetyAnalysisService now location None)
   >? 60) = false.
Proof.
  pose proof (environmental_risk_parts now location None) as [_ Hnone].
  cbv zeta in Hnone.
  pose proof (default_weight_values (getTimeSlot now)) as [Hw0 Hw1].
  pose proof (historical_risk_values location) as [Hh0 Hh1].
  unfold Qgtb. apply negb_false_iff, Qleb_le. lra.
Qed.

Lemma scan_keeps (now : Z) (locations : list RealtimeLocation)
    (step : nat) (fuel i : nat) (hotspots found : list Hotspot) :
  scanHotspots safetyAnalysisService now fuel locations step i hotspots
  = Some found ->
  found = hotspots.
Proof.
  revert i. induction fuel as [| fuel IH]; intros i; cbn [scanHotspots];
    [discriminate |].
  destruct (locations !! i) as [location |]; [| congruence].
  cbv zeta. rewrite no_hotspot_without_data. apply IH.
Qed.

Lemma scan_finishes (now : Z) (locations : list RealtimeLocation)
    (step : nat) (fuel i : nat) (hotspots : list Hotspot) :
  (1 <= step)%nat -> (length locations - i < fuel)%nat ->
  scanHotspots safetyAnalysisService now fuel locations step i hotspots
  = Some hotspots.
Proof.
  intros Hstep. revert i. induction fuel as [| fuel IH]; intros i Hfuel;
    [lia |].
  cbn [scanHotspots].
  destruct (locations !! i) as [location |] eqn:Hi; [| reflexivity].
  cbv zeta. rewrite no_hotspot_without_data.
  apply lookup_lt_Some in Hi. apply IH. lia.
Qed.

Lemma scan_is_stuck (now : Z) (locations : list RealtimeLocation)
    (fuel i : nat) (hotspots : list Hotspot) :
  (i < length locations)%nat ->
  scanHotspots safetyAnalysisService now fuel locations 0 i hotspots = None.
Proof.
  intros Hi. induction fuel as [| fuel IH]; cbn [scanHotspots];
    [reflexivity |].
  destruct (lookup_lt_is_Some_2 locations i Hi) as [location Hl].
  rewrite Hl. cbv zeta. rewrite no_hotspot_without_data, Nat.add_0_r.
  exact IH.
Qed.

Lemma nonempty_route (locations : list RealtimeLocation) :
  (1 <= length locations)%nat ->
  (RecommendationEngine.lengthOf locations =? 0) = false.
Proof.
  intros Hlen. apply Qeqb_neq. unfold RecommendationEngine.lengthOf.
  change 0 with (inject_Z 0). rewrite inject_Z_injective. lia.
Qed.

Lemma long_route_scan (now : Z) (locations : list RealtimeLocation) :
  (10 <= length locations)%nat ->
  identifyRiskHotspots safetyAnalysisService now (S (length locations))
    locations = Some [].
Proof.
  intros Hlen. unfold identifyRiskHotspots. apply scan_finishes; [| lia].
  apply (Nat.div_le_lower_bound _ 10 1); lia.
Qed.

(** X21.  On a route of at least ten locations the scan for risk hotspots
    ends, within as many steps as there are locations, and it reports no
    hotspot: without environmental data no location is ever risky enough. *)
Theorem hotspot_scan_reports_nothing (now : Z)
    (locations : list RealtimeLocation) :
  (10 <= length locations)%nat ->
  identifyRiskHotspots safetyAnalysisService now (S (length locations))
    locations = Some [].
Proof. apply long_route_scan. Qed.

Lemma hotspot_scan_reports_nothing_witness :
  (10 <= length Sample.longRoute)%nat
  /\ identifyRiskHotspots safetyAnalysisService 23
       (S (length Sample.longRoute)) Sample.longRoute = Some [].
Proof.
  assert (Hlen : (10 <= length Sample.longRoute)%nat) by (cbn; lia).
  split; [exact Hlen |].
  exact (hotspot_scan_reports_nothing 23 Sample.longRoute Hlen).
Defined.

(** X22.  On a route of one to nine locations the scan for risk hotspots
    never ends: its step, [Math.floor(length / 10)], is 0, so the index
    stays on the first location.  No amount of fuel lets it finish. *)
Theorem hotspot_scan_stalls_on_short_routes (now : Z)
    (locations : list RealtimeLocation) (fuel : nat) :
  (1 <= length locations <= 9)%nat ->
  identifyRiskHotspots safetyAnalysisService now fuel locations = None
  /\ forall (toString36 : Q -> string)
       (historicalData : option (list RealtimeLocation))
       (incidentData : option (list Incident)),
       analyzeRouteSafety safetyAnalysisService now toString36 fuel locations
         historicalData incidentData = OutOfFuel.
Proof.
  intros [Hlo Hhi].
  assert (Hstall : identifyRiskHotspots safetyAnalysisService now fuel
                     locations = None).
  { unfold identifyRiskHotspots.
    rewrite Nat.div_small by lia. apply scan_is_stuck. lia. }
  split; [exact Hstall |].
  intros toString36 historicalData incidentData. unfold analyzeRouteSafety.
  rewrite (nonempty_route locations) by lia. rewrite Hstall. reflexivity.
Qed.

Lemma hotspot_scan_stalls_on_short_routes_witness :
  (1 <= length Sample.shortRoute <= 9)%nat
  /\ identifyRiskHotspots safetyAnalysisService 8 1000 Sample.shortRoute
     = None.
Proof.
  assert (Hlen : (1 <= length Sample.shortRoute <= 9)%nat) by (cbn; lia).
  split; [exact Hlen |].
  exact (proj1 (hotspot_scan_stalls_on_short_routes 8 Sample.shortRoute 1000
                  Hlen)).
Defined.

(** *** The real-time assessment *)

Lemma In_push {A : Type} (x y : A) (l : list A) :
  In x (push l y) <-> In x l \/ x = y.
Proof. unfold push. rewrite in_app_iff. cbn. intuition congruence. Qed.

(** The score of the assessment in terms of the weight of the hour. *)
Lemma assessment_score (now : Z) (location : RealtimeLocation)
    (environmentalData : option EnvironmentalData) :
  let w := timeSlotWeights safetyAnalysisService (getTimeSlot now) in
  0 <= overall
         (getRealTimeSafetyAssessment safetyAnalysisService now location
            environmentalData)
  /\ (overall
        (getRealTimeSafetyAssessment safetyAnalysisService now location
           environmentalData) <= 140 * w - 46
      \/ overall
           (getRealTimeSafetyAssessment safetyAnalysisService now location
              environmentalData) == 0).
Proof.
  cbv zeta. cbn [getRealTimeSafetyAssessment overall].
  unfold calculateTimeSlotBaseSafety, Math.max.
  pose proof (environmental_risk_parts now location environmentalData)
    as [[Hlo Hhi] _].
  cbv zeta in Hlo.
  pose proof (historical_risk_values location) as [Hh0 Hh1].
  set (w := timeSlotWeights safetyAnalysisService (getTimeSlot now)) in *.
  set (risk := overall_risk _) in *.
  split; [apply Q.le_max_r |].
  destruct (Q.max_spec (w * 100 - risk) 0) as [[_ Hm] | [_ Hm]];
    [right; exact Hm | left; rewrite Hm; lra].
Qed.

Lemma late_hours (now : Z) :
  (17 <= now \/ now < 5)%Z ->
  timeSlotWeights safetyAnalysisService (getTimeSlot now) <= 0.6.
Proof.
  intros Hlate. unfold getTimeSlot.
  repeat match goal with
    | |- context [if ?b then _ else _] => destruct b eqn:?
    end; try discriminate; lia.
Qed.

Lemma outside_the_morning (now : Z) :
  ~ (7 <= now < 10)%Z ->
  timeSlotWeights safetyAnalysisService (getTimeSlot now) <= 0.85.
Proof.
  intros Hout. unfold getTimeSlot.
  repeat match goal with
    | |- context [if ?b then _ else _] => destruct b eqn:?
    end; try discriminate; lia.
Qed.

Lemma level_of_score (now : Z) (location : RealtimeLocation)
    (environmentalData : option EnvironmentalData) :
  let assessment :=
    getRealTimeSafetyAssessment safetyAnalysisService now location
      environmentalData in
  level assessment =
  if overall assessment >=? 80 then "very_safe"
  else if overall assessment >=? 70 then "safe"
  else if overall assessment >=? 55 then "moderate"
  else if overall assessment >=? 40 then "risky"
  else "dangerous".
Proof. reflexivity. Qed.

(** X23.  Under the configuration of the exported service every real-time
    assessment carries the one high-priority warning and counts one risk
    point in its recommendations, because the overall risk, at least 10,
    always exceeds the alert threshold of 7; the overall score lies
    between 0 and 80. *)
Theorem assessment_always_warns (now : Z) (location : RealtimeLocation)
    (environmentalData : option EnvironmentalData) :
  let assessment :=
    getRealTimeSafetyAssessment safetyAnalysisService now location
      environmentalData in
  alerts assessment
  = [ {| alertType := "warning";
         alertMessage := "当前区域存在安全风险，请提高警惕";
         priority := "high" |} ]
  /\ In "路线中发现1个风险点，建议调整路线或提高警惕"
       (scoreRecommendations assessment)
  /\ 0 <= overall assessment <= 80.
Proof.
  cbv zeta.
  pose proof (assessment_score now location environmentalData) as [H0 Hhi].
  cbv zeta in Hhi.
  pose proof (default_weight_values (getTimeSlot now)) as [Hw0 Hw1].
  pose proof (environmental_risk_parts now location environmentalData)
    as [[Hlo _] _].
  cbv zeta in Hlo.
  pose proof (historical_risk_values location) as [Hh0 Hh1].
  assert (Hrisk : (overall_risk
                     (analyzeEnvironmentalRisk safetyAnalysisService now
                        location environmentalData) >? 7) = true).
  { apply Qgtb_lt. lra. }
  split; [| split].
  - cbn [getRealTimeSafetyAssessment alerts]. rewrite Hrisk. reflexivity.
  - cbn [getRealTimeSafetyAssessment scoreRecommendations].
    rewrite Hrisk. unfold recommendationsFrom. cbv zeta.
    change (RecommendationEngine.lengthOf [_] >? 0) with true. cbv iota.
    repeat match goal with
      | |- context [if ?b then _ else _] => destruct b
      end;
      repeat (rewrite In_push; first [right; reflexivity | left]).
  - split; [exact H0 |]. destruct Hhi as [Hhi | Hhi]; lra.
Qed.

(** X24.  From 17 o'clock until 5 o'clock the real-time assessment is
    always [dangerous], with a score below 40, wherever the runner is and
    whatever the environmental data say. *)
Theorem evening_and_night_are_dangerous (now : Z)
    (location : RealtimeLocation)
    (environmentalData : option EnvironmentalData) :
  (17 <= now \/ now < 5)%Z ->
  let assessment :=
    getRealTimeSafetyAssessment safetyAnalysisService now location
      environmentalData in
  overall assessment < 40 /\ level assessment = "dangerous".
Proof.
  intros Hlate assessment. subst assessment.
  pose proof (assessment_score now location environmentalData) as [H0 Hhi].
  cbv zeta in Hhi. pose proof (late_hours now Hlate) as Hw.
  assert (Hlt : overall
                  (getRealTimeSafetyAssessment safetyAnalysisService now
                     location environmentalData) < 40)
    by (destruct Hhi as [Hhi | Hhi]; lra).
  split; [exact Hlt |].
  rewrite level_of_score. cbv zeta.
  repeat match goal with
    | |- context [if ?b then _ else _] => destruct b eqn:?
    end; try reflexivity; unfold Qgeb in *; reflect_tests; lra.
Qed.

Lemma evening_and_night_are_dangerous_witness :
  (17 <= 22 \/ 22 < 5)%Z
  /\ level
       (getRealTimeSafetyAssessment safetyAnalysisService 22 Sample.suburb
          None) = "dangerous".
Proof.
  assert (Hlate : (17 <= 22 \/ 22 < 5)%Z) by (left; lia).
  split; [exact Hlate |].
  exact (proj2 (evening_and_night_are_dangerous 22 Sample.suburb None Hlate)).
Defined.

(** X25.  A real-time assessment is [very_safe] only between 7 and 10
    o'clock. *)
Theorem very_safe_only_in_the_morning (now : Z) (location : RealtimeLocation)
    (environmentalData : option EnvironmentalData) :
  level
    (getRealTimeSafetyAssessment safetyAnalysisService now location
       environmentalData) = "very_safe" ->
  (7 <= now < 10)%Z.
Proof.
  intros Hlevel.
  destruct (decide (7 <= now < 10)%Z) as [Hin | Hout]; [exact Hin |].
  exfalso.
  pose proof (assessment_score now location environmentalData) as [H0 Hhi].
  cbv zeta in Hhi. pose proof (outside_the_morning now Hout) as Hw.
  rewrite level_of_score in Hlevel. cbv zeta in Hlevel.
  destruct (overall _ >=? 80) eqn:H80.
  - unfold Qgeb in H80. reflect_tests. destruct Hhi as [Hhi | Hhi]; lra.
  - repeat match type of Hlevel with
      | context [if ?b then _ else _] => destruct b
      end; discriminate.
Qed.

Lemma very_safe_only_in_the_morning_witness :
  level (getRealTimeSafetyAssessment safetyAnalysisService 8 Sample.suburb None)
  = "very_safe"
  /\ (7 <= 8 < 10)%Z.
Proof.
  assert (Hlevel : level
            (getRealTimeSafetyAssessment safetyAnalysisService 8
               Sample.suburb None) = "very_safe")
    by (vm_compute; reflexivity).
  split; [exact Hlevel |].
  exact (very_safe_only_in_the_morning 8 Sample.suburb None Hlevel).
Defined.

(** *** Time slots and routes *)

Lemma lengthOf_nonneg {A : Type} (l : list A) :
  0 <= RecommendationEngine.lengthOf l.
Proof.
  unfold RecommendationEngine.lengthOf.
  change 0 with (inject_Z 0). rewrite <- Zle_Qle. lia.
Qed.

Lemma slot_safety (now : Z) (slot : TimeSlot)
    (locationHistory : list RealtimeLocation)
    (incidentData : option (list Incident)) :
  0 <= safetyScore
         (analyzeTimeSlotSafety safetyAnalysisService now slot
            locationHistory incidentData)
    <= calculateTimeSlotBaseSafety safetyAnalysisService slot
  /\ safetyScore
       (analyzeTimeSlotSafety safetyAnalysisService now slot
          locationHistory None)
     == calculateTimeSlotBaseSafety safetyAnalysisService slot
  /\ timeSlot
       (analyzeTimeSlotSafety safetyAnalysisService now slot
          locationHistory incidentData) = slot.
Proof.
  unfold analyzeTimeSlotSafety, calculateTimeSlotBaseSafety. cbv zeta.
  cbn [safetyScore timeSlot].
  pose proof (default_weight_values slot) as [Hw0 Hw1].
  set (w := timeSlotWeights safetyAnalysisService slot) in *.
  set (runs := RecommendationEngine.lengthOf (List.filter _ locationHistory)).
  split; [| split; [| reflexivity]].
  - set (incidents := RecommendationEngine.lengthOf _).
    assert (Hi : 0 <= incidents) by apply lengthOf_nonneg.
    assert (Hrate : 0 <= (if runs >? 0 then incidents / runs else 0)).
    { destruct (runs >? 0) eqn:Hruns; [| lra].
      apply Qgtb_lt in Hruns. apply Qle_shift_div_l; [exact Hruns | lra]. }
    set (rate := if runs >? 0 then incidents / runs else 0) in *.
    unfold Math.max. split; [apply Q.le_max_r |].
    apply Q.max_lub; nra.
  - change (RecommendationEngine.lengthOf []) with 0.
    assert (Hrate : (if runs >? 0 then 0 / runs else 0) == 0).
    { destruct (runs >? 0); [| reflexivity]. unfold Qdiv. ring. }
    unfold Math.max. rewrite Hrate. rewrite Q.max_l by lra. ring.
Qed.


(** X26.  The safety score of a time slot lies between 0 and the base
    score of the slot, 100 times its weight; incidents can only lower it,
    and without incident data it is the base score. *)
Theorem time_slot_safety_bounds (now : Z) (slot : TimeSlot)
    (locationHistory : list RealtimeLocation)
    (incidentData : option (list Incident)) :
  0 <= safetyScore
         (analyzeTimeSlotSafety safetyAnalysisService now slot
            locationHistory incidentData)
    <= calculateTimeSlotBaseSafety safetyAnalysisService slot
  /\ safetyScore
       (analyzeTimeSlotSafety safetyAnalysisService now slot
          locationHistory None)
     == calculateTimeSlotBaseSafety safetyAnalysisService slot
  /\ timeSlot
       (analyzeTimeSlotSafety safetyAnalysisService now slot
          locationHistory incidentData) = slot.
Proof. apply slot_safety. Qed.

Lemma riskiest_is_lowest (first : TimeSlotSafetyData)
    (others : list TimeSlotSafetyData) :
  let riskiest :=
    fold_left
      (fun riskiest current =>
         if safetyScore current <? safetyScore riskiest then current
         else riskiest) others first in
  safetyScore riskiest <= safetyScore first
  /\ forall data, In data others -> safetyScore riskiest <= safetyScore data.
Proof.
  cbv zeta. revert first.
  induction others as [| next others IH]; intros first; cbn [fold_left].
  - split; [apply Qle_refl | intros data []].
  - destruct (safetyScore next <? safetyScore first) eqn:Hlt;
      unfold Qltb in Hlt; reflect_tests;
      destruct (IH next) as [Hn Hon]; destruct (IH first) as [Hf Hof].
    + split; [lra |]. intros data [<- | Hin]; [exact Hn | apply Hon, Hin].
    + split; [exact Hf |]. intros data [<- | Hin]; [lra | apply Hof, Hin].
Qed.

(** The analysis of a route of at least ten locations, spelt out. *)
Lemma long_route_analysis (now : Z) (toString36 : Q -> string)
    (locations : list RealtimeLocation)
    (historicalData : option (list RealtimeLocation))
    (incidentData : option (list Incident)) :
  (10 <= length locations)%nat ->
  let analyse := fun slot =>
    analyzeTimeSlotSafety safetyAnalysisService now slot
      (default [] historicalData) incidentData in
  analyzeRouteSafety safetyAnalysisService now toString36
    (S (length locations)) locations historicalData incidentData
  = Finished
      {| routeId := generateRouteId toString36 locations;
         overallSafetyScore :=
           calculateOverallSafety (map analyse timeSlots) [];
         timeSlotAnalysis := map analyse timeSlots;
         riskHotspots := [];
         routeRecommendations :=
           recommendationsFrom (analyse early_morning)
             (map analyse
                [morning; late_morning; afternoon; evening; night;
                 late_night]) [] |}.
Proof.
  intros Hlen analyse. unfold analyzeRouteSafety.
  rewrite (nonempty_route locations) by lia.
  rewrite (long_route_scan now locations Hlen). reflexivity.
Qed.

Lemma overall_of_seven (a b c d e f g : TimeSlotSafetyData) :
  calculateOverallSafety [a; b; c; d; e; f; g] []
  == Qmax
       ((safetyScore a + safetyScore b + safetyScore c + safetyScore d
         + safetyScore e + safetyScore f + safetyScore g) * (1 # 7)) 0.
Proof.
  unfold calculateOverallSafety, RecommendationEngine.reduce, Math.max.
  cbn [fold_left]. apply Q.max_compat; [| reflexivity].
  change (RecommendationEngine.lengthOf []) with 0.
  change (RecommendationEngine.lengthOf _) with 7.
  unfold Qdiv. setoid_replace (/ 7) with (1 # 7) using relation Qeq
    by reflexivity.
  ring.
Qed.

Lemma default_base_safety (slot : TimeSlot) :
  calculateTimeSlotBaseSafety safetyAnalysisService slot
  = match slot with
    | early_morning => 0.7 * 100
    | morning => 0.9 * 100
    | late_morning => 0.85 * 100
    | afternoon => 0.8 * 100
    | evening => 0.6 * 100
    | night => 0.3 * 100
    | late_night => 0.1 * 100
    end.
Proof. destruct slot; reflexivity. Qed.

Lemma toFixed1_compat (x y : Q) : x == y -> toFixed1 x = toFixed1 y.
Proof.
  intros Hxy. unfold toFixed1.
  assert (Hfloor : Qfloor (x * 10 + 0.5) = Qfloor (y * 10 + 0.5))
    by (apply Qfloor_comp; rewrite Hxy; reflexivity).
  assert (Hneg : Qfloor (- x * 10 + 0.5) = Qfloor (- y * 10 + 0.5))
    by (apply Qfloor_comp; rewrite Hxy; reflexivity).
  assert (Hsign : (x <? 0) = (y <? 0)).
  { destruct (x <? 0) eqn:Hx, (y <? 0) eqn:Hy; try reflexivity;
      reflect_tests; lra. }
  rewrite Hsign, Hfloor, Hneg. reflexivity.
Qed.

(** Settles the comparisons of the goal that the context decides. *)
Ltac settle_tests :=
  unfold Qltb, Qgtb, Qgeb;
  repeat match goal with
    | |- context [?a <=? ?b] =>
        first
          [ replace (a <=? b) with true
              by (symmetry; apply Qleb_le; lra)
          | replace (a <=? b) with false
              by (symmetry; apply Qleb_gt; lra) ];
        cbn [negb]
    end.

(** X27.  The analysis of a route of at least ten locations ends and
    reports no hotspot.  It covers the seven time slots in their order,
    its overall score lies between 0 and 425/7 (about 60.7), and it gives
    five recommendations: the safest slot, a slot to avoid, and the three
    general ones. *)
Theorem analysis_of_a_long_route (now : Z) (toString36 : Q -> string)
    (locations : list RealtimeLocation)
    (historicalData : option (list RealtimeLocation))
    (incidentData : option (list Incident)) :
  (10 <= length locations)%nat ->
  exists analysis : RouteSafetyAnalysis,
    analyzeRouteSafety safetyAnalysisService now toString36
      (S (length locations)) locations historicalData incidentData
    = Finished analysis
    /\ riskHotspots analysis = []
    /\ map timeSlot (timeSlotAnalysis analysis) = timeSlots
    /\ 0 <= overallSafetyScore analysis <= 425 # 7
    /\ exists safest avoid : string,
         routeRecommendations analysis
         = [ safest; avoid;
             "随身携带手机并确保电量充足";
             "告知他人您的跑步路线和预计返回时间";
             "穿着反光或亮色服装提高可见性" ].
Proof.
  intros Hlen.
  rewrite (long_route_analysis now toString36 locations historicalData
             incidentData Hlen). cbv zeta.
  set (analyse := fun slot =>
         analyzeTimeSlotSafety safetyAnalysisService now slot
           (default [] historicalData) incidentData).
  eexists. split; [reflexivity |].
  cbn [riskHotspots timeSlotAnalysis overallSafetyScore routeRecommendations
         timeSlots map].
  split; [reflexivity |].
  assert (Hslot : forall slot,
            0 <= safetyScore (analyse slot)
              <= calculateTimeSlotBaseSafety safetyAnalysisService slot
            /\ timeSlot (analyse slot) = slot).
  { intros slot.
    destruct (slot_safety now slot (default [] historicalData) incidentData)
      as (Hb & _ & Ht).
    split; assumption. }
  split; [rewrite !(proj2 (Hslot _)); reflexivity |].
  split.
  - rewrite overall_of_seven.
    destruct (Hslot early_morning) as [[? ?] _].
    destruct (Hslot morning) as [[? ?] _].
    destruct (Hslot late_morning) as [[? ?] _].
    destruct (Hslot afternoon) as [[? ?] _].
    destruct (Hslot evening) as [[? ?] _].
    destruct (Hslot night) as [[? ?] _].
    destruct (Hslot late_night) as [[? ?] _].
    rewrite default_base_safety in *.
    split; [apply Q.le_max_r | apply Q.max_lub; lra].
  - unfold recommendationsFrom. cbv zeta.
    change (RecommendationEngine.lengthOf (@nil Hotspot) >? 0) with false.
    cbv iota.
    match goal with
    | |- context [fold_left ?f ?others ?first] =>
        match f with
        | context [Qltb] =>
            pose proof (riskiest_is_lowest first others) as [_ Hlow];
            cbv zeta in Hlow;
            set (riskiest := fold_left f others first) in *
        end
    end.
    assert (Hworst : (safetyScore riskiest <? 50) = true).
    { specialize (Hlow (analyse late_night)).
      destruct (Hslot late_night) as [[_ Hhi] _].
      rewrite default_base_safety in Hhi.
      unfold Qltb. apply negb_true_iff, Qleb_gt.
      apply (Qle_lt_trans _ (safetyScore (analyse late_night)));
        [apply Hlow; cbn; tauto | lra]. }
    rewrite Hworst. unfold push. cbn [app]. eauto.
Qed.

Lemma analysis_of_a_long_route_witness :
  (10 <= length Sample.longRoute)%nat
  /\ exists analysis : RouteSafetyAnalysis,
       analyzeRouteSafety safetyAnalysisService 22 Sample.anyRendering
         (S (length Sample.longRoute)) Sample.longRoute None
         (Some [ {| incidentTimeSlot := night;
                    incidentLocation := Sample.centre;
                    incidentType := "theft" |} ])
       = Finished analysis
       /\ riskHotspots analysis = [].
Proof.
  assert (Hlen : (10 <= length Sample.longRoute)%nat) by (cbn; lia).
  split; [exact Hlen |].
  destruct (analysis_of_a_long_route 22 Sample.anyRendering Sample.longRoute
              None
              (Some [ {| incidentTimeSlot := night;
                         incidentLocation := Sample.centre;
                         incidentType := "theft" |} ]) Hlen)
    as (analysis & Hrun & Hnone & _).
  exists analysis. split; assumption.
Defined.

(** X28.  Without incident data the analysis of a route of at least ten
    locations does not depend on the route, on the history or on the
    hour: the overall score is 425/7 (about 60.7) and the recommendations
    are always the same five, the morning as the safest slot with 90.0
    points and the late night as the slot to avoid. *)
Theorem analysis_without_incident_data (now : Z) (toString36 : Q -> string)
    (locations : list RealtimeLocation)
    (historicalData : option (list RealtimeLocation)) :
  (10 <= length locations)%nat ->
  exists analysis : RouteSafetyAnalysis,
    analyzeRouteSafety safetyAnalysisService now toString36
      (S (length locations)) locations historicalData None
    = Finished analysis
    /\ overallSafetyScore analysis == 425 # 7
    /\ routeRecommendations analysis
       = [ "建议在上午（7-10点）跑步，安全分数最高（90.0分）";
           "避免在深夜（23-5点）跑步，风险较高";
           "随身携带手机并确保电量充足";
           "告知他人您的跑步路线和预计返回时间";
           "穿着反光或亮色服装提高可见性" ].
Proof.
  intros Hlen.
  rewrite (long_route_analysis now toString36 locations historicalData None
             Hlen). cbv zeta.
  set (analyse := fun slot =>
         analyzeTimeSlotSafety safetyAnalysisService now slot
           (default [] historicalData) None).
  eexists. split; [reflexivity |].
  cbn [overallSafetyScore routeRecommendations timeSlots map].
  assert (Hslot : forall slot,
            safetyScore (analyse slot)
            == calculateTimeSlotBaseSafety safetyAnalysisService slot
            /\ timeSlot (analyse slot) = slot).
  { intros slot.
    destruct (slot_safety now slot (default [] historicalData) None)
      as (_ & Hb & Ht).
    split; assumption. }
  destruct (Hslot early_morning) as [H1 T1].
  destruct (Hslot morning) as [H2 T2].
  destruct (Hslot late_morning) as [H3 T3].
  destruct (Hslot afternoon) as [H4 T4].
  destruct (Hslot evening) as [H5 T5].
  destruct (Hslot night) as [H6 T6].
  destruct (Hslot late_night) as [H7 T7].
  rewrite default_base_safety in *. clear Hslot.
  split.
  - rewrite overall_of_seven, H1, H2, H3, H4, H5, H6, H7. reflexivity.
  - unfold recommendationsFrom. cbv zeta.
    change (RecommendationEngine.lengthOf (@nil Hotspot) >? 0) with false.
    cbv iota. cbn [fold_left].
    change (analyzeTimeSlotSafety safetyAnalysisService now early_morning
              (default [] historicalData) None)
      with (analyse early_morning).
    settle_tests.
    rewrite T2, T7, (toFixed1_compat _ _ H2).
    reflexivity.
Qed.

Lemma analysis_without_incident_data_witness :
  (10 <= length Sample.longRoute)%nat
  /\ exists analysis : RouteSafetyAnalysis,
       analyzeRouteSafety safetyAnalysisService 22 Sample.anyRendering
         (S (length Sample.longRoute)) Sample.longRoute None None
       = Finished analysis
       /\ overallSafetyScore analysis == 425 # 7.
Proof.
  assert (Hlen : (10 <= length Sample.longRoute)%nat) by (cbn; lia).
  split; [exact Hlen |].
  destruct (analysis_without_incident_data 22 Sample.anyRendering
              Sample.longRoute None Hlen) as (analysis & Hrun & Hscore & _).
  exists analysis. split; assumption.
Defined.

End SafetyFacts.
